(** * QuCumber: the observable-evaluation callback and the energy trial records

    A shallow embedding of [qucumber/callbacks/observable_evaluator.py] and of
    the record writer and reader of [Energy.py] ([trainEnergy], [analysis]),
    followed by the properties of these programs.

    Python integers are [Z], Python strings are [string], Python lists are
    [list], a [dict] with [str] keys is an insertion-ordered association
    list, an instance [__dict__] is a [gmap string _], and a raised exception
    is the [Raise] constructor of [Py.result]. *)

From stdpp Require Import base list strings gmap pretty.
From Stdlib Require Import ZArith Lia Ascii Sorted.
Local Open Scope Z_scope.

(** ** Python primitives used by the two source files *)

Module Py.

Inductive exn :=
| AttributeError
| IndexError
| KeyError
| TypeError
| ValueError
| ZeroDivisionError
| FileNotFoundError.

Inductive result (A : Type) :=
| Ok (a : A)
| Raise (e : exn).
Arguments Ok {A} a.
Arguments Raise {A} e.

#[global] Instance result_ret : MRet result := @Ok.
#[global] Instance result_bind : MBind result :=
  λ A B f m, match m with Ok a => f a | Raise e => Raise e end.
#[global] Instance result_fmap : FMap result :=
  λ A B f m, match m with Ok a => Ok (f a) | Raise e => Raise e end.

#[global] Instance exn_eq_dec : EqDecision exn.
Proof. solve_decision. Defined.

(** [l[i]] on a list or tuple: a negative index counts from the end. *)
Definition getitem {A} (l : list A) (i : Z) : result A :=
  let n := Z.of_nat (length l) in
  let k := if bool_decide (i < 0) then i + n else i in
  if bool_decide (0 ≤ k < n)
  then from_option Ok (Raise IndexError) (l !! Z.to_nat k)
  else Raise IndexError.

(** A [dict] keyed by strings, in insertion order. *)
Definition dict (V : Type) : Type := list (string * V).

(** [d[k]] *)
Fixpoint dict_getitem {V} (d : dict V) (k : string) : result V :=
  match d with
  | [] => Raise KeyError
  | (k', v) :: d' => if String.eqb k' k then Ok v else dict_getitem d' k
  end.

(** [d.copy()]: a new dict with the same items. *)
Definition dict_copy {V} (d : dict V) : dict V := d.

(** [d.items()] *)
Definition dict_items {V} (d : dict V) : list (string * V) := d.

(** [a % b] on integers: the result has the sign of [b]. *)
Definition mod_ (a b : Z) : result Z :=
  if bool_decide (b = 0) then Raise ZeroDivisionError else Ok (a `mod` b).

(** [str(n)] and ["{}".format(n)] for an integer. *)
Definition str_int (n : Z) : string := pretty n.

(** [sep.join(l)] *)
Definition join (sep : string) (l : list string) : string := String.concat sep l.

Definition newline : ascii := "010"%char.
Definition tab : ascii := "009"%char.
Definition space : ascii := " "%char.

(** [c.isdigit()] on an ASCII character. *)
Definition isdigit (c : ascii) : bool :=
  let n := Ascii.nat_of_ascii c in
  (Nat.leb 48 n && Nat.leb n 57)%bool.

(** [int(c)] for a one-character string. *)
Definition int_of_char (c : ascii) : result Z :=
  if isdigit c then Ok (Z.of_nat (Ascii.nat_of_ascii c) - 48) else Raise ValueError.

(** [s.split(sep)] with a one-character separator: every occurrence
    splits, adjacent separators give empty strings. *)
Fixpoint split (sep : ascii) (s : string) : list string :=
  match s with
  | EmptyString => [EmptyString]
  | String c r =>
      if Ascii.eqb c sep then EmptyString :: split sep r
      else match split sep r with
           | [] => [String c EmptyString]
           | h :: t => String c h :: t
           end
  end.

(** [s.lstrip(c)], [s.rstrip(c)] and [s.strip(c)] for a one-character set. *)
Fixpoint lstrip (c : ascii) (s : string) : string :=
  match s with
  | EmptyString => EmptyString
  | String a r => if Ascii.eqb a c then lstrip c r else s
  end.

Fixpoint rstrip (c : ascii) (s : string) : string :=
  match s with
  | EmptyString => EmptyString
  | String a r =>
      match rstrip c r with
      | EmptyString => if Ascii.eqb a c then EmptyString else String a EmptyString
      | r' => String a r'
      end
  end.

Definition strip (c : ascii) (s : string) : string := rstrip c (lstrip c s).

(** [f.readlines()] on the text of a file: the lines, each with its
    terminating newline; a last line without one is kept as it is. The text
    is the one Python sees, with its line ends already translated. *)
Fixpoint readlines (s : string) : list string :=
  match s with
  | EmptyString => []
  | String c r =>
      if Ascii.eqb c newline then String c EmptyString :: readlines r
      else match readlines r with
           | [] => [String c EmptyString]
           | l :: ls => String c l :: ls
           end
  end.

(** [c in s] *)
Fixpoint contains (c : ascii) (s : string) : bool :=
  match s with
  | EmptyString => false
  | String a r => (Ascii.eqb a c || contains c r)%bool
  end.

(** ["".join(l)] *)
Fixpoint cat (l : list string) : string :=
  match l with
  | [] => EmptyString
  | x :: l' => x +:+ cat l'
  end.

(** [for x in l: body], threading the loop state, stopping at the first
    exception. *)
Fixpoint for_ {A S} (l : list A) (body : S → A → result S) (s : S) : result S :=
  match l with
  | [] => Ok s
  | x :: l' => s' ← body s x; for_ l' body s'
  end.

(** [range(a, b)] *)
Definition range (a b : Z) : list Z := seqZ a (b - a).

End Py.
Import Py.

(** ** [qucumber/callbacks/observable_evaluator.py] *)

(** The collaborators of the callback: [System.measure] of
    [qucumber.observables], which samples the wavefunction and returns a dict
    of observable name to value, and the ["{:.6f}"] format of a value. *)
Class Sampling (NNState Observable KwArg V : Type) := {
  System_measure : list Observable → NNState → dict KwArg → dict V;
  format_6f : V → string
}.

Module ObservableEvaluator.
Section Evaluator.
Context {NNState Observable KwArg V : Type}.
Context `{!Sampling NNState Observable KwArg V}.

(** The instance attributes assigned by [__init__]; no other method
    assigns any other attribute. *)
Record t := {
  period : Z;
  observables : list Observable;
  observable_statistics : list (Z * dict V);
  system : list Observable;
  last : dict V;
  verbose : bool;
  sampling_kwargs : dict KwArg
}.

(** What the callback does to the outside: a call of [System.measure] and
    text printed to stdout. *)
Inductive event :=
| Measure (sys : list Observable) (nn_state : NNState) (kwargs : dict KwArg)
| Print (text : string).

(** The [System] built from the observables handed to the constructor. *)
Definition System (obs : list Observable) : list Observable := obs.

Definition __init__ (period : Z) (observables : list Observable)
    (verbose : bool) (sampling_kwargs : dict KwArg) : t :=
  {| period := period;
     observables := observables;
     observable_statistics := [];
     system := System observables;
     last := [];
     verbose := verbose;
     sampling_kwargs := sampling_kwargs |}.

Definition clear_history (self : t) : t :=
  {| period := period self;
     observables := observables self;
     observable_statistics := [];
     system := system self;
     last := [];
     verbose := verbose self;
     sampling_kwargs := sampling_kwargs self |}.

Definition get_value (self : t) (name : string) (index : option Z) : result V :=
  let index := match index with Some i => i | None => -1 end in
  entry ← getitem (observable_statistics self) index;
  obs_vals ← getitem [inl (fst entry); inr (snd entry)] (-1);
  match obs_vals with
  | inr d => dict_getitem d name
  | inl _ => Raise TypeError
  end.

(** The result is the instance after the call together with what was done
    to the outside; the only exception, that of [%], is raised before
    anything is assigned or measured. [verbose] is a [bool], so that
    [self.verbose is True] is [verbose self]. *)
Definition on_epoch_end (self : t) (nn_state : NNState) (epoch : Z)
    : result (t * list event) :=
  r ← mod_ epoch (period self);
  if bool_decide (r = 0) then
    let obs_vals := System_measure (system self) nn_state (sampling_kwargs self) in
    let self :=
      {| period := period self;
         observables := observables self;
         observable_statistics := observable_statistics self ++ [(epoch, obs_vals)];
         system := system self;
         last := dict_copy obs_vals;
         verbose := verbose self;
         sampling_kwargs := sampling_kwargs self |} in
    let printed :=
      if verbose self then
        [Print ("Epoch: " +:+ str_int epoch +:+ String tab EmptyString);
         Print (join (String tab EmptyString)
                  ((λ kv, fst kv +:+ " = " +:+ format_6f (snd kv)) <$> dict_items (last self))
                +:+ String newline EmptyString)]
      else [] in
    Ok (self, Measure (system self) nn_state (sampling_kwargs self) :: printed)
  else Ok (self, []).

(** *** Attribute lookup, for [__len__] *)

(** The values held by the attributes of an instance and of its class. *)
Inductive attr :=
| AInt (z : Z)
| ABool (b : bool)
| ATuple (obs : list Observable)
| AList (h : list (Z * dict V))
| ADict (d : dict V)
| AKwargs (d : dict KwArg)
| ASystem (obs : list Observable)
| AFunction (name : string).

Definition instance_dict (self : t) : gmap string attr :=
  {[ "period" := AInt (period self);
     "observables" := ATuple (observables self);
     "observable_statistics" := AList (observable_statistics self);
     "system" := ASystem (system self);
     "last" := ADict (last self);
     "verbose" := ABool (verbose self);
     "sampling_kwargs" := AKwargs (sampling_kwargs self) ]}.

(** The names bound in the body of [class ObservableEvaluator]. *)
Definition class_namespace : list string :=
  ["__init__"; "__len__"; "clear_history"; "get_value"; "on_epoch_end"].

(** [self.name]: the instance [__dict__], then the class, then its base
    [Callback]. The source of [Callback] is not part of this development:
    what the lookup of a name gives there (through an attribute of the base
    class or through a [__getattr__] of it) is the parameter
    [Callback_getattr]. *)
Definition getattr (Callback_getattr : string → option attr) (self : t) (name : string)
    : result attr :=
  match instance_dict self !! name with
  | Some v => Ok v
  | None =>
      if bool_decide (name ∈ class_namespace)
      then Ok (AFunction name)
      else from_option Ok (Raise AttributeError) (Callback_getattr name)
  end.

(** [len(x)] *)
Definition len (x : attr) : result Z :=
  match x with
  | ATuple l => Ok (Z.of_nat (length l))
  | AList l => Ok (Z.of_nat (length l))
  | ADict d => Ok (Z.of_nat (length d))
  | AKwargs d => Ok (Z.of_nat (length d))
  | AInt _ | ABool _ | ASystem _ | AFunction _ => Raise TypeError
  end.

Definition __len__ (Callback_getattr : string → option attr) (self : t) : result Z :=
  metric_values ← getattr Callback_getattr self "metric_values";
  len metric_values.

(** *** States an instance can be in *)

Inductive reachable : t → Prop :=
| reachable_init p obs vb kw : reachable (__init__ p obs vb kw)
| reachable_clear self : reachable self → reachable (clear_history self)
| reachable_epoch self nn_state epoch self' evs :
    reachable self →
    on_epoch_end self nn_state epoch = Ok (self', evs) →
    reachable self'.

(** Modelled from the spec: the TrainingLoop ([fit], outside this
    development) drives the iterations [1..maxIteration] and invokes the
    callback at the end of each; [nn_at ep] is the model snapshot it hands
    over at iteration [ep].  Only this callback is followed. *)
Definition fit (self : t) (nn_at : Z → NNState) (maxIteration : Z)
    : result (t * list event) :=
  for_ (range 1 (maxIteration + 1))
    (λ st ep, '(self', evs) ← on_epoch_end (fst st) (nn_at ep) ep;
              Ok (self', snd st ++ evs))
    (self, []).

End Evaluator.
Arguments t : clear implicits.
Arguments attr : clear implicits.
Arguments event : clear implicits.
End ObservableEvaluator.

(** ** [Energy.py] *)

(** The floating-point operations [Energy.py] applies to the numbers it
    records: subtraction, [abs], true division (which may raise
    [ZeroDivisionError] or give a non-finite value, depending on the kind of
    float), [round(x, ndigits)], [str(x)], [float(s)], and the tests
    [x == 0] and [math.isfinite(x)] used to speak about them. *)
Class FloatOps (F : Type) := {
  float_sub : F → F → F;
  float_abs : F → F;
  float_div : F → F → result F;
  round_ : F → Z → F;
  str_float : F → string;
  float_ : string → result F;
  float_is_zero : F → bool;
  float_is_finite : F → bool
}.

(** What is known of these operations about zero. *)
Class FloatLaws (F : Type) `{!FloatOps F} := {
  float_abs_is_zero : ∀ x : F, float_is_zero (float_abs x) = float_is_zero x;
  float_div_nonzero : ∀ x y : F,
    float_is_zero y = false → ∃ q, float_div x y = Ok q;
  float_div_zero : ∀ x y : F,
    float_is_zero y = true →
    float_div x y = Raise ZeroDivisionError ∨
    ∃ q, float_div x y = Ok q ∧ float_is_finite q = false
}.

(** The files and directory listings the two functions see: the text of each
    file by path, and what [os.listdir] returns for each directory (in the
    order the operating system gives it). *)
Record filesystem := {
  files : gmap string string;
  listings : gmap string (list string)
}.

(** [open(path)] for reading, then the whole text. *)
Definition open_ (fs : filesystem) (path : string) : result string :=
  from_option Ok (Raise FileNotFoundError) (files fs !! path).

(** [os.listdir(path)] *)
Definition listdir (fs : filesystem) (path : string) : result (list string) :=
  from_option Ok (Raise FileNotFoundError) (listings fs !! path).

(** [open(path, "w")], the writes, and [close()]. *)
Definition write_file (fs : filesystem) (path text : string) : filesystem :=
  {| files := <[path := text]> (files fs); listings := listings fs |}.

(** The [trialNum] argument: an integer, or a string such as ["Next"]. *)
Inductive trial_num :=
| TrialInt (n : Z)
| TrialStr (s : string).

(** ["{}".format(trialNum)] *)
Definition format_trial (trialNum : trial_num) : string :=
  match trialNum with
  | TrialInt n => str_int n
  | TrialStr s => s
  end.

(** [trialNum == "Next"] *)
Definition is_Next (trialNum : trial_num) : bool :=
  match trialNum with
  | TrialInt _ => false
  | TrialStr s => String.eqb s "Next"
  end.

Definition nl : string := String newline EmptyString.

Module TrainEnergy.
Section TrainEnergy.
Context {F : Type} `{!FloatOps F}.

(** What [trainEnergy] reads off the callbacks once [fit] has returned
    (lines 91-93 and 125-126): the three series of the energy observable,
    the fidelities and the epoch times. *)
Record fitted := {
  energies : list F;
  errors : list F;
  variance : list F;
  fidelities : list F;
  runtimes : list F
}.

Record outcome := {
  H : F;
  trial : option Z;
  figure : string;
  relativeErrors : list F;
  resultsfile : string;
  fs_after : filesystem
}.

(** Lines 98-101: the reference energy. *)
Definition read_H (fs : filesystem) (numQubits : Z) : result F :=
  obsFile ← open_ fs ("Samples/" +:+ str_int numQubits +:+ "Q/Observables.txt");
  let line := nth 1 (readlines obsFile) EmptyString in
  tok ← getitem (split space (strip newline line)) 1;
  x ← float_ tok;
  Ok (round_ x 2).

(** Lines 103-109: the trial number computed when [trialNum == "Next"]. *)
Definition next_trial (files : list string) : result Z :=
  prevFile ← getitem files (-1);
  for_ (String.list_ascii_of_string prevFile)
    (λ trial char, if isdigit char then d ← int_of_char char; Ok (d + 1) else Ok trial)
    0.

(** Lines 127-129. *)
Definition relative_errors (energies : list F) (H : F) : result (list F) :=
  for_ (range 0 (Z.of_nat (length energies)))
    (λ relativeErrors i,
       e ← getitem energies i;
       q ← float_div (float_abs (float_sub e H)) (float_abs H);
       Ok (relativeErrors ++ [q]))
    [].

(** Lines 132-135: the four header lines. *)
Definition header (numSamples2 burn_in steps : Z) : string :=
  ("samples: " +:+ str_int numSamples2 +:+ nl)
  +:+ ("burn_in: " +:+ str_int burn_in +:+ nl)
  +:+ ("steps: " +:+ str_int steps +:+ nl)
  +:+ ("Fidelities & ROE & RT & Mean & Variance & STD Error" +:+ nl).

(** Lines 137-142: the six writes of one pass of the loop; [float(x)] of a
    number is the number. *)
Definition write_row (cb : fitted) (relativeErrors : list F) (text : string) (i : Z)
    : result string :=
  f ← getitem (fidelities cb) i;
  let text := text +:+ (str_float (round_ f 3) +:+ "  ") in
  r ← getitem relativeErrors i;
  let text := text +:+ (str_float (round_ r 6) +:+ "  ") in
  t ← getitem (runtimes cb) i;
  let text := text +:+ (str_float (round_ t 3) +:+ "  ") in
  e ← getitem (energies cb) i;
  let text := text +:+ (str_float (round_ e 5) +:+ "  ") in
  v ← getitem (variance cb) i;
  let text := text +:+ (str_float (round_ v 5) +:+ "  ") in
  se ← getitem (errors cb) i;
  Ok (text +:+ (str_float (round_ se 5) +:+ "  " +:+ nl)).

(** [trainEnergy] from line 98 on; the training of lines 42-89 is the
    argument [cb], and the calls into matplotlib are left out except for
    the path handed to [savefig]. *)
Definition trainEnergy (fs : filesystem) (numQubits numSamples2 burn_in steps : Z)
    (trialNum : trial_num) (cb : fitted) : result outcome :=
  H ← read_H fs numQubits;
  files ← listdir fs ("Data/Energy/Q" +:+ str_int numQubits);
  trial ← (if is_Next trialNum then Some <$> next_trial files else Ok None);
  let figure := "Data/Energy/Q" +:+ str_int numQubits +:+ "/Trial" +:+ format_trial trialNum in
  relativeErrors ← relative_errors (energies cb) H;
  let resultsfile :=
    "Data/Energy/Q" +:+ str_int numQubits +:+ "/Trial" +:+ format_trial trialNum +:+ ".txt" in
  text ← for_ (range 0 (Z.of_nat (length (fidelities cb))))
            (write_row cb relativeErrors)
            (header numSamples2 burn_in steps);
  Ok {| H := H; trial := trial; figure := figure; relativeErrors := relativeErrors;
        resultsfile := resultsfile; fs_after := write_file fs resultsfile text |}.

(** *** The layout of the record

    What the loops above are shown to write, said without the loops: row [i]
    holds six fields, each followed by two spaces, and ends with a newline. *)

Definition row_fields (cb : fitted) (relativeErrors : list F) (i : nat)
    : option (list string) :=
  f ← fidelities cb !! i;
  r ← relativeErrors !! i;
  t ← runtimes cb !! i;
  e ← energies cb !! i;
  v ← variance cb !! i;
  se ← errors cb !! i;
  Some [str_float (round_ f 3); str_float (round_ r 6); str_float (round_ t 3);
        str_float (round_ e 5); str_float (round_ v 5); str_float (round_ se 5)].

Definition row_text (fields : list string) : string :=
  cat ((λ x, x +:+ "  ") <$> fields) +:+ nl.

Definition record_text (numSamples2 burn_in steps : Z) (rows : list (list string))
    : string :=
  header numSamples2 burn_in steps +:+ cat (row_text <$> rows).

(** The quotient line 129 computes for the energy [e]. *)
Definition relative_error (H e : F) : result F :=
  float_div (float_abs (float_sub e H)) (float_abs H).

(** A string without space or newline, as [str] of a float is. *)
Definition token (s : string) : bool :=
  (negb (contains space s) && negb (contains newline s))%bool.

(** The number [x], once written, is read back by [float] as [x]. *)
Definition reads_back (x : F) : Prop :=
  token (str_float x) = true ∧ float_ (str_float x) = Ok x.

End TrainEnergy.
Arguments fitted : clear implicits.
Arguments outcome : clear implicits.
End TrainEnergy.

(** ** From the evaluator to [trainEnergy] *)

Module Statistics.
Section Statistics.
Context {F : Type}.

(** Modelled from the spec: the StatSummary {mean, variance, standardError}
    that the sampling engine gives for each observable at each evaluated
    iteration; the engine itself is not part of this development. *)
Record StatSummary := {
  mean : F;
  variance : F;
  std_error : F
}.

(** Modelled from the spec: the series of one observable over the history
    of the evaluator, one StatSummary per HistoryEntry, in the order of the
    history. This is what [callbacks[0].Heisenberg1DEnergy] stands for in
    [trainEnergy]; the class of [observable_evaluator.py] defines no such
    attribute access. *)
Definition observable_series (name : string) (history : list (Z * dict StatSummary))
    : result (list StatSummary) :=
  mapM (λ entry, dict_getitem (snd entry) name) history.

(** Lines 91-93 and 125-126 of [trainEnergy]: the series read off the three
    callbacks, given the history of the first and the series [Fidelity] and
    [epochTimes] of the other two. *)
Definition read_callbacks (history : list (Z * dict StatSummary))
    (Fidelity epochTimes : list F) : result (TrainEnergy.fitted F) :=
  stats ← observable_series "Heisenberg1DEnergy" history;
  Ok {| TrainEnergy.energies := mean <$> stats;
        TrainEnergy.errors := std_error <$> stats;
        TrainEnergy.variance := variance <$> stats;
        TrainEnergy.fidelities := Fidelity;
        TrainEnergy.runtimes := epochTimes |}.

End Statistics.
Arguments StatSummary : clear implicits.

Section Trial.
Context {NNState Observable KwArg F : Type}.
Context `{!Sampling NNState Observable KwArg (StatSummary F)}.

(** Modelled from the spec: the history contract that the
    ReferenceMetricEvaluator and the TimeBudgetGuard share with the
    evaluator of observables ([MetricEvaluator] and [Timer] in
    [trainEnergy], neither under src/): at an iteration that the period
    divides, one value is appended to the series. *)
Definition periodic_append (period : Z) (value : F) (series : list F) (epoch : Z)
    : result (list F) :=
  r ← mod_ epoch period;
  Ok (if bool_decide (r = 0) then series ++ [value] else series).

(** The three callbacks of [trainEnergy] (lines 62-79), with what each has
    recorded. *)
Record callbacks := {
  observable_evaluator : ObservableEvaluator.t Observable KwArg (StatSummary F);
  Fidelity : list F;
  epochTimes : list F
}.

(** Modelled from the spec: one iteration boundary of the TrainingLoop,
    which invokes the callbacks in the order of their registration;
    [fidelity_of] is the metric of a model and [clock] the time elapsed at an
    iteration. *)
Definition epoch_end (log_every : Z) (nn_at : Z → NNState)
    (fidelity_of : NNState → F) (clock : Z → F) (cbs : callbacks) (ep : Z)
    : result callbacks :=
  ev ← ObservableEvaluator.on_epoch_end (observable_evaluator cbs) (nn_at ep) ep;
  fid ← periodic_append log_every (fidelity_of (nn_at ep)) (Fidelity cbs) ep;
  times ← periodic_append log_every (clock ep) (epochTimes cbs) ep;
  Ok {| observable_evaluator := ev.1; Fidelity := fid; epochTimes := times |}.

(** Modelled from the spec: the training of lines 62-89, from the
    construction of the callbacks with the period [log_every] to the last of
    the iterations [1..iterations] that the TrainingLoop runs before it
    stops. *)
Definition train (log_every : Z) (observables : list Observable)
    (sampling_kwargs : dict KwArg) (nn_at : Z → NNState)
    (fidelity_of : NNState → F) (clock : Z → F) (iterations : Z)
    : result callbacks :=
  for_ (range 1 (iterations + 1)) (epoch_end log_every nn_at fidelity_of clock)
    {| observable_evaluator :=
         ObservableEvaluator.__init__ log_every observables true sampling_kwargs;
       Fidelity := [];
       epochTimes := [] |}.

End Trial.
Arguments callbacks : clear implicits.
End Statistics.

Module Analysis.
Section Analysis.
Context {F : Type} `{!FloatOps F}.

(** The lists [analysis] fills while it reads the trial files. *)
Record locals := {
  fidelities : list (list F);
  runtimes : list (list F);
  errors : list (list F);
  samples : list string;
  burn_in : list string;
  steps : list string
}.

(** The three lists of the trial being read. *)
Record trial_lists := {
  fidelitiesList : list F;
  runtimesList : list F;
  errorsList : list F
}.

(** One plot of the last loop: the epochs, the two series, the title and
    the path handed to [savefig]. *)
Record trial_plot := {
  plot_epochs : list Z;
  plot_fidelities : list F;
  plot_errors : list F;
  plot_title : string;
  plot_path : string
}.

Record output := {
  trials : list Z;
  runtime10 : list F;
  plots : list trial_plot
}.

(** [lines[j].strip("\n").split(" ")] *)
Definition fields (line : string) : list string := split space (strip newline line).

(** Lines 159-169: one pass of the loop over the lines of a trial file. *)
Definition read_line (lines : list string) (st : locals * trial_lists) (j : Z)
    : result (locals * trial_lists) :=
  let '(g, t) := st in
  if bool_decide (j = 0) then
    line ← getitem lines j;
    tok ← getitem (fields line) 1;
    Ok ({| fidelities := fidelities g; runtimes := runtimes g; errors := errors g;
           samples := samples g ++ [tok]; burn_in := burn_in g; steps := steps g |}, t)
  else if bool_decide (j = 1) then
    line ← getitem lines j;
    tok ← getitem (fields line) 1;
    Ok ({| fidelities := fidelities g; runtimes := runtimes g; errors := errors g;
           samples := samples g; burn_in := burn_in g ++ [tok]; steps := steps g |}, t)
  else if bool_decide (j = 2) then
    line ← getitem lines j;
    tok ← getitem (fields line) 1;
    Ok ({| fidelities := fidelities g; runtimes := runtimes g; errors := errors g;
           samples := samples g; burn_in := burn_in g; steps := steps g ++ [tok] |}, t)
  else if bool_decide (j > 3) then
    line ← getitem lines j;
    let newline := fields line in
    tok0 ← getitem newline 0;
    f ← float_ tok0;
    tok2 ← getitem newline 2;
    e ← float_ tok2;
    tok4 ← getitem newline 4;
    r ← float_ tok4;
    Ok (g, {| fidelitiesList := fidelitiesList t ++ [f];
              runtimesList := runtimesList t ++ [r];
              errorsList := errorsList t ++ [e] |})
  else Ok st.

Definition trial_path (numQubits i : Z) : string :=
  "Data/Energy/Q" +:+ str_int numQubits +:+ "/Trial" +:+ str_int i +:+ ".txt".

(** Lines 153-173: one pass of the loop over the trials. *)
Definition read_trial (fs : filesystem) (numQubits : Z) (g : locals) (i : Z)
    : result locals :=
  trialfile ← open_ fs (trial_path numQubits i);
  let lines := readlines trialfile in
  '(g, t) ← for_ (range 0 (Z.of_nat (length lines))) (read_line lines)
              (g, {| fidelitiesList := []; runtimesList := []; errorsList := [] |});
  Ok {| fidelities := fidelities g ++ [fidelitiesList t];
        runtimes := runtimes g ++ [runtimesList t];
        errors := errors g ++ [errorsList t];
        samples := samples g; burn_in := burn_in g; steps := steps g |}.

(** Lines 175-177. *)
Definition runtime_at_10 (runtimes : list (list F)) : result (list F) :=
  for_ (range 0 (Z.of_nat (length runtimes)))
    (λ runtime10 i,
       row ← getitem runtimes i;
       x ← getitem row 10;
       Ok (runtime10 ++ [x]))
    [].

(** Lines 185-200: one pass of the last loop. *)
Definition plot_trial (numQubits : Z) (g : locals) (acc : list trial_plot) (i : Z)
    : result (list trial_plot) :=
  errors_i ← getitem (errors g) i;
  let epochs := range 1 (Z.of_nat (length errors_i) + 1) in
  fidelities_i ← getitem (fidelities g) i;
  samples_i ← getitem (samples g) i;
  burn_in_i ← getitem (burn_in g) i;
  steps_i ← getitem (steps g) i;
  Ok (acc ++ [{| plot_epochs := epochs;
                 plot_fidelities := fidelities_i;
                 plot_errors := errors_i;
                 plot_title := ("Samples = " +:+ samples_i)
                               +:+ (" & Burn In = " +:+ burn_in_i)
                               +:+ (" & Steps = " +:+ steps_i);
                 plot_path := "Data/Energy/Q" +:+ str_int numQubits
                              +:+ "/Trial" +:+ str_int (i + 1) |}]).

(** [analysis]; what it hands to matplotlib is its result here. *)
Definition analysis (fs : filesystem) (numQubits : Z) : result output :=
  g ← for_ (range 1 28) (read_trial fs numQubits)
        {| fidelities := []; runtimes := []; errors := [];
           samples := []; burn_in := []; steps := [] |};
  runtime10 ← runtime_at_10 (runtimes g);
  let trials := range 1 28 in
  plots ← for_ (range 0 (Z.of_nat (length (errors g)))) (plot_trial numQubits g) [];
  Ok {| trials := trials; runtime10 := runtime10; plots := plots |}.

(** *** The reading of a file, said without the loop *)

(** What lines 166-169 take from a data line: the floats at positions
    0, 2 and 4 of its fields, as (fidelity, relative error, runtime). *)
Definition parse_row (line : string) : result (F * F * F) :=
  let newline := fields line in
  tok0 ← getitem newline 0;
  f ← float_ tok0;
  tok2 ← getitem newline 2;
  e ← float_ tok2;
  tok4 ← getitem newline 4;
  r ← float_ tok4;
  Ok (f, e, r).

(** What a data row adds to the lists of the trial. *)
Definition add_row (st : locals * trial_lists) (row : F * F * F)
    : locals * trial_lists :=
  (st.1, {| fidelitiesList := fidelitiesList st.2 ++ [row.1.1];
            runtimesList := runtimesList st.2 ++ [row.2];
            errorsList := errorsList st.2 ++ [row.1.2] |}).

(** What lines 159-164 take from the first three lines, when they are
    there: the second field of each. *)
Definition header_token (lines : list string) (j : nat) : result (list string) :=
  match lines !! j with
  | Some line => tok ← getitem (fields line) 1; Ok [tok]
  | None => Ok []
  end.

Definition parse_trial (lines : list string) (g : locals) : result locals :=
  s ← header_token lines 0;
  b ← header_token lines 1;
  st ← header_token lines 2;
  rows ← mapM parse_row (drop 4 lines);
  Ok {| fidelities := fidelities g ++ [(λ x, x.1.1) <$> rows];
        runtimes := runtimes g ++ [(λ x, x.2) <$> rows];
        errors := errors g ++ [(λ x, x.1.2) <$> rows];
        samples := samples g ++ s;
        burn_in := burn_in g ++ b;
        steps := steps g ++ st |}.

(** The number of trials read so far that had at least one data row. *)
Definition with_rows (runtimes : list (list F)) : nat :=
  length (filter (λ row, (0 < length row)%nat) runtimes).

(** What holds of the lists of [analysis] after any number of trials: the
    three lists of series are equally long, and each trial with a data row
    has also given its three header fields. *)
Definition loaded (g : locals) : Prop :=
  length (fidelities g) = length (runtimes g) ∧
  length (errors g) = length (runtimes g) ∧
  (with_rows (runtimes g) ≤ length (samples g))%nat ∧
  (with_rows (runtimes g) ≤ length (burn_in g))%nat ∧
  (with_rows (runtimes g) ≤ length (steps g))%nat.

End Analysis.
Arguments locals : clear implicits.
Arguments trial_lists : clear implicits.
Arguments trial_plot : clear implicits.
Arguments output : clear implicits.
End Analysis.

(** ** An exact decimal instance of the float operations

    Numbers with six decimal places, held as an integer count of millionths,
    with exact arithmetic and round-half-even.  The programs above are run on
    it in the examples; [float_div] raises on a zero divisor, as the division
    of Python floats does, [str_float] writes plain decimal notation, and
    [float_] reads plain decimal literals (an optional sign, digits, and an
    optional fraction). *)
Module Decimal6.

Record dec := Dec { micro : Z }.

Definition scale : Z := 1000000.

(** The integer nearest to [a / b] for [b > 0], ties to the even one. *)
Definition round_half_even (a b : Z) : Z :=
  let q := a `div` b in
  let r := a `mod` b in
  if bool_decide (2 * r < b) then q
  else if bool_decide (2 * r > b) then q + 1
  else if Z.even q then q else q + 1.

Definition sub (x y : dec) : dec := Dec (micro x - micro y).

Definition abs (x : dec) : dec := Dec (Z.abs (micro x)).

Definition div (x y : dec) : result dec :=
  if bool_decide (micro y = 0) then Raise ZeroDivisionError
  else Ok (Dec (round_half_even (Z.sgn (micro y) * micro x * scale) (Z.abs (micro y)))).

Definition round (x : dec) (ndigits : Z) : dec :=
  if bool_decide (6 ≤ ndigits) then x
  else let m := 10 ^ (6 - ndigits) in Dec (round_half_even (micro x) m * m).

Fixpoint zeros (n : nat) : string :=
  match n with
  | O => EmptyString
  | S n' => String "0" (zeros n')
  end.

Definition str (x : dec) : string :=
  let a := Z.abs (micro x) in
  let digits := pretty (a `mod` scale) in
  let frac := rstrip "0" (zeros (6 - String.length digits) +:+ digits) in
  (if bool_decide (micro x < 0) then "-" else "")
  +:+ pretty (a `div` scale) +:+ "."
  +:+ (if String.eqb frac "" then "0" else frac).

(** The value of a string of digits, after [acc]. *)
Fixpoint digits_value (s : string) (acc : Z) : option Z :=
  match s with
  | EmptyString => Some acc
  | String c r =>
      if isdigit c
      then digits_value r (10 * acc + (Z.of_nat (Ascii.nat_of_ascii c) - 48))
      else None
  end.

Definition unsigned_value (s : string) : option Z :=
  match split "." s with
  | [ip] =>
      if String.eqb ip "" then None
      else (λ i, i * scale) <$> digits_value ip 0
  | [ip; fp] =>
      if (String.eqb ip "" && String.eqb fp "")%bool then None
      else
        i ← digits_value ip 0;
        _ ← digits_value fp 0;
        f ← digits_value (String.substring 0 6 (fp +:+ "000000")) 0;
        Some (i * scale + f)
  | _ => None
  end.

Definition parse (s : string) : result dec :=
  let '(neg, body) :=
    match s with
    | String "-" r => (true, r)
    | String "+" r => (false, r)
    | _ => (false, s)
    end in
  match unsigned_value body with
  | Some v => Ok (Dec (if neg : bool then - v else v))
  | None => Raise ValueError
  end.

#[global] Instance dec_ops : FloatOps dec := {|
  float_sub := sub;
  float_abs := abs;
  float_div := div;
  round_ := round;
  str_float := str;
  float_ := parse;
  float_is_zero := λ x, bool_decide (micro x = 0);
  float_is_finite := λ _, true
|}.

End Decimal6.

(** ** A small sampler for the examples

    The model snapshot is a number, an observable is its name, and measuring
    gives every observable the value of the snapshot. *)
Module Toy.

#[global] Instance toy_sampling : Sampling Z string Z Z := {|
  System_measure := λ obs nn_state _, map (λ o : string, (o, nn_state)) obs;
  format_6f := pretty
|}.

(** A [Callback] base class with the six hooks of the library and no
    [__getattr__]. *)
Definition Callback_getattr (name : string) : option (ObservableEvaluator.attr string Z Z) :=
  if bool_decide (name ∈ ["on_train_start"; "on_train_end"; "on_epoch_start";
                          "on_epoch_end"; "on_batch_start"; "on_batch_end"])
  then Some (ObservableEvaluator.AFunction name)
  else None.

(** An evaluator of one observable, and the one reached from it after the
    first iteration of a run of period 1 on the model [7]. *)
Definition ev0 : ObservableEvaluator.t string Z Z :=
  ObservableEvaluator.__init__ 1 ["Heisenberg1DEnergy"] false [].

Definition ev1 : ObservableEvaluator.t string Z Z :=
  {| ObservableEvaluator.period := 1;
     ObservableEvaluator.observables := ["Heisenberg1DEnergy"];
     ObservableEvaluator.observable_statistics := [(1, [("Heisenberg1DEnergy", 7)])];
     ObservableEvaluator.system := ["Heisenberg1DEnergy"];
     ObservableEvaluator.last := [("Heisenberg1DEnergy", 7)];
     ObservableEvaluator.verbose := false;
     ObservableEvaluator.sampling_kwargs := [] |}.

End Toy.

(** ** Trials used in the examples

    Two qubits, reference energy [-4.0], decimal numbers. *)
Module Example.
Import Decimal6.

(** The statistics measured on a model: the energy is the model itself,
    with a fixed variance and standard error. *)
#[global] Instance energy_sampling
    : Sampling dec string Z (Statistics.StatSummary dec) := {|
  System_measure := λ obs nn_state _,
    map (λ o : string, (o, {| Statistics.mean := nn_state;
                              Statistics.variance := Dec 200000;
                              Statistics.std_error := Dec 100000 |})) obs;
  format_6f := λ s, str (Statistics.mean s)
|}.

(** The model the training has reached at each iteration. *)
Definition nn_at (ep : Z) : dec :=
  if bool_decide (ep = 1) then Dec (-3500000) else Dec (-3800000).

(** The fidelity of a model and the time elapsed at an iteration. *)
Definition fidelity_of (nn_state : dec) : dec :=
  if bool_decide (micro nn_state = -3500000) then Dec 900000 else Dec 910000.

Definition clock (ep : Z) : dec := Dec (ep * 1000000).

Definition observables_txt : string :=
  "Observable Value" +:+ nl +:+ "H: -4.0" +:+ nl.

Definition fs0 (listing : list string) : filesystem :=
  {| files := {[ "Samples/2Q/Observables.txt" := observables_txt ]};
     listings := {[ "Data/Energy/Q2" := listing ]} |}.

(** The same file system with a reference energy of zero. *)
Definition fs_zero : filesystem :=
  {| files := {[ "Samples/2Q/Observables.txt" :=
                   "Observable Value" +:+ nl +:+ "H: 0.0" +:+ nl ]};
     listings := {[ "Data/Energy/Q2" := ["Trial1.txt"] ]} |}.

(** Two trainings with the same fidelities, runtimes and relative errors
    but other energies, variances and standard errors. *)
Definition cbA : TrainEnergy.fitted dec :=
  {| TrainEnergy.energies := [Dec (-3500000); Dec (-3800000)];
     TrainEnergy.errors := [Dec 100000; Dec 100000];
     TrainEnergy.variance := [Dec 200000; Dec 200000];
     TrainEnergy.fidelities := [Dec 900000; Dec 910000];
     TrainEnergy.runtimes := [Dec 1000000; Dec 2000000] |}.

Definition cbB : TrainEnergy.fitted dec :=
  {| TrainEnergy.energies := [Dec (-4500000); Dec (-4200000)];
     TrainEnergy.errors := [Dec 300000; Dec 300000];
     TrainEnergy.variance := [Dec 400000; Dec 400000];
     TrainEnergy.fidelities := [Dec 900000; Dec 910000];
     TrainEnergy.runtimes := [Dec 1000000; Dec 2000000] |}.

Definition g0 : Analysis.locals dec :=
  {| Analysis.fidelities := []; Analysis.runtimes := []; Analysis.errors := [];
     Analysis.samples := []; Analysis.burn_in := []; Analysis.steps := [] |}.

(** Write the record of a training as trial 1, then read trial 1 back. *)
Definition write_then_read (cb : TrainEnergy.fitted dec) : result (Analysis.locals dec) :=
  out ← TrainEnergy.trainEnergy (fs0 []) 2 1000 100 100 (TrialInt 1) cb;
  Analysis.read_trial (TrainEnergy.fs_after out) 2 g0 1.

(** The text of the record written for a training. *)
Definition written (cb : TrainEnergy.fitted dec) : result (option string) :=
  out ← TrainEnergy.trainEnergy (fs0 []) 2 1000 100 100 (TrialInt 1) cb;
  Ok (files (TrainEnergy.fs_after out) !! TrainEnergy.resultsfile out).

Definition header_txt : string := TrainEnergy.header 1000 100 100.

(** A record whose data lines hold five fields instead of six. *)
Definition five_fields_txt : string :=
  header_txt +:+ cat (replicate 11 ("0.9  0.1  1.0  -3.5  0.2  " +:+ nl)).

(** A record with one row only, and a record with a line that is no row. *)
Definition one_row_txt : string :=
  header_txt +:+ "0.9  0.1  1.0  -3.5  0.2  0.1  " +:+ nl.

Definition no_row_txt : string := header_txt.

Definition bad_row_txt : string := header_txt +:+ "abc" +:+ nl.



(** The record with one row under another fourth line. *)
Definition untitled_row_txt : string :=
  "samples: 1000" +:+ nl +:+ "burn_in: 100" +:+ nl +:+ "steps: 100" +:+ nl
  +:+ "no titles" +:+ nl +:+ "0.9  0.1  1.0  -3.5  0.2  0.1  " +:+ nl.

(** The file system holding the record [text i] as trial [i], for the
    trials [i] that have one. *)
Definition fs_trials (text : Z → option string) : filesystem :=
  {| files :=
       list_to_map
         (omap (λ i, (λ s, (Analysis.trial_path 2 i, s)) <$> text i) (range 1 28));
     listings := ∅ |}.

End Example.

(** ** Runs of calls, and a trial file on its own

    Two ways of speaking about the loops of the programs above: the calls a
    training loop makes to [on_epoch_end] taken as a list, and what one trial
    file gives to [analysis] apart from the lists it is appended to. *)

Module Caller.
Section Caller.
Context {NNState Observable KwArg V : Type}.
Context `{!Sampling NNState Observable KwArg V}.
Import ObservableEvaluator.

(** The calls [on_epoch_end(nn_state, epoch)] of the list, in order, on the
    same instance: the instance after the last one and everything done to
    the outside; an exception ends the run. *)
Definition on_epochs (self : t Observable KwArg V) (calls : list (NNState * Z))
    : result (t Observable KwArg V * list (event NNState Observable KwArg)) :=
  for_ calls
    (λ st call, '(self', evs) ← on_epoch_end st.1 call.1 call.2;
                Ok (self', st.2 ++ evs))
    (self, []).

(** The calls that pass the test [epoch % period == 0]. *)
Definition recording (period : Z) (calls : list (NNState * Z)) : list (NNState * Z) :=
  filter (λ call, call.2 `mod` period = 0) calls.

Definition is_Measure (e : event NNState Observable KwArg) : bool :=
  match e with Measure _ _ _ => true | Print _ => false end.

Definition is_Print (e : event NNState Observable KwArg) : bool :=
  match e with Measure _ _ _ => false | Print _ => true end.

End Caller.
End Caller.

Module TrialFile.
Section TrialFile.
Context {F : Type} `{!FloatOps F}.
Import Analysis.

(** The six empty lists [analysis] starts from (lines 146-151). *)
Definition no_trials : locals F :=
  {| fidelities := []; runtimes := []; errors := [];
     samples := []; burn_in := []; steps := [] |}.

(** The lists of [g] followed by those of [d]. *)
Definition locals_app (g d : locals F) : locals F :=
  {| fidelities := fidelities g ++ fidelities d;
     runtimes := runtimes g ++ runtimes d;
     errors := errors g ++ errors d;
     samples := samples g ++ samples d;
     burn_in := burn_in g ++ burn_in d;
     steps := steps g ++ steps d |}.

(** What the pass of lines 153-173 for trial [i] appends to the six lists. *)
Definition load_trial (fs : filesystem) (numQubits i : Z) : result (locals F) :=
  read_trial fs numQubits no_trials i.

End TrialFile.
End TrialFile.

(** A string without a digit, as a file name may be. *)
Definition no_digit (s : string) : bool :=
  forallb (λ c, negb (isdigit c)) (String.list_ascii_of_string s).

(** * Properties *)

(** ** Exceptions and loops *)

Lemma bind_Ok {A B} (x : A) (f : A → result B) : (Ok x ≫= f) = f x.
Proof. reflexivity. Qed.

Section Loops.
Context {A St : Type}.
Implicit Types (body : St → A → result St).

Lemma for_app l1 l2 body s :
  for_ (l1 ++ l2) body s = s' ← for_ l1 body s; for_ l2 body s'.
Proof.
  revert s. induction l1 as [|x l1 IH]; intros s; simpl; [done|].
  destruct (body s x) as [s'|e]; simpl; [apply IH | done].
Qed.

Lemma for_snoc l x body s s' :
  for_ l body s = Ok s' → for_ (l ++ [x]) body s = body s' x.
Proof.
  intros Hl. rewrite for_app, Hl. simpl. by destruct (body s' x).
Qed.

Lemma for_total l body s :
  (∀ s x, ∃ s', body s x = Ok s') → ∃ s', for_ l body s = Ok s'.
Proof.
  intros Hbody. revert s. induction l as [|x l IH]; intros s; simpl; [by eexists|].
  destruct (Hbody s x) as [s' ->]. simpl. apply IH.
Qed.

Lemma for_preserves (P : St → Prop) l body s s' :
  (∀ s x s', P s → body s x = Ok s' → P s') →
  P s → for_ l body s = Ok s' → P s'.
Proof.
  intros Hbody. revert s. induction l as [|x l IH]; intros s Hs; simpl.
  - by intros [= <-].
  - destruct (body s x) as [s1|] eqn:Hx; simpl; [|done]. eauto.
Qed.
End Loops.

Lemma for_range_total {St} (body : St → Z → result St) (a : Z) (n : nat) (s : St) :
  (∀ s i, a ≤ i < a + Z.of_nat n → ∃ s', body s i = Ok s') →
  ∃ s', for_ (seqZ a (Z.of_nat n)) body s = Ok s'.
Proof.
  revert s. induction n as [|n IH]; intros s Hbody; [by exists s|].
  destruct (IH s) as [s1 Hs1]; [intros s0 i Hi; apply Hbody; lia|].
  destruct (Hbody s1 (a + Z.of_nat n)) as [s2 Hs2]; [lia|].
  exists s2. rewrite seqZ_S. by erewrite for_snoc.
Qed.

Lemma mapM_result_Ok {A B} (f : A → result B) (l : list A) (k : list B) :
  mapM f l = Ok k ↔ Forall2 (λ x y, f x = Ok y) l k.
Proof.
  revert k. induction l as [|x l IH]; intros k; simpl.
  - split; [intros [= <-]; constructor | by inversion 1].
  - split.
    + destruct (f x) as [y|e] eqn:Hx; simpl; [|done].
      destruct (mapM f l) as [ys|e] eqn:Hl; simpl; [|done].
      intros [= <-]. constructor; [done|]. by apply IH.
    + inversion 1 as [|? y ? ys Hx Hl]; subst.
      apply IH in Hl. by rewrite Hx, Hl.
Qed.

Lemma mapM_result_length {A B} (f : A → result B) (l : list A) (k : list B) :
  mapM f l = Ok k → length k = length l.
Proof.
  intros Hk. apply mapM_result_Ok in Hk. symmetry. by eapply Forall2_length.
Qed.

Lemma mapM_result_total {A B} (f : A → result B) (l : list A) :
  Forall (λ x, ∃ y, f x = Ok y) l → ∃ k, mapM f l = Ok k.
Proof.
  induction 1 as [|x l [y Hy] Hl [k IH]]; simpl; [by eexists|].
  rewrite Hy, IH. simpl. by eexists.
Qed.

Lemma mapM_result_raise {A B} (f : A → result B) (l : list A) (e : exn) :
  Forall (λ x, f x = Raise e ∨ ∃ y, f x = Ok y) l →
  Exists (λ x, f x = Raise e) l →
  mapM f l = Raise e.
Proof.
  induction 1 as [|x l Hx Hl IH]; intros Hex; [by inversion Hex|].
  cbn [mapM]. destruct Hx as [->|[y Hy]]; [done|].
  rewrite Hy. simpl. inversion Hex as [|?? Hex']; subst; [congruence|].
  by rewrite IH.
Qed.


Lemma foldl_snoc {A} (acc ys : list A) : foldl (λ acc y, acc ++ [y]) acc ys = acc ++ ys.
Proof.
  revert acc. induction ys as [|y ys IH]; intros acc; simpl.
  - by rewrite app_nil_r.
  - by rewrite IH, <- app_assoc.
Qed.

(** ** Indexing *)

Lemma getitem_nonneg {A} (l : list A) (i : Z) :
  0 ≤ i → getitem l i = from_option Ok (Raise IndexError) (l !! Z.to_nat i).
Proof.
  intros Hi. unfold getitem.
  rewrite (bool_decide_eq_false_2 (i < 0)) by lia.
  case_bool_decide as Hlt; [done|].
  by rewrite lookup_ge_None_2 by lia.
Qed.

Lemma getitem_lookup {A} (l : list A) (i : nat) (x : A) :
  l !! i = Some x → getitem l (Z.of_nat i) = Ok x.
Proof. intros Hl. by rewrite getitem_nonneg, Nat2Z.id, Hl by lia. Qed.

Lemma getitem_at {A} (l : list A) (i : nat) (x : A) (z : Z) :
  l !! i = Some x → z = Z.of_nat i → getitem l z = Ok x.
Proof. intros Hl ->. by apply getitem_lookup. Qed.

Lemma getitem_raise {A} (l : list A) (i : Z) (e : exn) :
  getitem l i = Raise e → e = IndexError.
Proof.
  unfold getitem. cbv zeta. destruct (bool_decide _); [|congruence].
  destruct (l !! _); simpl; congruence.
Qed.

Lemma getitem_last {A} (l : list A) (x : A) : getitem (l ++ [x]) (-1) = Ok x.
Proof.
  unfold getitem. rewrite length_app. simpl.
  rewrite bool_decide_eq_true_2 by lia.
  replace (Z.to_nat (-1 + Z.of_nat (length l + 1))) with (length l) by lia.
  by rewrite list_lookup_middle.
Qed.

(** A loop over [range(k, k + len(l))] whose pass [k + j] does to the state
    what [upd] does with [f] of the [j]-th element is [mapM f l] followed by
    the updates. *)
Lemma for_range_mapM {A B St} (f : A → result B) (upd : St → B → St)
    (body : St → Z → result St) (l : list A) (k : Z) (s : St) :
  (∀ s (j : nat) x, l !! j = Some x →
     body s (k + Z.of_nat j) = y ← f x; Ok (upd s y)) →
  for_ (seqZ k (Z.of_nat (length l))) body s = ys ← mapM f l; Ok (foldl upd s ys).
Proof.
  revert k s. induction l as [|x l IH]; intros k s Hbody; [done|].
  rewrite seqZ_cons by (simpl; lia). simpl for_.
  specialize (Hbody s 0%nat x eq_refl) as Hx. rewrite Z.add_0_r in Hx. rewrite Hx.
  simpl. destruct (f x) as [y|e]; simpl; [|done].
  replace (Z.pred (Z.of_nat (S (length l)))) with (Z.of_nat (length l)) by lia.
  rewrite IH.
  - by destruct (mapM f l).
  - intros s' j x' Hj. rewrite <- (Hbody s' (S j) x' Hj). f_equal. lia.
Qed.

(** ** Arithmetic of the period test *)

Lemma div_succ_multiple (p m : Z) :
  1 ≤ p → 0 ≤ m → (m + 1) `mod` p = 0 →
  (m + 1) `div` p = m `div` p + 1 ∧ (m `div` p + 1) * p = m + 1.
Proof.
  intros Hp Hm Hr.
  pose proof (Z.div_mod m p ltac:(lia)) as E1.
  pose proof (Z.div_mod (m + 1) p ltac:(lia)) as E2.
  pose proof (Z.mod_pos_bound m p ltac:(lia)) as B1.
  rewrite Hr in E2.
  assert ((m + 1) `div` p = m `div` p + 1) as Hq by nia.
  rewrite Hq in E2 |- *. split; [done | lia].
Qed.

Lemma div_succ_other (p m : Z) :
  1 ≤ p → 0 ≤ m → (m + 1) `mod` p ≠ 0 → (m + 1) `div` p = m `div` p.
Proof.
  intros Hp Hm Hr.
  pose proof (Z.div_mod m p ltac:(lia)) as E1.
  pose proof (Z.div_mod (m + 1) p ltac:(lia)) as E2.
  pose proof (Z.mod_pos_bound m p ltac:(lia)) as B1.
  pose proof (Z.mod_pos_bound (m + 1) p ltac:(lia)) as B2.
  nia.
Qed.

(** ** The callback *)

Section EvaluatorFacts.
Context {NNState Observable KwArg V : Type}.
Context `{!Sampling NNState Observable KwArg V}.
Import ObservableEvaluator.
Implicit Types (self : t Observable KwArg V) (nn_state : NNState).

Lemma on_epoch_end_zero_period self nn_state epoch :
  period self = 0 → on_epoch_end self nn_state epoch = Raise ZeroDivisionError.
Proof.
  intros Hp. unfold on_epoch_end, mod_. by rewrite bool_decide_eq_true_2.
Qed.

Lemma on_epoch_end_record self nn_state epoch :
  period self ≠ 0 → epoch `mod` period self = 0 →
  ∃ self' evs,
    on_epoch_end self nn_state epoch = Ok (self', evs) ∧
    period self' = period self ∧
    system self' = system self ∧
    sampling_kwargs self' = sampling_kwargs self ∧
    observable_statistics self' =
      observable_statistics self
        ++ [(epoch, System_measure (system self) nn_state (sampling_kwargs self))] ∧
    last self' = System_measure (system self) nn_state (sampling_kwargs self).
Proof.
  intros Hp Hr. unfold on_epoch_end, mod_.
  rewrite bool_decide_eq_false_2 by done. simpl.
  rewrite bool_decide_eq_true_2 by done.
  eexists _, _. split; [reflexivity|]. by simpl.
Qed.

Lemma on_epoch_end_pass self nn_state epoch :
  period self ≠ 0 → epoch `mod` period self ≠ 0 →
  on_epoch_end self nn_state epoch = Ok (self, []).
Proof.
  intros Hp Hr. unfold on_epoch_end, mod_.
  rewrite bool_decide_eq_false_2 by done. simpl.
  by rewrite bool_decide_eq_false_2.
Qed.

(** The history after [m] iterations of the training loop, begun with an
    empty history. *)
Lemma fit_history self (nn_at : Z → NNState) (m : nat) :
  1 ≤ period self → observable_statistics self = [] →
  ∃ self' evs,
    for_ (seqZ 1 (Z.of_nat m))
      (λ st ep, '(self', evs) ← on_epoch_end (fst st) (nn_at ep) ep;
                Ok (self', snd st ++ evs))
      (self, []) = Ok (self', evs) ∧
    period self' = period self ∧
    system self' = system self ∧
    sampling_kwargs self' = sampling_kwargs self ∧
    observable_statistics self' =
      (λ k, (k * period self,
             System_measure (system self) (nn_at (k * period self)) (sampling_kwargs self)))
        <$> seqZ 1 (Z.of_nat m `div` period self).
Proof.
  intros Hp Hnil. induction m as [|m IH].
  - exists self, []. change (Z.of_nat 0) with 0.
    rewrite Z.div_0_l by lia. by rewrite Hnil.
  - destruct IH as (s & evs & Hfor & Hper & Hsys & Hkw & Hhist).
    rewrite seqZ_S. erewrite for_snoc by exact Hfor. simpl.
    replace (Z.of_nat (S m)) with (Z.of_nat m + 1) by lia.
    replace (1 + Z.of_nat m) with (Z.of_nat m + 1) by lia.
    destruct (decide ((Z.of_nat m + 1) `mod` period self = 0)) as [Hr|Hr].
    + destruct (on_epoch_end_record s (nn_at (Z.of_nat m + 1)) (Z.of_nat m + 1))
        as (s' & evs' & -> & Hper' & Hsys' & Hkw' & Hhist' & _);
        [rewrite Hper; lia | by rewrite Hper |].
      simpl. eexists _, _. split; [reflexivity|].
      rewrite Hper', Hsys', Hkw', Hhist', Hper, Hsys, Hkw, Hhist.
      repeat split; try done.
      destruct (div_succ_multiple (period self) (Z.of_nat m)) as [-> Hmul]; [lia..|done|].
      rewrite seqZ_app by (try apply Z.div_pos; lia).
      rewrite fmap_app. simpl.
      replace (1 + Z.of_nat m `div` period self) with (Z.of_nat m `div` period self + 1) by lia.
      change (Z.of_nat 0) with 0. rewrite Z.add_0_l. by rewrite Hmul.
    + rewrite (on_epoch_end_pass s) by (rewrite Hper; first [lia | done]).
      simpl. eexists _, _. split; [reflexivity|].
      rewrite div_succ_other by (first [lia | done]).
      by rewrite Hper, Hsys, Hkw, Hhist.
Qed.

(** C1. For a period [p >= 1], a training run over the iterations
    [1..maxIteration] with a new evaluator completes, and its history then
    holds exactly [floor(maxIteration / p)] entries, recorded at the
    iterations [p, 2p, 3p, ...] in that order, each with what was measured
    on the model of that iteration. *)
Theorem fit_records_every_period (p : Z) obs vb kw (nn_at : Z → NNState)
    (maxIteration : Z) :
  1 ≤ p → 0 ≤ maxIteration →
  ∃ self evs,
    fit (__init__ p obs vb kw) nn_at maxIteration = Ok (self, evs) ∧
    length (observable_statistics self) = Z.to_nat (maxIteration `div` p) ∧
    (observable_statistics self).*1 = (λ k, k * p) <$> seqZ 1 (maxIteration `div` p) ∧
    observable_statistics self =
      (λ k, (k * p, System_measure (System obs) (nn_at (k * p)) kw))
        <$> seqZ 1 (maxIteration `div` p).
Proof.
  intros Hp Hn.
  destruct (fit_history (__init__ p obs vb kw) nn_at (Z.to_nat maxIteration))
    as (self & evs & Hfor & _ & _ & _ & Hhist); [done..|].
  exists self, evs. unfold fit, range.
  replace (maxIteration + 1 - 1) with (Z.of_nat (Z.to_nat maxIteration)) by lia.
  split; [exact Hfor|].
  rewrite Z2Nat.id in Hhist by done. simpl in Hhist.
  rewrite Hhist. split; [|split; [|done]].
  - by rewrite length_fmap, length_seqZ.
  - rewrite <- list_fmap_compose. by apply list_fmap_ext.
Qed.

(** C10. At an iteration that the period does not divide, the callback
    returns with the evaluator as it was, history and last values included,
    and with nothing done to the outside: no measurement, no output. (With
    a period of zero the test itself raises [ZeroDivisionError], also before
    anything is measured or assigned.) *)
Theorem on_epoch_end_off_period self nn_state (epoch : Z) :
  ¬ (period self | epoch) →
  on_epoch_end self nn_state epoch
  = if bool_decide (period self = 0) then Raise ZeroDivisionError else Ok (self, []).
Proof.
  intros Hdiv. case_bool_decide as Hp.
  - by apply on_epoch_end_zero_period.
  - apply on_epoch_end_pass; [done|].
    intros Hr. apply Hdiv. by apply Z.mod_divide.
Qed.

(** The last values are those of the newest entry of the history. *)
Lemma reachable_last self :
  reachable self →
  (observable_statistics self = [] ∧ last self = []) ∨
  (∃ h epoch, observable_statistics self = h ++ [(epoch, last self)]).
Proof.
  induction 1 as [p obs vb kw | self Hreach IH | self nn_state epoch self' evs Hreach IH Hstep].
  - by left.
  - by left.
  - destruct (decide (period self = 0)) as [Hp|Hp].
    { by rewrite on_epoch_end_zero_period in Hstep. }
    destruct (decide (epoch `mod` period self = 0)) as [Hr|Hr].
    + destruct (on_epoch_end_record self nn_state epoch Hp Hr)
        as (s' & evs' & Hs & _ & _ & _ & Hhist & Hlast).
      rewrite Hs in Hstep. injection Hstep as <- <-.
      right. exists (observable_statistics self), epoch. by rewrite Hhist, Hlast.
    + rewrite on_epoch_end_pass in Hstep by done.
      injection Hstep as <- <-. exact IH.
Qed.

(** C5, as the code has it. With a non-empty history, [get_value(name, -1)]
    (and [get_value(name)], whose index defaults to [-1]) gives what
    [last[name]] gives: the same value, or [KeyError] in both when the name
    was not measured. With an empty history [get_value] raises [IndexError],
    while [last] is the empty dict: reading it raises nothing, and
    [last[name]] raises [KeyError]. *)
Theorem get_value_agrees_with_last self (name : string) :
  reachable self →
  (observable_statistics self ≠ [] →
     get_value self name (Some (-1)) = dict_getitem (last self) name ∧
     get_value self name None = dict_getitem (last self) name) ∧
  (observable_statistics self = [] →
     get_value self name (Some (-1)) = Raise IndexError ∧
     last self = [] ∧
     dict_getitem (last self) name = Raise KeyError).
Proof.
  intros Hreach. destruct (reachable_last self Hreach) as [[Hnil Hlast]|(h & epoch & Hhist)].
  - split; [by rewrite Hnil|]. intros _.
    unfold get_value. by rewrite Hnil, Hlast.
  - split.
    + intros _. unfold get_value. rewrite Hhist, getitem_last. by simpl.
    + rewrite Hhist. intros Habs. by destruct h.
Qed.

(** C9. Whatever has been recorded, [len(evaluator)] raises
    [AttributeError]: [__len__] reads [metric_values], an attribute that
    neither the instance nor the class has, as long as the base class
    [Callback] does not provide it. *)
Theorem len_raises_AttributeError
    (Callback_getattr : string → option (attr Observable KwArg V)) self :
  Callback_getattr "metric_values" = None →
  reachable self →
  __len__ Callback_getattr self = Raise AttributeError.
Proof.
  intros Hbase _. unfold __len__, getattr.
  assert (instance_dict self !! "metric_values" = None) as -> by reflexivity.
  rewrite bool_decide_eq_false_2; [by rewrite Hbase|].
  by apply (bool_decide_unpack _).
Qed.

End EvaluatorFacts.

Section EvaluatorExamples.
Import ObservableEvaluator.

Import Toy.

Lemma ev1_reachable : reachable ev1.
Proof.
  apply (reachable_epoch ev0 7 1 ev1 [Measure ["Heisenberg1DEnergy"] 7 []]).
  - apply reachable_init.
  - reflexivity.
Defined.

Lemma fit_records_every_period_witness :
  1 ≤ 2 ∧ 0 ≤ 5 ∧
  ∃ self evs,
    fit (__init__ 2 ["Heisenberg1DEnergy"] false ([] : dict Z)) (λ ep, 10 * ep) 5
      = Ok (self, evs) ∧
    length (observable_statistics self) = Z.to_nat (5 `div` 2) ∧
    (observable_statistics self).*1 = (λ k, k * 2) <$> seqZ 1 (5 `div` 2) ∧
    observable_statistics self =
      (λ k, (k * 2, System_measure (System ["Heisenberg1DEnergy"]) (10 * (k * 2)) []))
        <$> seqZ 1 (5 `div` 2).
Proof.
  split; [lia|]. split; [lia|].
  apply (fit_records_every_period 2 ["Heisenberg1DEnergy"] false [] (λ ep, 10 * ep) 5); lia.
Defined.

Lemma on_epoch_end_off_period_witness :
  ¬ (2 | 3) ∧
  on_epoch_end (__init__ 2 ["Heisenberg1DEnergy"] true ([] : dict Z)) 7 3
    = Ok (__init__ 2 ["Heisenberg1DEnergy"] true [], []).
Proof.
  assert (¬ (2 | 3)) as Hndiv by (intros [k Hk]; lia).
  split; [exact Hndiv|].
  exact (on_epoch_end_off_period (__init__ 2 ["Heisenberg1DEnergy"] true []) 7 3 Hndiv).
Defined.

Lemma get_value_agrees_with_last_witness :
  reachable ev1 ∧ observable_statistics ev1 ≠ [] ∧
  get_value ev1 "Heisenberg1DEnergy" (Some (-1)) = Ok 7 ∧
  dict_getitem (last ev1) "Heisenberg1DEnergy" = Ok 7.
Proof.
  split; [exact ev1_reachable|].
  assert (observable_statistics ev1 ≠ []) as Hne by (simpl; discriminate).
  split; [exact Hne|].
  destruct (get_value_agrees_with_last ev1 "Heisenberg1DEnergy" ev1_reachable)
    as [Hsome _].
  destruct (Hsome Hne) as [Heq _].
  split; [rewrite Heq|]; reflexivity.
Defined.

(** C5 as the spec words it fails on a new evaluator: the history is
    empty, [get_value(name, -1)] raises [IndexError], and there is no
    failure of the same kind on the side of the last values, neither in
    reading the attribute [last] nor in [last[name]]. *)
Lemma get_value_last_empty_history_differ :
  observable_statistics ev0 = [] ∧
  get_value ev0 "Heisenberg1DEnergy" (Some (-1)) = Raise IndexError ∧
  getattr Toy.Callback_getattr ev0 "last" = Ok (ADict []) ∧
  dict_getitem (last ev0) "Heisenberg1DEnergy" = Raise KeyError ∧
  ¬ (∃ e, get_value ev0 "Heisenberg1DEnergy" (Some (-1)) = Raise e ∧
          (getattr Toy.Callback_getattr ev0 "last" = Raise e ∨
           dict_getitem (last ev0) "Heisenberg1DEnergy" = Raise e)).
Proof.
  repeat split; try reflexivity.
  intros (e & Hget & [Hattr|Hkey]).
  - discriminate Hattr.
  - cbv in Hget, Hkey. congruence.
Qed.

Lemma len_raises_AttributeError_witness :
  Toy.Callback_getattr "metric_values" = None ∧ reachable ev1 ∧
  __len__ Toy.Callback_getattr ev1 = Raise AttributeError.
Proof.
  assert (Toy.Callback_getattr "metric_values" = None) as Hbase by reflexivity.
  split; [exact Hbase|]. split; [exact ev1_reachable|].
  exact (len_raises_AttributeError Toy.Callback_getattr ev1 Hbase ev1_reachable).
Defined.

End EvaluatorExamples.

(** ** Strings *)

Lemma append_cons x (a b : string) : String x a +:+ b = String x (a +:+ b).
Proof. reflexivity. Qed.

Lemma append_nil_l (b : string) : "" +:+ b = b.
Proof. reflexivity. Qed.

Lemma append_assoc (a b c : string) : (a +:+ b) +:+ c = a +:+ (b +:+ c).
Proof.
  induction a as [|x a IH]; [done|]. by rewrite !append_cons, IH.
Qed.

Lemma append_nil_r (a : string) : a +:+ "" = a.
Proof. induction a as [|x a IH]; [done|]. by rewrite append_cons, IH. Qed.

Lemma cat_app (l1 l2 : list string) : cat (l1 ++ l2) = cat l1 +:+ cat l2.
Proof.
  induction l1 as [|x l1 IH]; simpl; [done|]. by rewrite IH, append_assoc.
Qed.

Lemma contains_append c (a b : string) :
  contains c (a +:+ b) = (contains c a || contains c b)%bool.
Proof.
  induction a as [|x a IH]; [done|]. rewrite append_cons. simpl.
  rewrite IH. by destruct (Ascii.eqb x c).
Qed.

Lemma split_no_sep c (a : string) : contains c a = false → split c a = [a].
Proof.
  induction a as [|x a IH]; simpl; [done|].
  destruct (Ascii.eqb x c); simpl; [done|]. intros Ha. by rewrite IH.
Qed.

Lemma split_append c (a r : string) :
  contains c a = false → split c (a +:+ String c r) = a :: split c r.
Proof.
  induction a as [|x a IH].
  - intros _. rewrite append_nil_l. simpl. by rewrite Ascii.eqb_refl.
  - rewrite append_cons. simpl. destruct (Ascii.eqb x c); simpl; [done|].
    intros Ha. by rewrite IH.
Qed.

Lemma readlines_append (a r : string) :
  contains newline a = false →
  readlines (a +:+ String newline r) = (a +:+ nl) :: readlines r.
Proof.
  induction a as [|x a IH].
  - done.
  - rewrite !append_cons. simpl. destruct (Ascii.eqb x newline); simpl; [done|].
    intros Ha. by rewrite IH.
Qed.

Lemma rstrip_line (a : string) :
  contains newline a = false → rstrip newline (a +:+ nl) = a.
Proof.
  induction a as [|x a IH]; [done|]. rewrite append_cons. simpl.
  destruct (Ascii.eqb x newline) eqn:Hx; simpl; [done|].
  intros Ha. rewrite IH by done. by destruct a.
Qed.

Lemma strip_line (a : string) :
  contains newline a = false → strip newline (a +:+ nl) = a.
Proof.
  intros Ha. unfold strip. destruct a as [|x a]; [done|].
  rewrite append_cons. simpl in Ha |- *.
  destruct (Ascii.eqb x newline) eqn:Hx; [done|].
  simpl in Ha. rewrite <- append_cons. apply rstrip_line. simpl. by rewrite Hx.
Qed.

(** The digits of a number hold no space and no newline. *)
Lemma contains_pretty_N_go c (x : N) (s : string) :
  (∀ d, pretty_N_char d ≠ c) →
  contains c s = false → contains c (pretty_N_go x s) = false.
Proof.
  intros Hc. revert s. induction (N.lt_wf_0 x) as [x _ IH]; intros s Hs.
  destruct (decide (x = 0)%N) as [->|Hx]; [by rewrite pretty_N_go_0|].
  rewrite pretty_N_go_step by lia. apply IH.
  - apply N.div_lt; lia.
  - cbn [contains]. rewrite Hs, orb_false_r. apply Ascii.eqb_neq, Hc.
Qed.

Lemma contains_str_int c (n : Z) :
  (∀ d, pretty_N_char d ≠ c) → "-"%char ≠ c → "0"%char ≠ c →
  contains c (str_int n) = false.
Proof.
  intros Hc Hdash Hzero.
  assert (∀ p : positive, contains c (pretty p) = false) as Hpos.
  { intros p. unfold pretty, pretty_positive, pretty, pretty_N.
    destruct (decide (N.pos p = 0)%N); [done|].
    by apply contains_pretty_N_go. }
  unfold str_int, pretty, pretty_Z. destruct n as [|p|p].
  - cbn [contains]. rewrite orb_false_r. by apply Ascii.eqb_neq.
  - apply Hpos.
  - rewrite contains_append, Hpos. cbn [contains]. rewrite !orb_false_r.
    by apply Ascii.eqb_neq.
Qed.

Lemma digit_char_not c :
  (Ascii.nat_of_ascii c < 48)%nat → ∀ d, pretty_N_char d ≠ c.
Proof.
  intros Hc d Hd. subst c. revert Hc. unfold pretty_N_char.
  repeat case_match; intros Hc; vm_compute in Hc; lia.
Qed.

Lemma str_int_no_space (n : Z) : contains space (str_int n) = false.
Proof. apply contains_str_int; [apply digit_char_not; vm_compute; lia | done..]. Qed.

Lemma str_int_no_newline (n : Z) : contains newline (str_int n) = false.
Proof. apply contains_str_int; [apply digit_char_not; vm_compute; lia | done..]. Qed.

(** ** Writing the record *)

Section TrainEnergyFacts.
Context {F : Type} `{!FloatOps F}.
Import TrainEnergy.
Implicit Types (cb : fitted F) (H : F).

Lemma foldl_row_text (text : string) (rows : list (list string)) :
  foldl (λ text fields, text +:+ row_text fields) text rows
  = text +:+ cat (row_text <$> rows).
Proof.
  revert text. induction rows as [|r rows IH]; intros text; simpl.
  - by rewrite append_nil_r.
  - by rewrite IH, append_assoc.
Qed.

(** The loop of lines 127-129 is [relative_error] over the energies. *)
Lemma relative_errors_mapM energies H :
  relative_errors energies H = mapM (relative_error H) energies.
Proof.
  unfold relative_errors, range. rewrite Z.sub_0_r.
  rewrite (for_range_mapM (relative_error H) (λ acc q, acc ++ [q])).
  - destruct (mapM (relative_error H) energies); simpl; [|done].
    by rewrite foldl_snoc.
  - intros acc j e He. rewrite Z.add_0_l, (getitem_lookup _ _ _ He). done.
Qed.

Lemma write_row_fields cb rel (text : string) (i : nat) :
  write_row cb rel text (Z.of_nat i)
  = fields ← from_option Ok (Raise IndexError) (row_fields cb rel i);
    Ok (text +:+ row_text fields).
Proof.
  unfold write_row, row_fields.
  rewrite !getitem_nonneg, !Nat2Z.id by lia.
  destruct (fidelities cb !! i); simpl; [|done].
  destruct (rel !! i); simpl; [|done].
  destruct (runtimes cb !! i); simpl; [|done].
  destruct (energies cb !! i); simpl; [|done].
  destruct (variance cb !! i); simpl; [|done].
  destruct (errors cb !! i); simpl; [|done].
  f_equal. unfold row_text. simpl. by rewrite !append_assoc.
Qed.

(** The loop of lines 136-142 appends the rows of the indices of
    [fidelities], in order. *)
Lemma write_rows cb rel (text : string) :
  for_ (range 0 (Z.of_nat (length (fidelities cb)))) (write_row cb rel) text
  = rows ← mapM (λ i, from_option Ok (Raise IndexError) (row_fields cb rel i))
             (seq 0 (length (fidelities cb)));
    Ok (text +:+ cat (row_text <$> rows)).
Proof.
  unfold range. rewrite Z.sub_0_r.
  pose proof (for_range_mapM
             (λ i, from_option Ok (Raise IndexError) (row_fields cb rel i))
             (λ text fields, text +:+ row_text fields)
             (write_row cb rel) (seq 0 (length (fidelities cb))) 0 text) as Hloop.
  rewrite length_seq in Hloop. rewrite Hloop.
  - destruct (mapM _ _); simpl; [|done]. by rewrite foldl_row_text.
  - intros s j i Hi. apply lookup_seq in Hi as [-> _].
    by rewrite Z.add_0_l, write_row_fields.
Qed.

(** [trainEnergy] without its loops. *)
Lemma trainEnergy_unfold fs nq ns bi st tn cb :
  trainEnergy fs nq ns bi st tn cb =
    H ← read_H fs nq;
    files ← listdir fs ("Data/Energy/Q" +:+ str_int nq);
    trial ← (if is_Next tn then Some <$> next_trial files else Ok None);
    rel ← mapM (relative_error H) (energies cb);
    rows ← mapM (λ i, from_option Ok (Raise IndexError) (row_fields cb rel i))
             (seq 0 (length (fidelities cb)));
    Ok {| TrainEnergy.H := H; trial := trial;
          figure := "Data/Energy/Q" +:+ str_int nq +:+ "/Trial" +:+ format_trial tn;
          relativeErrors := rel;
          resultsfile :=
            "Data/Energy/Q" +:+ str_int nq +:+ "/Trial" +:+ format_trial tn +:+ ".txt";
          fs_after :=
            write_file fs
              ("Data/Energy/Q" +:+ str_int nq +:+ "/Trial" +:+ format_trial tn +:+ ".txt")
              (record_text ns bi st rows) |}.
Proof.
  unfold trainEnergy.
  destruct (read_H fs nq) as [H|]; simpl; [|done].
  destruct (listdir fs _) as [files|]; simpl; [|done].
  destruct (if is_Next tn then _ else _) as [trial|]; simpl; [|done].
  rewrite relative_errors_mapM.
  destruct (mapM (relative_error H) (energies cb)) as [rel|]; simpl; [|done].
  rewrite write_rows.
  by destruct (mapM _ (seq 0 _)).
Qed.

(** With a non-empty listing the trial number of lines 103-109 is computed
    without an exception. *)
Lemma next_trial_total (files : list string) :
  files ≠ [] → ∃ trial, next_trial files = Ok trial.
Proof.
  intros Hne. unfold next_trial.
  destruct (exists_last Hne) as (l & prevFile & ->).
  rewrite getitem_last. simpl. apply for_total.
  intros trial char. unfold int_of_char.
  destruct (isdigit char); simpl; by eexists.
Qed.

Lemma relative_errors_nonzero `{!FloatLaws F} energies H :
  float_is_zero H = false → ∃ rel, mapM (relative_error H) energies = Ok rel.
Proof.
  intros HH. induction energies as [|e energies [rel IH]]; simpl; [by eexists|].
  destruct (float_div_nonzero (float_abs (float_sub e H)) (float_abs H)) as [q Hq].
  { by rewrite float_abs_is_zero. }
  change (relative_error H e = Ok q) in Hq. rewrite Hq, IH. simpl. by eexists.
Qed.

Lemma relative_errors_zero `{!FloatLaws F} energies H :
  float_is_zero H = true →
  mapM (relative_error H) energies = Raise ZeroDivisionError ∨
  ∃ rel, mapM (relative_error H) energies = Ok rel ∧
         Forall (λ q, float_is_finite q = false) rel.
Proof.
  intros HH. induction energies as [|e energies IH]; simpl.
  { right. by exists []. }
  destruct (float_div_zero (float_abs (float_sub e H)) (float_abs H)) as [Hq|(q & Hq & Hfin)].
  { by rewrite float_abs_is_zero. }
  - left. change (relative_error H e = Raise ZeroDivisionError) in Hq. by rewrite Hq.
  - change (relative_error H e = Ok q) in Hq. rewrite Hq. simpl.
    destruct IH as [->|(rel & -> & Hrel)]; simpl; [by left|].
    right. exists (q :: rel). by split; [|constructor].
Qed.

(** When the other series are as long as [fidelities], every index of
    [fidelities] has its six fields. *)
Lemma rows_exist cb rel :
  (length (fidelities cb) ≤ length rel)%nat →
  (length (fidelities cb) ≤ length (runtimes cb))%nat →
  (length (fidelities cb) ≤ length (energies cb))%nat →
  (length (fidelities cb) ≤ length (variance cb))%nat →
  (length (fidelities cb) ≤ length (errors cb))%nat →
  ∃ rows,
    mapM (λ i, from_option Ok (Raise IndexError) (row_fields cb rel i))
      (seq 0 (length (fidelities cb))) = Ok rows ∧
    length rows = length (fidelities cb) ∧
    ∀ i, (i < length (fidelities cb))%nat → row_fields cb rel i = rows !! i.
Proof.
  intros Hrel Hrt Hen Hvar Herr.
  assert (∀ i, (i < length (fidelities cb))%nat → is_Some (row_fields cb rel i)) as Hsome.
  { intros i Hi. unfold row_fields.
    destruct (lookup_lt_is_Some_2 (fidelities cb) i) as [? ->]; [lia|].
    destruct (lookup_lt_is_Some_2 rel i) as [? ->]; [lia|].
    destruct (lookup_lt_is_Some_2 (runtimes cb) i) as [? ->]; [lia|].
    destruct (lookup_lt_is_Some_2 (energies cb) i) as [? ->]; [lia|].
    destruct (lookup_lt_is_Some_2 (variance cb) i) as [? ->]; [lia|].
    destruct (lookup_lt_is_Some_2 (errors cb) i) as [? ->]; [lia|].
    simpl. by eexists. }
  exists ((λ i, default [] (row_fields cb rel i)) <$> seq 0 (length (fidelities cb))).
  split; [|split].
  - apply mapM_result_Ok, Forall2_fmap_r, Forall_Forall2_diag, Forall_forall.
    intros i Hi%elem_of_seq. simpl.
    destruct (Hsome i) as [fields Hf]; [lia|]. by rewrite Hf.
  - by rewrite length_fmap, length_seq.
  - intros i Hi. rewrite list_lookup_fmap, lookup_seq_lt by done. simpl.
    by destruct (Hsome i Hi) as [fields ->].
Qed.

(** The record [trainEnergy] writes when nothing fails on the way. *)
Lemma trainEnergy_record fs nq ns bi st tn cb H listing rel :
  read_H fs nq = Ok H →
  listdir fs ("Data/Energy/Q" +:+ str_int nq) = Ok listing →
  (is_Next tn = true → listing ≠ []) →
  mapM (relative_error H) (energies cb) = Ok rel →
  (length (fidelities cb) ≤ length (energies cb))%nat →
  (length (fidelities cb) ≤ length (runtimes cb))%nat →
  (length (fidelities cb) ≤ length (variance cb))%nat →
  (length (fidelities cb) ≤ length (errors cb))%nat →
  ∃ out rows,
    trainEnergy fs nq ns bi st tn cb = Ok out ∧
    TrainEnergy.H out = H ∧
    relativeErrors out = rel ∧
    resultsfile out
      = "Data/Energy/Q" +:+ str_int nq +:+ "/Trial" +:+ format_trial tn +:+ ".txt" ∧
    files (fs_after out) !! resultsfile out = Some (record_text ns bi st rows) ∧
    length rows = length (fidelities cb) ∧
    ∀ i, (i < length (fidelities cb))%nat → row_fields cb rel i = rows !! i.
Proof.
  intros HH Hdir Hnext Hrel Hen Hrt Hvar Herr.
  assert (length (fidelities cb) ≤ length rel)%nat as Hlrel
    by (by rewrite (mapM_result_length _ _ _ Hrel)).
  destruct (rows_exist cb rel) as (rows & Hrows & Hlen & Hfields); [done..|].
  rewrite trainEnergy_unfold, HH, Hdir. simpl.
  assert (∃ trial, (if is_Next tn then Some <$> next_trial listing else Ok None) = Ok trial)
    as [trial ->].
  { destruct (is_Next tn); [|by eexists].
    destruct (next_trial_total listing) as [t ->]; [by apply Hnext|]. by eexists. }
  simpl. rewrite Hrel. simpl. rewrite Hrows. simpl.
  eexists _, rows. split; [reflexivity|]. simpl.
  repeat split; try done. by rewrite lookup_insert_eq.
Qed.

Lemma row_fields_inv cb rel (i : nat) (fields : list string) :
  row_fields cb rel i = Some fields →
  ∃ f r t e v se,
    fidelities cb !! i = Some f ∧ rel !! i = Some r ∧ runtimes cb !! i = Some t ∧
    energies cb !! i = Some e ∧ variance cb !! i = Some v ∧ errors cb !! i = Some se ∧
    fields = [str_float (round_ f 3); str_float (round_ r 6); str_float (round_ t 3);
              str_float (round_ e 5); str_float (round_ v 5); str_float (round_ se 5)].
Proof.
  unfold row_fields.
  destruct (fidelities cb !! i) as [f|]; simpl; [|done].
  destruct (rel !! i) as [r|]; simpl; [|done].
  destruct (runtimes cb !! i) as [t|]; simpl; [|done].
  destruct (energies cb !! i) as [e|]; simpl; [|done].
  destruct (variance cb !! i) as [v|]; simpl; [|done].
  destruct (errors cb !! i) as [se|]; simpl; [|done].
  intros [= <-]. by exists f, r, t, e, v, se.
Qed.

(** C2. For a reference [H] that is not zero, [trainEnergy] writes a record
    whose row [i] holds, as its second field, [|energies[i] - H| / |H|]
    rounded to six decimals; for a reference that is zero the division by
    [|H|] is made all the same, so that either [trainEnergy] raises
    [ZeroDivisionError] or every relative error it computed is a non-finite
    value. *)
Theorem relative_error_written `{!FloatLaws F} fs nq ns bi st tn cb H listing :
  read_H fs nq = Ok H →
  listdir fs ("Data/Energy/Q" +:+ str_int nq) = Ok listing →
  (is_Next tn = true → listing ≠ []) →
  (length (fidelities cb) ≤ length (energies cb))%nat →
  (length (fidelities cb) ≤ length (runtimes cb))%nat →
  (length (fidelities cb) ≤ length (variance cb))%nat →
  (length (fidelities cb) ≤ length (errors cb))%nat →
  (float_is_zero H = false →
     ∃ out rows,
       trainEnergy fs nq ns bi st tn cb = Ok out ∧
       files (fs_after out) !! resultsfile out
         = Some (record_text ns bi st rows) ∧
       length rows = length (fidelities cb) ∧
       ∀ (i : nat) e,
         (i < length (fidelities cb))%nat → energies cb !! i = Some e →
         ∃ q fields,
           relative_error H e = Ok q ∧
           rows !! i = Some fields ∧
           fields !! 1%nat = Some (str_float (round_ q 6))) ∧
  (float_is_zero H = true →
     trainEnergy fs nq ns bi st tn cb = Raise ZeroDivisionError ∨
     ∃ out,
       trainEnergy fs nq ns bi st tn cb = Ok out ∧
       length (relativeErrors out) = length (energies cb) ∧
       Forall (λ q, float_is_finite q = false) (relativeErrors out)).
Proof.
  intros HH Hdir Hnext Hen Hrt Hvar Herr. split.
  - intros Hnz.
    destruct (relative_errors_nonzero (energies cb) H Hnz) as [rel Hrel].
    destruct (trainEnergy_record fs nq ns bi st tn cb H listing rel)
      as (out & rows & Hout & _ & _ & _ & Hfile & Hlen & Hrows); [done..|].
    exists out, rows. repeat split; [done..|].
    intros i e Hi He.
    apply mapM_result_Ok in Hrel.
    destruct (Forall2_lookup_l _ _ _ _ _ Hrel He) as (q & Hq & Hdiv).
    destruct (lookup_lt_is_Some_2 rows i) as [fields Hfields]; [lia|].
    exists q, fields. split; [done|]. split; [done|].
    rewrite <- Hrows in Hfields by done.
    apply row_fields_inv in Hfields as (f & r & t & e' & v & se & _ & Hr & _ & _ & _ & _ & ->).
    rewrite Hq in Hr. by injection Hr as <-.
  - intros Hz.
    destruct (relative_errors_zero (energies cb) H Hz) as [Hrel|(rel & Hrel & Hfin)].
    + left. rewrite trainEnergy_unfold, HH, Hdir. simpl.
      assert (∃ trial, (if is_Next tn then Some <$> next_trial listing else Ok None) = Ok trial)
        as [trial ->].
      { destruct (is_Next tn); [|by eexists].
        destruct (next_trial_total listing) as [t ->]; [by apply Hnext|]. by eexists. }
      simpl. by rewrite Hrel.
    + right.
      destruct (trainEnergy_record fs nq ns bi st tn cb H listing rel)
        as (out & rows & Hout & _ & Hrelout & _); [done..|].
      exists out. rewrite Hrelout. split; [done|]. split; [|done].
      by apply mapM_result_length in Hrel.
Qed.

End TrainEnergyFacts.

(** ** From the history to the rows *)

Section HistoryFacts.
Context {F : Type} `{!FloatOps F}.
Import TrainEnergy Statistics.

Lemma read_callbacks_lengths history (Fidelity epochTimes : list F) cb :
  read_callbacks history Fidelity epochTimes = Ok cb →
  length (energies cb) = length history ∧
  length (TrainEnergy.variance cb) = length history ∧
  length (errors cb) = length history ∧
  fidelities cb = Fidelity ∧ runtimes cb = epochTimes.
Proof.
  unfold read_callbacks, observable_series.
  destruct (mapM _ history) as [stats|] eqn:Hstats; simpl; [|done].
  intros [= <-]. simpl. rewrite !length_fmap.
  by rewrite (mapM_result_length _ _ _ Hstats).
Qed.

Lemma read_callbacks_lookup history (Fidelity epochTimes : list F) cb
    (i : nat) (epoch : Z) vals :
  read_callbacks history Fidelity epochTimes = Ok cb →
  history !! i = Some (epoch, vals) →
  ∃ s, dict_getitem vals "Heisenberg1DEnergy" = Ok s ∧
       energies cb !! i = Some (mean s) ∧
       TrainEnergy.variance cb !! i = Some (Statistics.variance s) ∧
       errors cb !! i = Some (std_error s).
Proof.
  unfold read_callbacks, observable_series.
  destruct (mapM _ history) as [stats|] eqn:Hstats; simpl; [|done].
  intros [= <-] Hi. simpl.
  apply mapM_result_Ok in Hstats.
  destruct (Forall2_lookup_l _ _ _ _ _ Hstats Hi) as (s & Hs & Hget).
  exists s. rewrite !list_lookup_fmap, Hs. by simpl in *.
Qed.

(** The rows against any list of entries. *)
Lemma rows_follow_entries `{!FloatLaws F}
    (history : list (Z * dict (StatSummary F))) (Fidelity epochTimes : list F)
    cb fs nq ns bi st tn H listing :
  read_callbacks history Fidelity epochTimes = Ok cb →
  length Fidelity = length history →
  (length history ≤ length epochTimes)%nat →
  read_H fs nq = Ok H →
  float_is_zero H = false →
  listdir fs ("Data/Energy/Q" +:+ str_int nq) = Ok listing →
  (is_Next tn = true → listing ≠ []) →
  ∃ out rows,
    trainEnergy fs nq ns bi st tn cb = Ok out ∧
    files (fs_after out) !! resultsfile out = Some (record_text ns bi st rows) ∧
    length rows = length history ∧
    ∀ (i : nat) (epoch : Z) vals,
      history !! i = Some (epoch, vals) →
      ∃ s fields,
        dict_getitem vals "Heisenberg1DEnergy" = Ok s ∧
        rows !! i = Some fields ∧
        fields !! 3%nat = Some (str_float (round_ (mean s) 5)) ∧
        fields !! 4%nat = Some (str_float (round_ (Statistics.variance s) 5)) ∧
        fields !! 5%nat = Some (str_float (round_ (std_error s) 5)).
Proof.
  intros Hcb Hfid Hrt HH Hnz Hdir Hnext.
  destruct (read_callbacks_lengths _ _ _ _ Hcb) as (Hen & Hvar & Herr & Hf & Hr).
  destruct (relative_errors_nonzero (energies cb) H Hnz) as [rel Hrel].
  destruct (trainEnergy_record fs nq ns bi st tn cb H listing rel)
    as (out & rows & Hout & _ & _ & _ & Hfile & Hlen & Hrows);
    [done|done|done|done|rewrite Hf, ?Hr; lia..|].
  rewrite Hf, Hfid in Hlen, Hrows.
  exists out, rows. repeat split; [done..|].
  intros i epoch vals Hi.
  destruct (read_callbacks_lookup _ _ _ _ _ _ _ Hcb Hi) as (s & Hs & Hmean & Hv & Hse).
  assert (i < length history)%nat as Hlt by (by eapply lookup_lt_Some).
  destruct (lookup_lt_is_Some_2 rows i) as [fields Hfields]; [lia|].
  exists s, fields. split; [done|]. split; [done|].
  rewrite <- Hrows in Hfields by done.
  apply row_fields_inv in Hfields
    as (f & r & t & e' & v & se & _ & _ & _ & He & Hv' & Hse' & ->).
  rewrite Hmean in He. rewrite Hv in Hv'. rewrite Hse in Hse'.
  injection He as <-. injection Hv' as <-. injection Hse' as <-. done.
Qed.

(** The callbacks of a training have recorded equally often. *)
Lemma epoch_end_lengths {NNState Observable KwArg : Type}
    `{!Sampling NNState Observable KwArg (StatSummary F)}
    (log_every : Z) (nn_at : Z → NNState) (fidelity_of : NNState → F) (clock : Z → F)
    (cbs cbs' : callbacks Observable KwArg F) (ep : Z) :
  ObservableEvaluator.period (observable_evaluator cbs) = log_every ∧
  length (Fidelity cbs)
    = length (ObservableEvaluator.observable_statistics (observable_evaluator cbs)) ∧
  length (epochTimes cbs)
    = length (ObservableEvaluator.observable_statistics (observable_evaluator cbs)) →
  epoch_end log_every nn_at fidelity_of clock cbs ep = Ok cbs' →
  ObservableEvaluator.period (observable_evaluator cbs') = log_every ∧
  length (Fidelity cbs')
    = length (ObservableEvaluator.observable_statistics (observable_evaluator cbs')) ∧
  length (epochTimes cbs')
    = length (ObservableEvaluator.observable_statistics (observable_evaluator cbs')).
Proof.
  intros (Hper & Hfid & Htimes). unfold epoch_end.
  destruct (decide (log_every = 0)) as [Hz|Hnz].
  { rewrite on_epoch_end_zero_period by by rewrite Hper. done. }
  unfold periodic_append, mod_. rewrite !(bool_decide_eq_false_2 (log_every = 0)) by done.
  rewrite !bind_Ok.
  destruct (decide (ep `mod` log_every = 0)) as [Hr|Hr].
  - destruct (on_epoch_end_record (observable_evaluator cbs) (nn_at ep) ep)
      as (self' & evs & -> & Hper' & _ & _ & Hhist & _);
      [by rewrite Hper | by rewrite Hper |].
    rewrite !bool_decide_eq_true_2, !bind_Ok by done.
    intros [= <-]. simpl. rewrite Hhist, !length_app. simpl.
    rewrite Hper', Hper, Hfid, Htimes. done.
  - rewrite on_epoch_end_pass by by rewrite Hper.
    rewrite !bool_decide_eq_false_2, !bind_Ok by done.
    intros [= <-]. by simpl.
Qed.

Lemma train_lengths {NNState Observable KwArg : Type}
    `{!Sampling NNState Observable KwArg (StatSummary F)}
    (log_every : Z) (observables : list Observable) (kwargs : dict KwArg)
    (nn_at : Z → NNState) (fidelity_of : NNState → F) (clock : Z → F)
    (iterations : Z) (cbs : callbacks Observable KwArg F) :
  train log_every observables kwargs nn_at fidelity_of clock iterations = Ok cbs →
  length (Fidelity cbs)
    = length (ObservableEvaluator.observable_statistics (observable_evaluator cbs)) ∧
  length (epochTimes cbs)
    = length (ObservableEvaluator.observable_statistics (observable_evaluator cbs)).
Proof.
  intros Htrain.
  eapply (for_preserves
            (λ cbs : callbacks Observable KwArg F,
               ObservableEvaluator.period (observable_evaluator cbs) = log_every ∧
               length (Fidelity cbs)
                 = length (ObservableEvaluator.observable_statistics
                             (observable_evaluator cbs)) ∧
               length (epochTimes cbs)
                 = length (ObservableEvaluator.observable_statistics
                             (observable_evaluator cbs)))) in Htrain.
  - by destruct Htrain as (_ & ? & ?).
  - intros s x s'. apply epoch_end_lengths.
  - done.
Qed.

(** C8. After a training in which the three callbacks of [trainEnergy] are
    registered with the same period ([log_every]), [trainEnergy] writes as
    many rows as the history of the evaluator of observables has entries,
    and row [i] holds the mean, the variance and the standard error of the
    [i]-th entry of the history: the rows follow the order in which the
    iterations were recorded. *)
Theorem rows_follow_history `{!FloatLaws F} {NNState Observable KwArg : Type}
    `{!Sampling NNState Observable KwArg (StatSummary F)}
    (log_every : Z) (observables : list Observable) (kwargs : dict KwArg)
    (nn_at : Z → NNState) (fidelity_of : NNState → F) (clock : Z → F)
    (iterations : Z) (cbs : callbacks Observable KwArg F)
    cb fs nq ns bi st tn H listing :
  train log_every observables kwargs nn_at fidelity_of clock iterations = Ok cbs →
  read_callbacks (ObservableEvaluator.observable_statistics (observable_evaluator cbs))
    (Fidelity cbs) (epochTimes cbs) = Ok cb →
  read_H fs nq = Ok H →
  float_is_zero H = false →
  listdir fs ("Data/Energy/Q" +:+ str_int nq) = Ok listing →
  (is_Next tn = true → listing ≠ []) →
  ∃ out rows,
    trainEnergy fs nq ns bi st tn cb = Ok out ∧
    files (fs_after out) !! resultsfile out = Some (record_text ns bi st rows) ∧
    length rows
      = length (ObservableEvaluator.observable_statistics (observable_evaluator cbs)) ∧
    ∀ (i : nat) (epoch : Z) vals,
      ObservableEvaluator.observable_statistics (observable_evaluator cbs) !! i
        = Some (epoch, vals) →
      ∃ s fields,
        dict_getitem vals "Heisenberg1DEnergy" = Ok s ∧
        rows !! i = Some fields ∧
        fields !! 3%nat = Some (str_float (round_ (mean s) 5)) ∧
        fields !! 4%nat = Some (str_float (round_ (Statistics.variance s) 5)) ∧
        fields !! 5%nat = Some (str_float (round_ (std_error s) 5)).
Proof.
  intros Htrain Hcb HH Hnz Hdir Hnext.
  destruct (train_lengths _ _ _ _ _ _ _ _ Htrain) as [Hfid Htimes].
  eapply rows_follow_entries; try done. lia.
Qed.

End HistoryFacts.

(** ** Reading the records *)

Section AnalysisFacts.
Context {F : Type} `{!FloatOps F}.
Import Analysis.
Implicit Types (g : locals F) (t : trial_lists F) (lines : list string).

Lemma read_line_data lines (st : locals F * trial_lists F) (j : Z) :
  3 < j →
  read_line lines st j = line ← getitem lines j; row ← parse_row line; Ok (add_row st row).
Proof.
  intros Hj. unfold read_line. destruct st as [g t].
  rewrite !bool_decide_eq_false_2 by lia.
  rewrite bool_decide_eq_true_2 by lia.
  destruct (getitem lines j) as [line|]; simpl; [|done].
  unfold parse_row.
  destruct (getitem (fields line) 0) as [tok0|]; simpl; [|done].
  destruct (float_ tok0) as [f|]; simpl; [|done].
  destruct (getitem (fields line) 2) as [tok2|]; simpl; [|done].
  destruct (float_ tok2) as [e|]; simpl; [|done].
  destruct (getitem (fields line) 4) as [tok4|]; simpl; [|done].
  by destruct (float_ tok4) as [r|].
Qed.

Lemma foldl_add_row (st : locals F * trial_lists F) (rows : list (F * F * F)) :
  foldl add_row st rows =
    (st.1, {| fidelitiesList := fidelitiesList st.2 ++ ((λ x, x.1.1) <$> rows);
              runtimesList := runtimesList st.2 ++ ((λ x, x.2) <$> rows);
              errorsList := errorsList st.2 ++ ((λ x, x.1.2) <$> rows) |}).
Proof.
  revert st. induction rows as [|row rows IH]; intros [g t]; simpl.
  - rewrite !app_nil_r. by destruct t.
  - rewrite IH. simpl. by rewrite <- !app_assoc.
Qed.

(** The passes of the loop over the data lines, those after the first four. *)
Lemma read_data_lines (pre rest : list string) (st : locals F * trial_lists F) :
  length pre = 4%nat →
  for_ (seqZ 4 (Z.of_nat (length rest))) (read_line (pre ++ rest)) st
  = rows ← mapM parse_row rest; Ok (foldl add_row st rows).
Proof.
  intros Hpre. apply for_range_mapM.
  intros s j line Hline. rewrite read_line_data by lia.
  rewrite getitem_nonneg by lia.
  replace (Z.to_nat (4 + Z.of_nat j)) with (length pre + j)%nat by lia.
  by rewrite lookup_app_r, Nat.add_comm, Nat.add_sub, Hline by lia.
Qed.

Lemma read_line_3 lines (st : locals F * trial_lists F) : read_line lines st 3 = Ok st.
Proof. by destruct st. Qed.

(** The whole loop over the lines of a file. *)
Lemma read_lines lines g :
  for_ (range 0 (Z.of_nat (length lines))) (read_line lines)
    (g, {| fidelitiesList := []; runtimesList := []; errorsList := [] |})
  = s ← header_token lines 0;
    b ← header_token lines 1;
    st ← header_token lines 2;
    rows ← mapM parse_row (drop 4 lines);
    Ok ({| fidelities := fidelities g; runtimes := runtimes g; errors := errors g;
           samples := samples g ++ s; burn_in := burn_in g ++ b;
           steps := steps g ++ st |},
        {| fidelitiesList := (λ x, x.1.1) <$> rows;
           runtimesList := (λ x, x.2) <$> rows;
           errorsList := (λ x, x.1.2) <$> rows |}).
Proof.
  unfold range. rewrite Z.sub_0_r.
  destruct lines as [|l0 [|l1 [|l2 [|l3 rest]]]].
  - simpl. rewrite !app_nil_r. by destruct g.
  - unfold header_token. simpl.
    destruct (getitem (fields l0) 1); simpl; [|done].
    rewrite !app_nil_r. done.
  - unfold header_token. simpl.
    destruct (getitem (fields l0) 1); simpl; [|done].
    destruct (getitem (fields l1) 1); simpl; [|done].
    rewrite !app_nil_r. done.
  - unfold header_token. simpl.
    destruct (getitem (fields l0) 1); simpl; [|done].
    destruct (getitem (fields l1) 1); simpl; [|done].
    destruct (getitem (fields l2) 1); simpl; [|done].
    done.
  - replace (Z.of_nat (length (l0 :: l1 :: l2 :: l3 :: rest)))
      with (4 + Z.of_nat (length rest)) by (simpl; lia).
    rewrite seqZ_app by lia. rewrite for_app.
    change (seqZ 0 4) with [0; 1; 2; 3]. change (0 + 4) with 4.
    unfold header_token. simpl.
    destruct (getitem (fields l0) 1); simpl; [|done].
    rewrite (getitem_at _ 1 l1 1) by done. simpl.
    destruct (getitem (fields l1) 1); simpl; [|done].
    rewrite (getitem_at _ 2 l2 2) by done. simpl.
    destruct (getitem (fields l2) 1); simpl; [|done].
    rewrite (read_data_lines [l0; l1; l2; l3] rest) by done.
    rewrite drop_0.
    destruct (mapM parse_row rest) as [rows|]; simpl; [|done].
    by rewrite foldl_add_row.
Qed.

(** [read_trial] without its loop. *)
Lemma read_trial_parse fs nq g (i : Z) :
  read_trial fs nq g i
  = trialfile ← open_ fs (trial_path nq i); parse_trial (readlines trialfile) g.
Proof.
  unfold read_trial, parse_trial.
  destruct (open_ fs (trial_path nq i)) as [text|]; simpl; [|done].
  rewrite read_lines.
  destruct (header_token (readlines text) 0); simpl; [|done].
  destruct (header_token (readlines text) 1); simpl; [|done].
  destruct (header_token (readlines text) 2); simpl; [|done].
  by destruct (mapM parse_row _).
Qed.

End AnalysisFacts.

Section AnalysisClaims.
Context {F : Type} `{!FloatOps F}.
Import Analysis.
Implicit Types (g : locals F) (lines : list string).











(** The loop of lines 175-177 reads index 10 of the runtimes of each trial. *)
Lemma runtime_at_10_mapM (runtimes : list (list F)) :
  runtime_at_10 runtimes = mapM (λ row, getitem row 10) runtimes.
Proof.
  unfold runtime_at_10, range. rewrite Z.sub_0_r.
  rewrite (for_range_mapM (λ row, getitem row 10) (λ acc x, acc ++ [x])).
  - destruct (mapM _ runtimes); simpl; [|done]. by rewrite foldl_snoc.
  - intros acc j row Hrow. by rewrite Z.add_0_l, (getitem_lookup _ _ _ Hrow).
Qed.

Lemma runtime_at_10_short (runtimes : list (list F)) :
  Exists (λ row, (length row < 11)%nat) runtimes →
  runtime_at_10 runtimes = Raise IndexError.
Proof.
  rewrite runtime_at_10_mapM. induction 1 as [row rows Hrow|row rows Hrows IH]; simpl.
  - by rewrite getitem_nonneg, lookup_ge_None_2 by lia.
  - rewrite getitem_nonneg by lia. destruct (row !! Z.to_nat 10); simpl; [|done].
    by rewrite IH.
Qed.

Lemma runtime_at_10_long (runtimes : list (list F)) :
  Forall (λ row, (11 ≤ length row)%nat) runtimes →
  ∃ runtime10,
    runtime_at_10 runtimes = Ok runtime10 ∧
    Forall2 (λ row x, row !! 10%nat = Some x) runtimes runtime10.
Proof.
  rewrite runtime_at_10_mapM. induction 1 as [|row rows Hrow Hrows (xs & IH & Hxs)]; simpl.
  - exists []. by split.
  - destruct (lookup_lt_is_Some_2 row 10) as [x Hx]; [lia|].
    rewrite getitem_nonneg by lia. change (Z.to_nat 10) with 10%nat.
    rewrite Hx, IH. simpl. exists (x :: xs). split; [done|]. by constructor.
Qed.

Lemma header_token_length lines (j : nat) (s : list string) :
  header_token lines j = Ok s →
  (j < length lines)%nat → length s = 1%nat.
Proof.
  unfold header_token. intros Hs Hj.
  destruct (lookup_lt_is_Some_2 lines j Hj) as [line Hline]. rewrite Hline in Hs.
  destruct (getitem (fields line) 1); simpl in Hs; [|done]. by injection Hs as <-.
Qed.

Lemma with_rows_snoc (runtimes : list (list F)) (row : list F) :
  with_rows (runtimes ++ [row])
  = (with_rows runtimes + if decide (0 < length row)%nat then 1 else 0)%nat.
Proof.
  unfold with_rows. rewrite filter_app, length_app. f_equal.
  rewrite filter_cons, filter_nil. by case_decide.
Qed.

Lemma read_trial_loaded fs (nq : Z) g (i : Z) g' :
  loaded g → read_trial fs nq g i = Ok g' → loaded g'.
Proof.
  intros (Hf & He & Hs & Hb & Hst). rewrite read_trial_parse.
  destruct (open_ fs (trial_path nq i)) as [text|]; simpl; [|done].
  unfold parse_trial.
  destruct (header_token _ 0) as [s|] eqn:H0; simpl; [|done].
  destruct (header_token _ 1) as [b|] eqn:H1; simpl; [|done].
  destruct (header_token _ 2) as [st|] eqn:H2; simpl; [|done].
  destruct (mapM parse_row _) as [rows|] eqn:Hrows; simpl; [|done].
  intros [= <-]. unfold loaded. simpl.
  rewrite with_rows_snoc, !length_app, !length_fmap. simpl.
  apply mapM_result_length in Hrows. rewrite length_drop in Hrows.
  case_decide as Hpos.
  - rewrite (header_token_length _ _ _ H0), (header_token_length _ _ _ H1),
      (header_token_length _ _ _ H2) by lia. lia.
  - lia.
Qed.

Lemma with_rows_all (runtimes : list (list F)) :
  Forall (λ row, (11 ≤ length row)%nat) runtimes → with_rows runtimes = length runtimes.
Proof.
  unfold with_rows. induction 1 as [|row rows Hrow Hrows IH]; [done|].
  rewrite filter_cons. case_decide; [|lia]. simpl. by rewrite IH.
Qed.

Lemma plot_trials_total (nq : Z) g :
  loaded g → Forall (λ row, (11 ≤ length row)%nat) (runtimes g) →
  ∃ plots,
    for_ (range 0 (Z.of_nat (length (errors g)))) (plot_trial nq g) [] = Ok plots.
Proof.
  intros (Hf & He & Hs & Hb & Hst) Hall.
  rewrite (with_rows_all _ Hall) in Hs, Hb, Hst.
  unfold range. rewrite Z.sub_0_r. apply for_range_total.
  intros acc i Hi. unfold plot_trial. rewrite !getitem_nonneg by lia.
  destruct (lookup_lt_is_Some_2 (errors g) (Z.to_nat i)) as [? ->]; [lia|].
  destruct (lookup_lt_is_Some_2 (fidelities g) (Z.to_nat i)) as [? ->]; [lia|].
  destruct (lookup_lt_is_Some_2 (samples g) (Z.to_nat i)) as [? ->]; [lia|].
  destruct (lookup_lt_is_Some_2 (burn_in g) (Z.to_nat i)) as [? ->]; [lia|].
  destruct (lookup_lt_is_Some_2 (steps g) (Z.to_nat i)) as [? ->]; [lia|].
  simpl. by eexists.
Qed.

(** C7, as the code has it. The analyzer checks no row count when it loads
    a record. It first reads the 27 trial files and takes the columns of all
    of them, and an exception raised there is the one [analysis] ends with,
    whatever the row counts. Only then does it read index 10 of the runtimes
    of each trial: with a trial of fewer than 11 rows this raises
    [IndexError], and with 11 rows or more in every trial [analysis] returns,
    with the runtime at index 10 of each trial. *)
Theorem row_count_met_after_loading fs (nq : Z) :
  (∀ e,
     for_ (range 1 28) (read_trial fs nq)
       {| fidelities := []; runtimes := []; errors := [];
          samples := []; burn_in := []; steps := [] |} = Raise e →
     analysis fs nq = Raise e) ∧
  (∀ g,
     for_ (range 1 28) (read_trial fs nq)
       {| fidelities := []; runtimes := []; errors := [];
          samples := []; burn_in := []; steps := [] |} = Ok g →
     (Exists (λ row, (length row < 11)%nat) (runtimes g) →
        analysis fs nq = Raise IndexError) ∧
     (Forall (λ row, (11 ≤ length row)%nat) (runtimes g) →
        ∃ out,
          analysis fs nq = Ok out ∧
          Forall2 (λ row x, row !! 10%nat = Some x) (runtimes g) (runtime10 out))).
Proof.
  split.
  - intros e He. unfold analysis. by rewrite He.
  - intros g Hg. split.
    + intros Hshort. unfold analysis. rewrite Hg. simpl.
      by rewrite runtime_at_10_short.
    + intros Hall.
      assert (loaded g) as Hloaded.
      { eapply (for_preserves loaded); [|..|exact Hg].
        - intros s x s'. apply read_trial_loaded.
        - unfold loaded, with_rows. simpl. lia. }
      destruct (runtime_at_10_long _ Hall) as (runtime10 & Hrt & Hcol).
      destruct (plot_trials_total nq g Hloaded Hall) as [plots Hplots].
      unfold analysis. rewrite Hg. simpl. rewrite Hrt. simpl. rewrite Hplots. simpl.
      eexists. split; [reflexivity|]. done.
Qed.

End AnalysisClaims.

(** ** Reading back what was written *)

Section RoundTrip.
Context {F : Type} `{!FloatOps F}.
Import TrainEnergy.

Lemma token_no_space (s : string) : token s = true → contains space s = false.
Proof. unfold token. by destruct (contains space s). Qed.

Lemma token_no_newline (s : string) : token s = true → contains newline s = false.
Proof. unfold token. destruct (contains space s), (contains newline s); done. Qed.

Lemma split_space_cons (s : string) : split space (String space s) = "" :: split space s.
Proof. reflexivity. Qed.

(** The fields of a row, as [split(" ")] gives them back: an empty string
    after each, and one more at the end. *)
Lemma split_row_body (fields : list string) :
  Forall (λ x, token x = true) fields →
  split space (cat ((λ x, x +:+ "  ") <$> fields)) = (fields ≫= λ x, [x; ""]) ++ [""].
Proof.
  induction 1 as [|x fields Hx Hfields IH]; [done|].
  rewrite fmap_cons. cbn [cat]. rewrite append_assoc.
  change ("  " +:+ cat ((λ x, x +:+ "  ") <$> fields))
    with (String space (String space (cat ((λ x, x +:+ "  ") <$> fields)))).
  rewrite split_append by by apply token_no_space.
  by rewrite split_space_cons, IH.
Qed.

Lemma row_body_no_newline (fields : list string) :
  Forall (λ x, token x = true) fields →
  contains newline (cat ((λ x, x +:+ "  ") <$> fields)) = false.
Proof.
  induction 1 as [|x fields Hx Hfields IH]; [done|].
  rewrite fmap_cons. cbn [cat]. rewrite !contains_append, IH.
  by rewrite (token_no_newline x Hx).
Qed.

Lemma fields_row_text (fields : list string) :
  Forall (λ x, token x = true) fields →
  Analysis.fields (row_text fields) = (fields ≫= λ x, [x; ""]) ++ [""].
Proof.
  intros Hfields. unfold Analysis.fields, row_text.
  rewrite strip_line by by apply row_body_no_newline.
  by apply split_row_body.
Qed.

(** A written row is parsed into the floats of its first three fields. *)
Lemma parse_row_written (x y z : F) (more : list string) :
  reads_back x → reads_back y → reads_back z →
  Forall (λ s, token s = true) more →
  Analysis.parse_row (row_text (str_float x :: str_float y :: str_float z :: more))
  = Ok (x, y, z).
Proof.
  intros [Hx Hfx] [Hy Hfy] [Hz Hfz] Hmore. unfold Analysis.parse_row.
  rewrite fields_row_text by (by repeat constructor).
  rewrite (getitem_at _ 0 (str_float x) 0), (getitem_at _ 2 (str_float y) 2),
    (getitem_at _ 4 (str_float z) 4) by done.
  simpl. rewrite Hfx. simpl. rewrite Hfy. simpl. by rewrite Hfz.
Qed.

Lemma readlines_line (a r : string) :
  contains newline a = false →
  readlines ((a +:+ nl) +:+ r) = (a +:+ nl) :: readlines r.
Proof. intros Ha. rewrite append_assoc. by apply (readlines_append a r). Qed.

Lemma readlines_rows (rows : list (list string)) :
  Forall (Forall (λ x, token x = true)) rows →
  readlines (cat (row_text <$> rows)) = row_text <$> rows.
Proof.
  induction 1 as [|fields rows Hfields Hrows IH]; [done|].
  rewrite fmap_cons. cbn [cat]. unfold row_text at 1.
  rewrite readlines_line by by apply row_body_no_newline.
  by rewrite IH.
Qed.

(** The lines of a written record. *)
Lemma readlines_record (ns bi st : Z) (rows : list (list string)) :
  Forall (Forall (λ x, token x = true)) rows →
  readlines (record_text ns bi st rows)
  = ("samples: " +:+ str_int ns +:+ nl)
    :: ("burn_in: " +:+ str_int bi +:+ nl)
    :: ("steps: " +:+ str_int st +:+ nl)
    :: ("Fidelities & ROE & RT & Mean & Variance & STD Error" +:+ nl)
    :: (row_text <$> rows).
Proof.
  intros Hrows. unfold record_text, header.
  rewrite <- !(append_assoc _ _ nl). rewrite !(append_assoc (_ +:+ nl)).
  rewrite !readlines_line.
  - by rewrite readlines_rows.
  - done.
  - by rewrite contains_append, str_int_no_newline.
  - by rewrite contains_append, str_int_no_newline.
  - by rewrite contains_append, str_int_no_newline.
Qed.

Lemma header_field (label : string) (n : Z) :
  contains space label = false → contains newline label = false →
  getitem (Analysis.fields (label +:+ " " +:+ str_int n +:+ nl)) 1 = Ok (str_int n).
Proof.
  intros Hsp Hnl. unfold Analysis.fields.
  rewrite <- !append_assoc. rewrite strip_line.
  - rewrite append_assoc. change (" " +:+ str_int n) with (String space (str_int n)).
    rewrite split_append by done.
    by rewrite split_no_sep by apply str_int_no_space.
  - rewrite !contains_append, Hnl, str_int_no_newline. done.
Qed.

(** What a successful [trainEnergy] has computed and written. *)
Lemma trainEnergy_Ok_inv fs nq ns bi st tn cb out :
  trainEnergy fs nq ns bi st tn cb = Ok out →
  ∃ rows,
    mapM (relative_error (TrainEnergy.H out)) (energies cb) = Ok (relativeErrors out) ∧
    mapM (λ i, from_option Ok (Raise IndexError) (row_fields cb (relativeErrors out) i))
      (seq 0 (length (fidelities cb))) = Ok rows ∧
    fs_after out
      = write_file fs
          ("Data/Energy/Q" +:+ str_int nq +:+ "/Trial" +:+ format_trial tn +:+ ".txt")
          (record_text ns bi st rows).
Proof.
  rewrite trainEnergy_unfold.
  destruct (read_H fs nq) as [H|]; simpl; [|done].
  destruct (listdir fs _) as [listing|]; simpl; [|done].
  destruct (if is_Next tn then _ else _) as [trial|]; simpl; [|done].
  destruct (mapM (relative_error H) (energies cb)) as [rel|] eqn:Hrel; simpl; [|done].
  destruct (mapM _ (seq 0 _)) as [rows|] eqn:Hrows; simpl; [|done].
  intros [= <-]. by exists rows.
Qed.

(** C3, as the code has it. A record written by [trainEnergy] under the
    number [i] is read back by the analyzer as the fidelity, relative-error
    and runtime columns that were written, each value being the rounded one
    ([round(x, 3)], [round(x, 6)], [round(x, 3)]), row for row, together with
    the three numbers of the header; the mean, variance and standard-error
    columns are written but not read. Every written number is taken to be a
    token that [float] reads back as the same number. *)
Theorem record_read_back fs (nq ns bi st i : Z) cb out (g : Analysis.locals F) :
  trainEnergy fs nq ns bi st (TrialInt i) cb = Ok out →
  Forall (λ x, reads_back (round_ x 3)) (fidelities cb) →
  Forall (λ x, reads_back (round_ x 6)) (relativeErrors out) →
  Forall (λ x, reads_back (round_ x 3)) (runtimes cb) →
  Forall (λ x, token (str_float (round_ x 5)) = true)
    (energies cb ++ variance cb ++ errors cb) →
  Analysis.read_trial (fs_after out) nq g i =
    Ok {| Analysis.fidelities :=
            Analysis.fidelities g ++ [(λ x, round_ x 3) <$> fidelities cb];
          Analysis.runtimes :=
            Analysis.runtimes g
              ++ [(λ x, round_ x 3) <$> take (length (fidelities cb)) (runtimes cb)];
          Analysis.errors :=
            Analysis.errors g
              ++ [(λ x, round_ x 6) <$> take (length (fidelities cb)) (relativeErrors out)];
          Analysis.samples := Analysis.samples g ++ [str_int ns];
          Analysis.burn_in := Analysis.burn_in g ++ [str_int bi];
          Analysis.steps := Analysis.steps g ++ [str_int st] |}.
Proof.
  intros Hout Hfid Hrel Hrt Hrest.
  apply Forall_app in Hrest as [Hen Hrest]. apply Forall_app in Hrest as [Hvar Herr].
  destruct (trainEnergy_Ok_inv _ _ _ _ _ _ _ _ Hout) as (rows & _ & Hrows & Hfs).
  apply mapM_result_Ok in Hrows.
  assert (length rows = length (fidelities cb)) as Hlen.
  { rewrite <- (Forall2_length _ _ _ Hrows). apply length_seq. }
  (* each row, and what it is parsed into *)
  assert (∀ (k : nat) fields, rows !! k = Some fields →
    ∃ f r t,
      fidelities cb !! k = Some f ∧ relativeErrors out !! k = Some r ∧
      runtimes cb !! k = Some t ∧
      Forall (λ x, token x = true) fields ∧
      Analysis.parse_row (row_text fields) = Ok (round_ f 3, round_ r 6, round_ t 3))
    as Hrow.
  { intros k fields Hk.
    destruct (Forall2_lookup_r _ _ _ _ _ Hrows Hk) as (k' & Hk' & Hfields).
    apply lookup_seq in Hk' as [-> _]. simpl in Hfields.
    destruct (row_fields cb (relativeErrors out) k) as [fields'|] eqn:Hrf; [|done].
    simpl in Hfields. injection Hfields as ->.
    apply row_fields_inv in Hrf as (f & r & t & e & v & se & Hf & Hr & Ht & He & Hv & Hse & ->).
    exists f, r, t. repeat split; try done.
    - pose proof (Forall_lookup_1 _ _ _ _ Hfid Hf) as [? _].
      pose proof (Forall_lookup_1 _ _ _ _ Hrel Hr) as [? _].
      pose proof (Forall_lookup_1 _ _ _ _ Hrt Ht) as [? _].
      pose proof (Forall_lookup_1 _ _ _ _ Hen He).
      pose proof (Forall_lookup_1 _ _ _ _ Hvar Hv).
      pose proof (Forall_lookup_1 _ _ _ _ Herr Hse).
      by repeat constructor.
    - apply parse_row_written.
      + exact (Forall_lookup_1 _ _ _ _ Hfid Hf).
      + exact (Forall_lookup_1 _ _ _ _ Hrel Hr).
      + exact (Forall_lookup_1 _ _ _ _ Hrt Ht).
      + pose proof (Forall_lookup_1 _ _ _ _ Hen He).
        pose proof (Forall_lookup_1 _ _ _ _ Hvar Hv).
        pose proof (Forall_lookup_1 _ _ _ _ Herr Hse).
        by repeat constructor. }
  assert (Forall (Forall (λ x, token x = true)) rows) as Htok.
  { apply Forall_lookup. intros k fields Hk.
    by destruct (Hrow k fields Hk) as (? & ? & ? & _ & _ & _ & ? & _). }
  (* the data lines are parsed *)
  destruct (mapM_result_total Analysis.parse_row (row_text <$> rows)) as [parsed Hparsed].
  { apply Forall_fmap, Forall_lookup. intros k fields Hk. simpl.
    destruct (Hrow k fields Hk) as (? & ? & ? & _ & _ & _ & _ & ->). by eexists. }
  pose proof Hparsed as Hcols. apply mapM_result_Ok in Hcols.
  assert (length parsed = length (fidelities cb)) as Hplen.
  { rewrite <- (Forall2_length _ _ _ Hcols), length_fmap. done. }
  assert (∀ (k : nat) row, parsed !! k = Some row →
    ∃ f r t,
      fidelities cb !! k = Some f ∧ relativeErrors out !! k = Some r ∧
      runtimes cb !! k = Some t ∧ row = (round_ f 3, round_ r 6, round_ t 3))
    as Hcol.
  { intros k row Hk.
    destruct (Forall2_lookup_r _ _ _ _ _ Hcols Hk) as (line & Hline & Hp).
    rewrite list_lookup_fmap in Hline.
    destruct (rows !! k) as [fields|] eqn:Hfields; [|done].
    simpl in Hline. injection Hline as <-.
    destruct (Hrow k fields Hfields) as (f & r & t & Hf & Hr & Ht & _ & Hp').
    exists f, r, t. repeat split; try done. congruence. }
  (* the file, its lines, and the reading of them *)
  assert (open_ (fs_after out) (Analysis.trial_path nq i)
          = Ok (record_text ns bi st rows)) as Hopen.
  { rewrite Hfs. unfold open_, write_file, Analysis.trial_path. cbn [files].
    change (format_trial (TrialInt i)) with (str_int i).
    by rewrite lookup_insert_eq. }
  rewrite read_trial_parse, Hopen, bind_Ok.
  rewrite readlines_record by done. unfold Analysis.parse_trial, Analysis.header_token.
  cbn [lookup list_lookup drop].
  assert (getitem (Analysis.fields ("samples: " +:+ str_int ns +:+ nl)) 1
          = Ok (str_int ns)) as -> by exact (header_field "samples:" ns eq_refl eq_refl).
  assert (getitem (Analysis.fields ("burn_in: " +:+ str_int bi +:+ nl)) 1
          = Ok (str_int bi)) as -> by exact (header_field "burn_in:" bi eq_refl eq_refl).
  assert (getitem (Analysis.fields ("steps: " +:+ str_int st +:+ nl)) 1
          = Ok (str_int st)) as -> by exact (header_field "steps:" st eq_refl eq_refl).
  rewrite !bind_Ok, drop_0, Hparsed, bind_Ok.
  f_equal. f_equal; f_equal; f_equal; apply list_eq; intros k;
    rewrite !list_lookup_fmap, ?lookup_take;
    (destruct (parsed !! k) as [row|] eqn:Hk;
     [ destruct (Hcol k row Hk) as (f & r & t & Hf & Hr & Ht & ->);
       pose proof (lookup_lt_Some _ _ _ Hk);
       rewrite ?decide_True by lia; by rewrite ?Hf, ?Hr, ?Ht
     | apply lookup_ge_None in Hk;
       rewrite ?decide_False by lia; by rewrite ?lookup_ge_None_2 by lia ]).
Qed.

End RoundTrip.

(** ** The programs on the example trials *)

#[global] Instance dec_laws : FloatLaws Decimal6.dec.
Proof.
  split.
  - intros x. simpl. apply bool_decide_ext. lia.
  - intros x y Hy. simpl in *. unfold Decimal6.div.
    rewrite bool_decide_eq_false in Hy. rewrite bool_decide_eq_false_2 by done.
    by eexists.
  - intros x y Hy. simpl in *. unfold Decimal6.div.
    rewrite bool_decide_eq_true in Hy. rewrite bool_decide_eq_true_2 by done.
    by left.
Qed.


Section Examples.
Import Decimal6 Example.

(** C4, on the code. With the trials 1, 2 and 3 in the directory and
    [trialNum = "Next"], the loop of lines 104-109 computes 4, but the number
    is not used: the record is written to [TrialNext.txt] and the figure to
    [TrialNext]. The number itself is the last digit of the last file name of
    the listing plus one: 3 for [Trial12.txt], and 2 when the listing ends
    with [Trial1.txt]. With an empty directory [files[-1]] raises
    [IndexError]. *)
Theorem next_trial_number_unused :
  (λ out, (TrainEnergy.trial out, TrainEnergy.figure out, TrainEnergy.resultsfile out))
    <$> TrainEnergy.trainEnergy (fs0 ["Trial1.txt"; "Trial2.txt"; "Trial3.txt"])
          2 1000 100 100 (TrialStr "Next") cbA
  = Ok (Some 4, "Data/Energy/Q2/TrialNext", "Data/Energy/Q2/TrialNext.txt") ∧
  TrainEnergy.next_trial ["Trial12.txt"] = Ok 3 ∧
  TrainEnergy.next_trial ["Trial3.txt"; "Trial1.txt"] = Ok 2 ∧
  TrainEnergy.trainEnergy (fs0 []) 2 1000 100 100 (TrialStr "Next") cbA
  = Raise IndexError.
Proof. repeat split; vm_compute; reflexivity. Qed.

Lemma relative_error_written_witness :
  TrainEnergy.read_H (fs0 ["Trial1.txt"]) 2 = Ok (Dec (-4000000)) ∧
  float_is_zero (Dec (-4000000)) = false ∧
  ∃ out rows,
    TrainEnergy.trainEnergy (fs0 ["Trial1.txt"]) 2 1000 100 100 (TrialStr "Next") cbA
      = Ok out ∧
    files (TrainEnergy.fs_after out) !! TrainEnergy.resultsfile out
      = Some (TrainEnergy.record_text 1000 100 100 rows) ∧
    length rows = length (TrainEnergy.fidelities cbA) ∧
    ∀ (i : nat) e,
      (i < length (TrainEnergy.fidelities cbA))%nat →
      TrainEnergy.energies cbA !! i = Some e →
      ∃ q fields,
        TrainEnergy.relative_error (Dec (-4000000)) e = Ok q ∧
        rows !! i = Some fields ∧
        fields !! 1%nat = Some (str_float (round_ q 6)).
Proof.
  split; [vm_compute; reflexivity|]. split; [vm_compute; reflexivity|].
  apply (relative_error_written (fs0 ["Trial1.txt"]) 2 1000 100 100 (TrialStr "Next")
           cbA (Dec (-4000000)) ["Trial1.txt"]).
  - vm_compute; reflexivity.
  - vm_compute; reflexivity.
  - intros _. discriminate.
  - simpl; lia.
  - simpl; lia.
  - simpl; lia.
  - simpl; lia.
  - vm_compute; reflexivity.
Defined.

(** With a reference of zero the division of floats raises, and so does
    [trainEnergy]. *)
Example relative_error_zero_reference :
  TrainEnergy.read_H fs_zero 2 = Ok (Dec 0) ∧
  TrainEnergy.trainEnergy fs_zero 2 1000 100 100 (TrialInt 1) cbA
  = Raise ZeroDivisionError.
Proof. split; vm_compute; reflexivity. Qed.

(** The end-to-end scenario of the specification: reference [-4.0] and the
    means [-3.5, -3.8, -3.9, -3.95, -3.99]. *)
Example relative_errors_scenario :
  TrainEnergy.relative_errors
    [Dec (-3500000); Dec (-3800000); Dec (-3900000); Dec (-3950000); Dec (-3990000)]
    (Dec (-4000000))
  = Ok [Dec 125000; Dec 50000; Dec 25000; Dec 12500; Dec 2500].
Proof. vm_compute; reflexivity. Qed.

Lemma rows_follow_history_witness :
  ∃ cbs,
    Statistics.train 1 ["Heisenberg1DEnergy"] ([] : dict Z) nn_at fidelity_of clock 2
      = Ok cbs ∧
    Statistics.read_callbacks
      (ObservableEvaluator.observable_statistics (Statistics.observable_evaluator cbs))
      (Statistics.Fidelity cbs) (Statistics.epochTimes cbs) = Ok cbA ∧
    ∃ out rows,
      TrainEnergy.trainEnergy (fs0 []) 2 1000 100 100 (TrialInt 1) cbA = Ok out ∧
      files (TrainEnergy.fs_after out) !! TrainEnergy.resultsfile out
        = Some (TrainEnergy.record_text 1000 100 100 rows) ∧
      length rows
        = length (ObservableEvaluator.observable_statistics
                    (Statistics.observable_evaluator cbs)).
Proof.
  assert (∃ cbs,
    Statistics.train 1 ["Heisenberg1DEnergy"] ([] : dict Z) nn_at fidelity_of clock 2
      = Ok cbs ∧
    Statistics.read_callbacks
      (ObservableEvaluator.observable_statistics (Statistics.observable_evaluator cbs))
      (Statistics.Fidelity cbs) (Statistics.epochTimes cbs) = Ok cbA)
    as (cbs & Htrain & Hcb).
  { eexists. split; vm_compute; reflexivity. }
  exists cbs. split; [exact Htrain|]. split; [exact Hcb|].
  destruct (rows_follow_history 1 ["Heisenberg1DEnergy"] [] nn_at fidelity_of clock 2 cbs
              cbA (fs0 []) 2 1000 100 100 (TrialInt 1) (Dec (-4000000)) [])
    as (out & rows & Hout & Hfile & Hlen & _).
  - exact Htrain.
  - exact Hcb.
  - vm_compute; reflexivity.
  - vm_compute; reflexivity.
  - vm_compute; reflexivity.
  - intros Hnext. discriminate Hnext.
  - by exists out, rows.
Defined.

(** C3 as the spec words it fails: the two trainings [cbA] and [cbB] write
    records that differ in the mean, variance and standard-error columns,
    and the analyzer reads the same thing back from both. *)
Lemma mean_variance_error_not_read_back :
  (λ x, round_ x 5) <$> TrainEnergy.energies cbA
    ≠ (λ x, round_ x 5) <$> TrainEnergy.energies cbB ∧
  written cbA ≠ written cbB ∧
  write_then_read cbA = write_then_read cbB ∧
  write_then_read cbA
  = Ok {| Analysis.fidelities := [[Dec 900000; Dec 910000]];
          Analysis.runtimes := [[Dec 1000000; Dec 2000000]];
          Analysis.errors := [[Dec 125000; Dec 50000]];
          Analysis.samples := ["1000"];
          Analysis.burn_in := ["100"];
          Analysis.steps := ["100"] |}.
Proof.
  split; [vm_compute; discriminate|].
  split; [vm_compute; discriminate|].
  split; vm_compute; reflexivity.
Qed.

Lemma record_read_back_witness :
  ∃ out,
    TrainEnergy.trainEnergy (fs0 []) 2 1000 100 100 (TrialInt 1) cbA = Ok out ∧
    Analysis.read_trial (TrainEnergy.fs_after out) 2 g0 1 =
      Ok {| Analysis.fidelities :=
              Analysis.fidelities g0 ++ [(λ x, round_ x 3) <$> TrainEnergy.fidelities cbA];
            Analysis.runtimes :=
              Analysis.runtimes g0
                ++ [(λ x, round_ x 3)
                      <$> take (length (TrainEnergy.fidelities cbA)) (TrainEnergy.runtimes cbA)];
            Analysis.errors :=
              Analysis.errors g0
                ++ [(λ x, round_ x 6)
                      <$> take (length (TrainEnergy.fidelities cbA))
                            (TrainEnergy.relativeErrors out)];
            Analysis.samples := Analysis.samples g0 ++ [str_int 1000];
            Analysis.burn_in := Analysis.burn_in g0 ++ [str_int 100];
            Analysis.steps := Analysis.steps g0 ++ [str_int 100] |}.
Proof.
  eexists. split; [vm_compute; reflexivity|].
  apply (record_read_back (fs0 []) 2 1000 100 100 1 cbA).
  - vm_compute; reflexivity.
  - repeat constructor; vm_compute; reflexivity.
  - repeat constructor; vm_compute; reflexivity.
  - repeat constructor; vm_compute; reflexivity.
  - repeat constructor; vm_compute; reflexivity.
Defined.




(** C7 as the spec words it fails: the record of trial 1 has no row at all,
    which is fewer than 11, yet [analysis] goes on to trial 2 and ends with
    the [ValueError] of a line there, not with a failure about the row count
    of trial 1. *)
Lemma truncated_trial_not_reported :
  Analysis.runtimes
    <$> Analysis.read_trial
          (fs_trials (λ i, if bool_decide (i = 1) then Some no_row_txt
                           else if bool_decide (i = 2) then Some bad_row_txt else None))
          2 g0 1
  = Ok [[]] ∧
  Analysis.analysis
    (fs_trials (λ i, if bool_decide (i = 1) then Some no_row_txt
                     else if bool_decide (i = 2) then Some bad_row_txt else None))
    2
  = Raise ValueError.
Proof. split; vm_compute; reflexivity. Qed.

Lemma row_count_met_after_loading_witness :
  ∃ g,
    for_ (range 1 28) (Analysis.read_trial (fs_trials (λ _, Some one_row_txt)) 2) g0
      = Ok g ∧
    Exists (λ row, (length row < 11)%nat) (Analysis.runtimes g) ∧
    Analysis.analysis (fs_trials (λ _, Some one_row_txt)) 2 = Raise IndexError.
Proof.
  assert (∃ g,
    for_ (range 1 28) (Analysis.read_trial (fs_trials (λ _, Some one_row_txt)) 2) g0
      = Ok g ∧
    Exists (λ row, (length row < 11)%nat) (Analysis.runtimes g)) as (g & Hg & Hshort).
  { eexists. split; [vm_compute; reflexivity|].
    simpl. apply Exists_cons_hd. simpl. lia. }
  exists g. split; [exact Hg|]. split; [exact Hshort|].
  destruct (row_count_met_after_loading (fs_trials (λ _, Some one_row_txt)) 2)
    as [_ Hloaded].
  exact (proj1 (Hloaded g Hg) Hshort).
Defined.

End Examples.

(** ** More on the evaluator *)

Lemma dict_getitem_raise {V} (d : dict V) (k : string) (e : exn) :
  dict_getitem d k = Raise e → e = KeyError.
Proof.
  induction d as [|[k' v] d IH]; simpl; [congruence|].
  destruct (String.eqb k' k); [done | apply IH].
Qed.

Lemma dict_getitem_absent {V} (d : dict V) (k : string) :
  dict_getitem d k = Raise KeyError ↔ k ∉ d.*1.
Proof.
  induction d as [|[k' v] d IH]; simpl.
  - split; [intros _; apply not_elem_of_nil | done].
  - rewrite not_elem_of_cons. destruct (String.eqb_spec k' k) as [->|Hne].
    + split; [done | intros [? _]; done].
    + rewrite IH. split; [intros ?; split; [congruence | done] | intros [_ ?]; done].
Qed.

Lemma dict_getitem_present {V} (d : dict V) (k : string) (v : V) :
  NoDup d.*1 → (k, v) ∈ d → dict_getitem d k = Ok v.
Proof.
  induction d as [|[k' v'] d IH]; simpl; intros Hnd Hin.
  - by apply elem_of_nil in Hin.
  - apply NoDup_cons in Hnd as [Hk' Hnd]. apply elem_of_cons in Hin as [Heq|Hin].
    + inversion Heq; subst. by rewrite String.eqb_refl.
    + destruct (String.eqb_spec k' k) as [->|Hne]; [|by apply IH].
      exfalso. apply Hk'. apply list_elem_of_fmap. by exists (k, v).
Qed.

Lemma getitem_out_of_range {A} (l : list A) (i : Z) :
  getitem l i = Raise IndexError ↔
  (i < - Z.of_nat (length l) ∨ Z.of_nat (length l) ≤ i).
Proof.
  unfold getitem. cbv zeta.
  destruct (bool_decide_reflect (i < 0)) as [Hneg|Hpos].
  - destruct (bool_decide_reflect (0 ≤ i + Z.of_nat (length l) < Z.of_nat (length l)))
      as [Hin|Hout]; [|split; [intros _; lia | done]].
    destruct (lookup_lt_is_Some_2 l (Z.to_nat (i + Z.of_nat (length l)))) as [x Hx]; [lia|].
    rewrite Hx. simpl. split; [done | lia].
  - destruct (bool_decide_reflect (0 ≤ i < Z.of_nat (length l)))
      as [Hin|Hout]; [|split; [intros _; lia | done]].
    destruct (lookup_lt_is_Some_2 l (Z.to_nat i)) as [x Hx]; [lia|].
    rewrite Hx. simpl. split; [done | lia].
Qed.

Lemma getitem_negative {A} (l : list A) (i : Z) :
  - Z.of_nat (length l) ≤ i < 0 → getitem l i = getitem l (i + Z.of_nat (length l)).
Proof.
  intros Hi. unfold getitem. cbv zeta.
  rewrite (bool_decide_eq_true_2 (i < 0)) by lia.
  rewrite (bool_decide_eq_false_2 (i + Z.of_nat (length l) < 0)) by lia.
  done.
Qed.

Section EvaluatorMore.
Context {NNState Observable KwArg V : Type}.
Context `{!Sampling NNState Observable KwArg V}.
Import ObservableEvaluator Caller.
Implicit Types (self : t Observable KwArg V) (nn_state : NNState).

Lemma get_value_unfold self (name : string) (i : Z) :
  get_value self name (Some i)
  = entry ← getitem (observable_statistics self) i; dict_getitem entry.2 name.
Proof.
  unfold get_value. destruct (getitem (observable_statistics self) i) as [[ep d]|e]; done.
Qed.

(** X1. [get_value(name, index)] raises [IndexError] exactly when the index
    is outside the history, that is below [-n] or at least [n] for a history
    of [n] entries; a name that is not there never gives this exception. *)
Theorem get_value_IndexError_iff self (name : string) (i : Z) :
  get_value self name (Some i) = Raise IndexError ↔
  (i < - Z.of_nat (length (observable_statistics self)) ∨
   Z.of_nat (length (observable_statistics self)) ≤ i).
Proof.
  rewrite get_value_unfold, <- getitem_out_of_range.
  destruct (getitem (observable_statistics self) i) as [entry|e] eqn:Hg; simpl.
  - split; [|done]. intros He. by apply dict_getitem_raise in He.
  - split; intros [= ->]; done.
Qed.

(** X2. A negative index counts from the end of the history: for
    [-n ≤ i < 0], [get_value(name, i)] is [get_value(name, n + i)], and
    without an index the last entry is read. *)
Theorem get_value_negative_index self (name : string) (i : Z) :
  - Z.of_nat (length (observable_statistics self)) ≤ i < 0 →
  get_value self name (Some i)
    = get_value self name (Some (i + Z.of_nat (length (observable_statistics self)))) ∧
  get_value self name None
    = get_value self name (Some (Z.of_nat (length (observable_statistics self)) - 1)).
Proof.
  intros Hi. split.
  - by rewrite !get_value_unfold, getitem_negative.
  - change (get_value self name None) with (get_value self name (Some (-1))).
    rewrite !get_value_unfold, (getitem_negative _ (-1)) by lia.
    do 2 f_equal. lia.
Qed.

(** X3. An index inside the history gives the value recorded for the name
    in that entry: [KeyError] when the entry has no such name, the value
    otherwise.  The epoch number of the entry plays no part. *)
Theorem get_value_entry self (name : string) (k : nat) (epoch : Z) (vals : dict V) :
  observable_statistics self !! k = Some (epoch, vals) →
  get_value self name (Some (Z.of_nat k)) = dict_getitem vals name ∧
  (get_value self name (Some (Z.of_nat k)) = Raise KeyError ↔ name ∉ vals.*1) ∧
  (∀ v, NoDup vals.*1 → (name, v) ∈ vals →
        get_value self name (Some (Z.of_nat k)) = Ok v).
Proof.
  intros Hk.
  assert (get_value self name (Some (Z.of_nat k)) = dict_getitem vals name) as ->.
  { by rewrite get_value_unfold, (getitem_lookup _ _ _ Hk). }
  split; [done|]. split; [apply dict_getitem_absent|].
  intros v. apply dict_getitem_present.
Qed.

Lemma on_epoch_end_Ok self nn_state epoch self' evs :
  on_epoch_end self nn_state epoch = Ok (self', evs) →
  period self ≠ 0 ∧
  period self' = period self ∧ observables self' = observables self ∧
  system self' = system self ∧ verbose self' = verbose self ∧
  sampling_kwargs self' = sampling_kwargs self ∧
  ((epoch `mod` period self = 0 ∧
    observable_statistics self'
      = observable_statistics self
          ++ [(epoch, System_measure (system self) nn_state (sampling_kwargs self))] ∧
    last self' = System_measure (system self) nn_state (sampling_kwargs self) ∧
    ∃ printed,
      evs = Measure (system self) nn_state (sampling_kwargs self) :: printed ∧
      Forall (λ e, is_Print e = true) printed ∧
      length printed = if verbose self then 2%nat else 0%nat)
   ∨
   (epoch `mod` period self ≠ 0 ∧ self' = self ∧ evs = [])).
Proof.
  unfold on_epoch_end, mod_.
  destruct (bool_decide_reflect (period self = 0)) as [|Hp]; [done|].
  simpl. destruct (bool_decide_reflect (epoch `mod` period self = 0)) as [Hm|Hm].
  - intros [= <- <-]. simpl. repeat (split; [done|]). left.
    repeat (split; [done|]). eexists. split; [done|].
    destruct (verbose self); simpl; [|done].
    split; [|done]. by repeat constructor.
  - intros [= <- <-]. repeat (split; [done|]). by right.
Qed.

(** X4. A call at an epoch that the period divides, followed by
    [get_value]: without an index, and with the index of the new entry, it
    gives what [measure] has just returned for the name; at the earlier
    indices it gives what it gave before the call. *)
Theorem get_value_after_recording self nn_state (epoch : Z) self' evs (name : string) :
  (period self | epoch) →
  on_epoch_end self nn_state epoch = Ok (self', evs) →
  get_value self' name None
    = dict_getitem (System_measure (system self) nn_state (sampling_kwargs self)) name ∧
  get_value self' name (Some (Z.of_nat (length (observable_statistics self))))
    = dict_getitem (System_measure (system self) nn_state (sampling_kwargs self)) name ∧
  ∀ k : Z, 0 ≤ k < Z.of_nat (length (observable_statistics self)) →
    get_value self' name (Some k) = get_value self name (Some k).
Proof.
  intros Hdiv Hcall.
  apply on_epoch_end_Ok in Hcall as (Hp & _ & _ & _ & _ & _ & Hcase).
  destruct Hcase as [(_ & Hh & _)|(Hm & _)].
  2:{ exfalso. apply Hm. by apply Z.mod_divide. }
  split; [|split].
  - change (get_value self' name None) with (get_value self' name (Some (-1))).
    by rewrite get_value_unfold, Hh, getitem_last.
  - rewrite get_value_unfold, Hh.
    rewrite (getitem_lookup _ _ _ (list_lookup_middle _ [] _ _ eq_refl)). done.
  - intros k Hk. rewrite !get_value_unfold, Hh, !getitem_nonneg by lia.
    rewrite lookup_app_l by lia. done.
Qed.

Lemma on_epochs_snoc self (calls : list (NNState * Z)) (call : NNState * Z) :
  on_epochs self (calls ++ [call])
  = st ← on_epochs self calls;
    '(self', evs) ← on_epoch_end st.1 call.1 call.2;
    Ok (self', st.2 ++ evs).
Proof.
  unfold on_epochs. rewrite for_app.
  destruct (for_ calls _ _) as [st|e]; simpl; [|done].
  by destruct (on_epoch_end _ _ _) as [[]|].
Qed.

Lemma on_epochs_Ok self (calls : list (NNState * Z)) self' evs :
  on_epochs self calls = Ok (self', evs) →
  period self' = period self ∧ observables self' = observables self ∧
  system self' = system self ∧ verbose self' = verbose self ∧
  sampling_kwargs self' = sampling_kwargs self ∧
  observable_statistics self'
    = observable_statistics self
        ++ ((λ call, (call.2, System_measure (system self) call.1 (sampling_kwargs self)))
              <$> recording (period self) calls) ∧
  filter (λ e, is_Measure e = true) evs
    = (λ call, Measure (system self) call.1 (sampling_kwargs self))
        <$> recording (period self) calls ∧
  length (filter (λ e, is_Print e = true) evs)
    = ((if verbose self then 2 else 0) * length (recording (period self) calls))%nat.
Proof.
  revert self' evs. induction calls as [|call calls IH] using rev_ind; intros self' evs.
  - intros [= <- <-]. unfold recording. simpl. by rewrite app_nil_r.
  - rewrite on_epochs_snoc.
    destruct (on_epochs self calls) as [[self1 evs1]|e] eqn:Hrun; simpl; [|done].
    destruct (IH _ _ eq_refl) as (Hp1 & Ho1 & Hs1 & Hv1 & Hk1 & Hh1 & Hm1 & Hpr1).
    destruct (on_epoch_end self1 call.1 call.2) as [[self2 evs2]|e] eqn:Hcall; simpl; [|done].
    intros [= <- <-].
    apply on_epoch_end_Ok in Hcall as (_ & Hp2 & Ho2 & Hs2 & Hv2 & Hk2 & Hcase).
    rewrite Hp2, Ho2, Hs2, Hv2, Hk2, Hp1, Ho1, Hs1, Hv1, Hk1.
    repeat (split; [done|]).
    unfold recording in *. rewrite !filter_app, !filter_cons, !filter_nil.
    rewrite Hp1, Hs1, Hk1, Hv1 in Hcase.
    destruct Hcase as [(Hm & Hh & _ & printed & -> & Hprinted & Hlen)|(Hm & -> & ->)].
    + rewrite decide_True by done. rewrite Hh, Hh1, fmap_app, app_assoc.
      split; [done|]. rewrite !filter_cons. simpl.
      assert (filter (λ e, is_Measure e = true) printed = []) as ->.
      { clear -Hprinted. induction Hprinted as [|e l He _ IH]; [done|].
        rewrite filter_cons, decide_False; [done|]. destruct e; simpl in *; congruence. }
      assert (filter (λ e, is_Print e = true) printed = printed) as ->.
      { clear -Hprinted. induction Hprinted as [|e l He _ IH]; [done|].
        rewrite filter_cons, decide_True by done. by rewrite IH. }
      rewrite Hm1, fmap_app. split; [done|].
      rewrite !length_app, Hpr1, Hlen. simpl. destruct (verbose self); lia.
    + rewrite decide_False by done. rewrite !filter_nil, !app_nil_r. done.
Qed.

Lemma on_epochs_total self (calls : list (NNState * Z)) :
  period self ≠ 0 → ∃ self' evs, on_epochs self calls = Ok (self', evs).
Proof.
  intros Hp. induction calls as [|call calls IH] using rev_ind.
  - by eexists _, _.
  - destruct IH as (self1 & evs1 & Hrun). rewrite on_epochs_snoc, Hrun. simpl.
    apply on_epochs_Ok in Hrun as (Hp1 & _).
    unfold on_epoch_end, mod_. rewrite bool_decide_eq_false_2 by congruence. simpl.
    destruct (bool_decide _); simpl; by eexists _, _.
Qed.

(** X5. Any sequence of calls of [on_epoch_end] with a non-zero period
    returns, and only appends to the history: after the run the history is
    the one before it followed by one entry [(epoch, measured values)] for
    each call whose epoch passes [epoch % period == 0], in the order of the
    calls; [measure] has been called once for each of these entries and for
    no other call, and the period, the observables, the system, the verbose
    flag and the sampling arguments are as before. *)
Theorem on_epochs_appends self (calls : list (NNState * Z)) :
  period self ≠ 0 →
  ∃ self' evs,
    on_epochs self calls = Ok (self', evs) ∧
    observable_statistics self'
      = observable_statistics self
          ++ ((λ call, (call.2, System_measure (system self) call.1 (sampling_kwargs self)))
                <$> recording (period self) calls) ∧
    filter (λ e, is_Measure e = true) evs
      = (λ call, Measure (system self) call.1 (sampling_kwargs self))
          <$> recording (period self) calls ∧
    period self' = period self ∧ observables self' = observables self ∧
    system self' = system self ∧ verbose self' = verbose self ∧
    sampling_kwargs self' = sampling_kwargs self.
Proof.
  intros Hp. destruct (on_epochs_total self calls Hp) as (self' & evs & Hrun).
  exists self', evs. split; [done|].
  apply on_epochs_Ok in Hrun as (? & ? & ? & ? & ? & ? & ? & _). done.
Qed.

Lemma StronglySorted_middle {A} (R : A → A → Prop) (pre : list A) (x : A) (l : list A) :
  StronglySorted R (pre ++ x :: l) → StronglySorted R (pre ++ l).
Proof.
  induction pre as [|a pre IH]; simpl; intros Hs;
    inversion Hs as [|?? Hs' Ha]; subst; [done|].
  constructor; [by apply IH|].
  rewrite Forall_app in Ha |- *. destruct Ha as [? Ha]. split; [done|].
  by inversion Ha.
Qed.

Lemma StronglySorted_filter_fmap {A} (f : A → Z) (P : A → Prop) `{!∀ x, Decision (P x)}
    (pre : list Z) (l : list A) :
  StronglySorted Z.lt (pre ++ (f <$> l)) →
  StronglySorted Z.lt (pre ++ (f <$> filter P l)).
Proof.
  revert pre. induction l as [|x l IH]; intros pre; [done|].
  rewrite filter_cons. destruct (decide (P x)).
  - rewrite !fmap_cons, !(cons_middle _ pre), !app_assoc. apply IH.
  - rewrite fmap_cons. intros Hs. by apply IH, (StronglySorted_middle _ _ (f x)).
Qed.

(** X6. When the epochs of the history followed by the epochs of the calls
    are strictly increasing, so are the epochs of the history after the
    calls: nothing is recorded twice and nothing out of order. *)
Theorem history_epochs_increasing self (calls : list (NNState * Z)) self' evs :
  StronglySorted Z.lt ((observable_statistics self).*1 ++ calls.*2) →
  on_epochs self calls = Ok (self', evs) →
  StronglySorted Z.lt (observable_statistics self').*1.
Proof.
  intros Hs Hrun. apply on_epochs_Ok in Hrun as (_ & _ & _ & _ & _ & -> & _).
  rewrite fmap_app, <- list_fmap_compose. unfold recording.
  by apply (StronglySorted_filter_fmap (λ call : NNState * Z, call.2)).
Qed.

(** X7. Printing follows [verbose] alone: a run of calls prints nothing
    when [verbose] is not set, so that all it does to the outside is to
    measure, and prints exactly twice (the epoch, then the values) for each
    entry it records when it is set. *)
Theorem verbose_only_prints self (calls : list (NNState * Z)) self' evs :
  on_epochs self calls = Ok (self', evs) →
  length (filter (λ e, is_Print e = true) evs)
    = (if verbose self then 2 * (length (observable_statistics self')
                                 - length (observable_statistics self))
       else 0)%nat ∧
  (verbose self = false → Forall (λ e, is_Measure e = true) evs).
Proof.
  intros Hrun. apply on_epochs_Ok in Hrun as (_ & _ & _ & _ & _ & Hh & Hm & Hpr).
  split.
  - rewrite Hpr, Hh, length_app, length_fmap. destruct (verbose self); lia.
  - intros Hv. rewrite Hv in Hpr. simpl in Hpr.
    apply length_zero_iff_nil in Hpr. clear -Hpr.
    induction evs as [|e evs IH]; [done|].
    rewrite filter_cons in Hpr. destruct e; simpl in *.
    + constructor; [done | by apply IH].
    + done.
Qed.

Lemma reachable_system self : reachable self → system self = System (observables self).
Proof.
  induction 1 as [| |self nn_state epoch self' evs _ IH Hcall]; [done..|].
  apply on_epoch_end_Ok in Hcall as (_ & _ & -> & -> & _). done.
Qed.

(** X8. [clear_history] puts an instance back into the state its
    constructor gave it, with the same period, observables, verbose flag and
    sampling arguments; [get_value] then raises [IndexError] for every name
    and every index. *)
Theorem clear_history_resets self :
  reachable self →
  clear_history self
    = __init__ (period self) (observables self) (verbose self) (sampling_kwargs self) ∧
  ∀ (name : string) (index : option Z),
    get_value (clear_history self) name index = Raise IndexError.
Proof.
  intros Hr. split.
  - unfold clear_history, __init__. by rewrite (reachable_system _ Hr).
  - intros name [i|].
    + rewrite get_value_unfold. simpl.
      by rewrite (proj2 (getitem_out_of_range [] i)) by (simpl; lia).
    + done.
Qed.

End EvaluatorMore.

(** ** More on [trainEnergy] *)

Lemma join_cons (sep x y : string) (l : list string) :
  join sep (x :: y :: l) = x +:+ sep +:+ join sep (y :: l).
Proof. reflexivity. Qed.

Lemma split_join (toks : list string) :
  toks ≠ [] → Forall (λ s, contains space s = false) toks →
  split space (join " " toks) = toks.
Proof.
  intros Hne Htoks. induction Htoks as [|x l Hx Hl IH]; [done|].
  destruct l as [|y l]; [by apply split_no_sep|].
  rewrite join_cons. change (" " +:+ join " " (y :: l)) with (String space (join " " (y :: l))).
  rewrite split_append by done. by rewrite IH.
Qed.

Lemma contains_join_newline (toks : list string) :
  Forall (λ s, contains newline s = false) toks →
  contains newline (join " " toks) = false.
Proof.
  induction 1 as [|x l Hx Hl IH]; [done|].
  destruct l as [|y l]; [done|].
  rewrite join_cons, !contains_append, Hx, IH. done.
Qed.

Lemma contains_lstrip c d (s : string) :
  contains c (lstrip d s) = true → contains c s = true.
Proof.
  induction s as [|a s IH]; [done|]. cbn [lstrip contains].
  destruct (Ascii.eqb a d); [|done]. intros ?. rewrite IH by done. apply orb_true_r.
Qed.

Lemma contains_rstrip c d (s : string) :
  contains c (rstrip d s) = true → contains c s = true.
Proof.
  induction s as [|a s IH]; [done|]. cbn [rstrip contains].
  destruct (rstrip d s) as [|b r] eqn:Hr.
  - destruct (Ascii.eqb a d); [done|]. cbn [contains]. rewrite orb_false_r.
    intros ->. done.
  - cbn [contains] in *. destruct (Ascii.eqb a c); [done|]. simpl. apply IH.
Qed.

Lemma contains_strip c d (s : string) :
  contains c (strip d s) = true → contains c s = true.
Proof. intros ?. by apply (contains_lstrip c d), (contains_rstrip c d). Qed.

Lemma fields_no_space (line : string) :
  contains space line = false → getitem (Analysis.fields line) 1 = Raise IndexError.
Proof.
  intros Hline. unfold Analysis.fields.
  rewrite split_no_sep; [done|].
  destruct (contains space (strip newline line)) eqn:Hc; [|done].
  apply contains_strip in Hc. congruence.
Qed.

Section TrainEnergyMore.
Context {F : Type} `{!FloatOps F}.
Import TrainEnergy.
Implicit Types (cb : fitted F) (H : F).

(** X9. The reference energy is the second field of the second line of
    [Observables.txt]: for a file whose second line holds fields without
    spaces separated by single spaces, [H] is [float] of the second field
    rounded to two decimals; the first line, the other fields and the lines
    after the second are not looked at. *)
Theorem read_H_second_field fs (nq : Z) (line1 label tok : string)
    (others : list string) (more : string) :
  files fs !! ("Samples/" +:+ str_int nq +:+ "Q/Observables.txt")
    = Some ((line1 +:+ nl) +:+ (join " " (label :: tok :: others) +:+ nl) +:+ more) →
  contains newline line1 = false →
  Forall (λ s, token s = true) (label :: tok :: others) →
  read_H (F := F) fs nq = x ← float_ tok; Ok (round_ x 2).
Proof.
  intros Hfile Hl1 Htoks. unfold read_H, open_. rewrite Hfile.
  cbn [from_option]. rewrite bind_Ok.
  assert (contains newline (join " " (label :: tok :: others)) = false) as Hnl.
  { apply contains_join_newline. eapply Forall_impl; [exact Htoks|].
    intros s. apply token_no_newline. }
  rewrite !readlines_line by done. cbn [nth].
  rewrite strip_line by done.
  rewrite split_join; [|done|].
  - by rewrite (getitem_at _ 1 tok 1) by done.
  - eapply Forall_impl; [exact Htoks|]. intros s. apply token_no_space.
Qed.

(** X10. Reading the reference energy fails with [FileNotFoundError] when
    [Observables.txt] is not there, and with [IndexError] when the file has
    fewer than two lines or a second line without a space. *)
Theorem read_H_errors fs (nq : Z) :
  (files fs !! ("Samples/" +:+ str_int nq +:+ "Q/Observables.txt") = None →
   read_H (F := F) fs nq = Raise FileNotFoundError) ∧
  (∀ text,
     files fs !! ("Samples/" +:+ str_int nq +:+ "Q/Observables.txt") = Some text →
     (length (readlines text) < 2)%nat ∨
     (∃ line, readlines text !! 1%nat = Some line ∧ contains space line = false) →
     read_H (F := F) fs nq = Raise IndexError).
Proof.
  split.
  - intros Hfile. unfold read_H, open_. by rewrite Hfile.
  - intros text Hfile Hline. unfold read_H, open_. rewrite Hfile. simpl.
    assert (contains space (nth 1 (readlines text) "") = false) as Hc.
    { destruct Hline as [Hlen|(line & Hl & Hc)].
      - by rewrite nth_overflow by lia.
      - by rewrite (nth_lookup_Some _ _ _ _ Hl). }
    change (split space (strip newline ?l)) with (Analysis.fields l).
    by rewrite fields_no_space.
Qed.

Lemma digit_scan_total (chars : list ascii) (t : Z) :
  ∃ t', for_ chars
          (λ trial char, if isdigit char then d ← int_of_char char; Ok (d + 1) else Ok trial)
          t = Ok t'.
Proof.
  apply for_total. intros s c. unfold int_of_char.
  destruct (isdigit c); by eexists.
Qed.

Lemma digit_scan_none (chars : list ascii) (t : Z) :
  forallb (λ c, negb (isdigit c)) chars = true →
  for_ chars
    (λ trial char, if isdigit char then d ← int_of_char char; Ok (d + 1) else Ok trial)
    t = Ok t.
Proof.
  induction chars as [|c chars IH]; [done|]. simpl.
  intros [Hc Hrest]%andb_true_iff. apply negb_true_iff in Hc. rewrite Hc. simpl.
  by apply IH.
Qed.

Lemma list_ascii_of_string_app (a b : string) :
  String.list_ascii_of_string (a +:+ b)
  = String.list_ascii_of_string a ++ String.list_ascii_of_string b.
Proof.
  induction a as [|c a IH]; [by rewrite append_nil_l|].
  rewrite append_cons. simpl. by rewrite IH.
Qed.

(** X11. The trial number computed for ["Next"] lies between 0 and 10,
    whatever the directory holds (its names being ASCII strings, as
    everywhere here). *)
Theorem next_trial_range (listing : list string) (trial : Z) :
  next_trial listing = Ok trial → 0 ≤ trial ≤ 10.
Proof.
  unfold next_trial. destruct (getitem listing (-1)) as [prevFile|e]; simpl; [|done].
  apply (for_preserves (λ t, 0 ≤ t ≤ 10)); [|lia].
  intros t c t' Ht. unfold int_of_char, isdigit.
  destruct (_ && _)%bool eqn:Hd; simpl; [|by intros [= <-]].
  intros [= <-]. apply andb_true_iff in Hd as [H1 H2].
  apply Nat.leb_le in H1, H2. lia.
Qed.

(** X12. The trial number depends on the last name of the listing only,
    and there on its last digit: it is that digit plus one, and 0 for a
    name without a digit. *)
Theorem next_trial_last_digit (listing : list string) (pre post : string) (c : ascii) :
  (isdigit c = true → no_digit post = true →
   next_trial (listing ++ [pre +:+ String c post])
     = Ok (Z.of_nat (Ascii.nat_of_ascii c) - 48 + 1)) ∧
  (no_digit post = true → next_trial (listing ++ [post]) = Ok 0).
Proof.
  unfold next_trial, no_digit. split.
  - intros Hc Hpost. rewrite getitem_last, bind_Ok, list_ascii_of_string_app.
    change (String.list_ascii_of_string (String c post))
      with (c :: String.list_ascii_of_string post).
    rewrite for_app.
    destruct (digit_scan_total (String.list_ascii_of_string pre) 0) as [t ->].
    rewrite bind_Ok. cbn [for_]. rewrite Hc.
    assert (int_of_char c = Ok (Z.of_nat (Ascii.nat_of_ascii c) - 48)) as ->.
    { unfold int_of_char. by rewrite Hc. }
    rewrite !bind_Ok. by apply digit_scan_none.
  - intros Hpost. rewrite getitem_last, bind_Ok. by apply digit_scan_none.
Qed.

Lemma trainEnergy_paths fs nq ns bi st tn cb out :
  trainEnergy fs nq ns bi st tn cb = Ok out →
  figure out = "Data/Energy/Q" +:+ str_int nq +:+ "/Trial" +:+ format_trial tn ∧
  resultsfile out
    = "Data/Energy/Q" +:+ str_int nq +:+ "/Trial" +:+ format_trial tn +:+ ".txt".
Proof.
  rewrite trainEnergy_unfold.
  destruct (read_H fs nq) as [H|]; simpl; [|done].
  destruct (listdir fs _) as [listing|]; simpl; [|done].
  destruct (if is_Next tn then _ else _) as [trial|]; simpl; [|done].
  destruct (mapM (relative_error H) _) as [rel|]; simpl; [|done].
  destruct (mapM _ (seq 0 _)) as [rows|]; simpl; [|done].
  by intros [= <-].
Qed.

Lemma sep_unique c (a b r r' : string) :
  contains c a = false → contains c b = false →
  a +:+ String c r = b +:+ String c r' → a = b ∧ r = r'.
Proof.
  revert b. induction a as [|x a IH]; intros [|y b]; rewrite ?append_nil_l, ?append_cons;
    cbn [contains]; intros Ha Hb Heq.
  - by injection Heq as ->.
  - injection Heq as <- _. by rewrite Ascii.eqb_refl in Hb.
  - injection Heq as -> _. by rewrite Ascii.eqb_refl in Ha.
  - injection Heq as -> Heq. apply orb_false_iff in Ha as [_ Ha], Hb as [_ Hb].
    destruct (IH b Ha Hb Heq) as [-> ->]. done.
Qed.

Lemma trial_path_inj (nq nq' i j : Z) :
  Analysis.trial_path nq i = Analysis.trial_path nq' j → nq = nq' ∧ i = j.
Proof.
  unfold Analysis.trial_path. intros Heq. apply String.app_inj in Heq.
  change ("/Trial" +:+ ?x) with (String "/" ("Trial" +:+ x)) in Heq.
  apply (sep_unique "/") in Heq as [Hnq Heq].
  2,3: apply contains_str_int; [by apply digit_char_not; vm_compute; lia | done..].
  apply String.app_inj in Heq.
  change (?x +:+ ".txt") with (x +:+ String "." "txt") in Heq.
  apply (sep_unique ".") in Heq as [Hi _].
  2,3: apply contains_str_int; [by apply digit_char_not; vm_compute; lia | done..].
  split; by apply (inj pretty).
Qed.

(** X13. Writing the record of trial [i] leaves what the two programs read
    elsewhere as it was: the record is the file [analysis] opens for trial
    [i] of that number of qubits, at the path of the figure followed by
    [.txt]; the record of any other trial, or of another number of qubits,
    is read as before, and so is the reference energy. *)
Theorem trainEnergy_leaves_other_records fs (nq ns bi st i : Z) cb out :
  trainEnergy fs nq ns bi st (TrialInt i) cb = Ok out →
  resultsfile out = Analysis.trial_path nq i ∧
  resultsfile out = figure out +:+ ".txt" ∧
  is_Some (files (fs_after out) !! Analysis.trial_path nq i) ∧
  (∀ (nq' j : Z) (g : Analysis.locals F),
     (nq', j) ≠ (nq, i) →
     Analysis.read_trial (fs_after out) nq' g j = Analysis.read_trial fs nq' g j) ∧
  (∀ nq', read_H (F := F) (fs_after out) nq' = read_H fs nq').
Proof.
  intros Hrun. destruct (trainEnergy_paths _ _ _ _ _ _ _ _ Hrun) as [Hfig Hres].
  destruct (trainEnergy_Ok_inv _ _ _ _ _ _ _ _ Hrun) as (rows & _ & _ & Hfs).
  change ("Data/Energy/Q" +:+ str_int nq +:+ "/Trial" +:+ format_trial (TrialInt i) +:+ ".txt")
    with (Analysis.trial_path nq i) in Hfs, Hres.
  split; [done|]. split; [by rewrite Hres, Hfig; unfold Analysis.trial_path;
                            rewrite !append_assoc|].
  rewrite Hfs. cbn [files write_file]. split; [|split].
  - rewrite lookup_insert_eq. by eexists.
  - intros nq' j g Hne. rewrite !read_trial_parse. unfold open_. cbn [files write_file].
    rewrite lookup_insert_ne; [done|].
    intros Heq. apply trial_path_inj in Heq as [-> ->]. done.
  - intros nq'. unfold read_H, open_. cbn [files write_file].
    rewrite lookup_insert_ne; [done|].
    unfold Analysis.trial_path. change "Data/Energy/Q" with ("D" +:+ "ata/Energy/Q").
    discriminate.
Qed.

(** X14. With the three series of the energy equally long, as the callback
    records them, a list of fidelities longer than the energies or than the
    runtimes makes the write loop run past the end of the shorter list: the
    call raises [IndexError] (once the reference energy has been read, the
    directory listed and the relative errors computed). *)
Theorem trainEnergy_short_series fs (nq ns bi st : Z) tn cb H listing rel :
  read_H fs nq = Ok H →
  listdir fs ("Data/Energy/Q" +:+ str_int nq) = Ok listing →
  (is_Next tn = true → listing ≠ []) →
  mapM (relative_error H) (energies cb) = Ok rel →
  length (variance cb) = length (energies cb) →
  length (errors cb) = length (energies cb) →
  (length (energies cb) < length (fidelities cb) ∨
   length (runtimes cb) < length (fidelities cb))%nat →
  trainEnergy fs nq ns bi st tn cb = Raise IndexError.
Proof.
  intros HH Hdir Hnext Hrel Hvar Herr Hshort. rewrite trainEnergy_unfold, HH, Hdir. simpl.
  assert (∃ trial, (if is_Next tn then Some <$> next_trial listing else Ok None)
                   = Ok trial) as [trial ->].
  { destruct (is_Next tn); [|by eexists].
    destruct (next_trial_total listing) as [t ->]; [by apply Hnext | by eexists]. }
  simpl. rewrite Hrel. simpl.
  apply mapM_result_length in Hrel.
  rewrite (mapM_result_raise _ _ IndexError); [done| |].
  - apply Forall_forall. intros i _.
    destruct (row_fields cb rel i); simpl; [right; by eexists | by left].
  - set (n := Nat.min (length (energies cb)) (length (runtimes cb))).
    apply Exists_exists. exists n. split.
    + apply elem_of_seq. lia.
    + unfold row_fields.
      destruct (fidelities cb !! n) as [f|]; simpl; [|done].
      destruct (rel !! n) as [r|] eqn:Hr; simpl; [|done].
      destruct (runtimes cb !! n) as [t|] eqn:Ht; simpl; [|done].
      apply lookup_lt_Some in Hr, Ht. lia.
Qed.

(** X15. The layout of a written data line: split at single spaces it has
    thirteen fields, the six numbers at the positions 0, 2, 4, 6, 8 and 10
    (fidelity, relative error, runtime, energy, variance, standard error)
    and empty strings between and after them. *)
Theorem written_row_fields fs (nq ns bi st : Z) tn cb out (i : nat)
    (f r t e v se : F) :
  trainEnergy fs nq ns bi st tn cb = Ok out →
  Forall (λ x, token (str_float (round_ x 3)) = true) (fidelities cb ++ runtimes cb) →
  Forall (λ x, token (str_float (round_ x 6)) = true) (relativeErrors out) →
  Forall (λ x, token (str_float (round_ x 5)) = true)
    (energies cb ++ variance cb ++ errors cb) →
  fidelities cb !! i = Some f → relativeErrors out !! i = Some r →
  runtimes cb !! i = Some t → energies cb !! i = Some e →
  variance cb !! i = Some v → errors cb !! i = Some se →
  ∃ text line,
    files (fs_after out) !! resultsfile out = Some text ∧
    readlines text !! (4 + i)%nat = Some line ∧
    Analysis.fields line
    = [str_float (round_ f 3); ""; str_float (round_ r 6); "";
       str_float (round_ t 3); ""; str_float (round_ e 5); "";
       str_float (round_ v 5); ""; str_float (round_ se 5); ""; ""].
Proof.
  intros Hrun Hft Hrel Hevs Hf Hr Ht He Hv Hse.
  destruct (trainEnergy_paths _ _ _ _ _ _ _ _ Hrun) as [_ Hres].
  destruct (trainEnergy_Ok_inv _ _ _ _ _ _ _ _ Hrun) as (rows & _ & Hrows & Hfs).
  apply Forall_app in Hft as [Hfid Hrt].
  apply Forall_app in Hevs as [Hen Hevs]. apply Forall_app in Hevs as [Hvar Herr].
  apply mapM_result_Ok in Hrows.
  assert (Forall (Forall (λ x, token x = true)) rows) as Htok.
  { apply Forall_forall. intros fields Hin.
    apply list_elem_of_lookup in Hin as [j Hj].
    destruct (Forall2_lookup_r _ _ _ _ _ Hrows Hj) as (j' & Hj' & Hrow).
    destruct (row_fields cb (relativeErrors out) j') as [fields'|] eqn:Hrf;
      simpl in Hrow; [|done].
    injection Hrow as ->.
    apply row_fields_inv in Hrf
      as (f' & r' & t' & e' & v' & se' & Hf' & Hr' & Ht' & He' & Hv' & Hse' & ->).
    repeat constructor.
    - by apply (Forall_lookup_1 _ _ _ _ Hfid Hf').
    - by apply (Forall_lookup_1 _ _ _ _ Hrel Hr').
    - by apply (Forall_lookup_1 _ _ _ _ Hrt Ht').
    - by apply (Forall_lookup_1 _ _ _ _ Hen He').
    - by apply (Forall_lookup_1 _ _ _ _ Hvar Hv').
    - by apply (Forall_lookup_1 _ _ _ _ Herr Hse'). }
  assert (seq 0 (length (fidelities cb)) !! i = Some i) as Hi.
  { apply lookup_seq. split; [done|]. by apply lookup_lt_Some in Hf. }
  destruct (Forall2_lookup_l _ _ _ _ _ Hrows Hi) as (fields & Hfields & Hrow).
  assert (row_fields cb (relativeErrors out) i
          = Some [str_float (round_ f 3); str_float (round_ r 6); str_float (round_ t 3);
                  str_float (round_ e 5); str_float (round_ v 5); str_float (round_ se 5)])
    as Hrf.
  { unfold row_fields. rewrite Hf, Hr, Ht, He, Hv, Hse. done. }
  rewrite Hrf in Hrow. simpl in Hrow. injection Hrow as <-.
  exists (record_text ns bi st rows), (row_text
    [str_float (round_ f 3); str_float (round_ r 6); str_float (round_ t 3);
     str_float (round_ e 5); str_float (round_ v 5); str_float (round_ se 5)]).
  split; [|split].
  - rewrite Hfs, Hres. simpl. by rewrite lookup_insert_eq.
  - rewrite readlines_record by done.
    change (4 + i)%nat with (S (S (S (S i)))). simpl.
    by rewrite list_lookup_fmap, Hfields.
  - rewrite fields_row_text; [done|].
    by apply (Forall_lookup_1 _ _ _ _ Htok Hfields).
Qed.

End TrainEnergyMore.

(** ** More on [analysis] *)

Lemma for_mapM {A B St} (f : A → result B) (upd : St → B → St)
    (body : St → A → result St) (l : list A) (s : St) :
  (∀ s x, body s x = y ← f x; Ok (upd s y)) →
  for_ l body s = ys ← mapM f l; Ok (foldl upd s ys).
Proof.
  intros Hbody. revert s. induction l as [|x l IH]; intros s; [done|].
  cbn [for_ mapM]. rewrite Hbody. destruct (f x) as [y|e]; simpl; [|done].
  rewrite IH. by destruct (mapM f l).
Qed.

Lemma foldl_app_concat {A} (acc : list A) (ps : list (list A)) :
  foldl (λ acc p, acc ++ p) acc ps = acc ++ concat ps.
Proof.
  revert acc. induction ps as [|p ps IH]; intros acc; simpl.
  - by rewrite app_nil_r.
  - by rewrite IH, <- app_assoc.
Qed.

Lemma lookup_bind_singletons {A B} (f : A → list B) (l : list A) (k : nat) (a : A) (x : B) :
  Forall (λ a, length (f a) = 1%nat) l →
  l !! k = Some a → f a = [x] → (l ≫= f) !! k = Some x.
Proof.
  intros Hl. revert k. induction Hl as [|a' l Ha' Hl IH]; intros k; [done|].
  cbn [mbind list_bind]. destruct (f a') as [|y [|??]] eqn:Hfa; try done.
  destruct k as [|k]; simpl.
  - intros [= ->]. rewrite Hfa. by intros [= ->].
  - apply IH.
Qed.

Lemma length_bind_singletons {A B} (f : A → list B) (l : list A) :
  Forall (λ a, length (f a) = 1%nat) l → length (l ≫= f) = length l.
Proof.
  induction 1 as [|a l Ha Hl IH]; [done|].
  cbn [mbind list_bind]. rewrite length_app, Ha. simpl. by rewrite <- IH.
Qed.

Lemma concat_bind {A} (ps : list (list A)) : concat ps = ps ≫= id.
Proof. induction ps as [|p ps IH]; [done|]. simpl. by rewrite IH. Qed.

Section AnalysisMore.
Context {F : Type} `{!FloatOps F}.
Import Analysis TrialFile.
Implicit Types (g d : locals F) (lines : list string).

(** X16. A data line whose columns are separated by single spaces is read
    by the same positions 0, 2 and 4: the first, third and fifth column,
    which in the order of the columns of a record are the fidelity, the
    runtime and the variance. *)
Theorem parse_row_single_spaces (t0 t1 t2 t3 t4 : string) (more : list string) :
  Forall (λ s, TrainEnergy.token s = true) (t0 :: t1 :: t2 :: t3 :: t4 :: more) →
  parse_row (F := F) (join " " (t0 :: t1 :: t2 :: t3 :: t4 :: more) +:+ nl)
  = f ← float_ t0; e ← float_ t2; r ← float_ t4; Ok (f, e, r).
Proof.
  intros Htoks. unfold parse_row, fields. cbv zeta.
  rewrite strip_line.
  2:{ apply contains_join_newline. eapply Forall_impl; [exact Htoks|].
      intros s. apply token_no_newline. }
  rewrite split_join; [|done|].
  2:{ eapply Forall_impl; [exact Htoks|]. intros s. apply token_no_space. }
  rewrite (getitem_at _ 0 t0 0), bind_Ok by done.
  destruct (float_ t0) as [f|]; [rewrite bind_Ok|done].
  rewrite (getitem_at _ 2 t2 2), bind_Ok by done.
  destruct (float_ t2) as [e|]; [rewrite bind_Ok|done].
  by rewrite (getitem_at _ 4 t4 4), bind_Ok by done.
Qed.

Lemma header_token_cases lines (j : nat) :
  (∃ s, header_token lines j = Ok s) ∨ header_token lines j = Raise IndexError.
Proof.
  unfold header_token. destruct (lines !! j) as [line|]; [|left; by eexists].
  destruct (getitem (fields line) 1) as [tok|e] eqn:Hg; simpl.
  - left. by eexists.
  - right. by rewrite (getitem_raise _ _ _ Hg).
Qed.

Lemma header_token_no_space lines (j : nat) (line : string) :
  lines !! j = Some line → contains space line = false →
  header_token lines j = Raise IndexError.
Proof.
  intros Hj Hline. unfold header_token. rewrite Hj.
  by rewrite fields_no_space.
Qed.

(** X17. A trial file one of whose first three lines has no space gives
    nothing to read as the second field: the reading of the file fails with
    [IndexError], before any of its data lines is looked at. *)
Theorem header_without_field fs (nq : Z) g (i : Z) (text : string)
    (j : nat) (line : string) :
  open_ fs (trial_path nq i) = Ok text →
  (j < 3)%nat → readlines text !! j = Some line → contains space line = false →
  read_trial fs nq g i = Raise IndexError.
Proof.
  intros Hopen Hj Hline Hsp. rewrite read_trial_parse, Hopen, bind_Ok.
  unfold parse_trial.
  pose proof (header_token_no_space _ _ _ Hline Hsp) as Hfail.
  destruct (header_token_cases (readlines text) 0) as [[s0 H0]|H0];
    rewrite H0; [rewrite bind_Ok|done].
  destruct (header_token_cases (readlines text) 1) as [[s1 H1]|H1];
    rewrite H1; [rewrite bind_Ok|done].
  destruct (header_token_cases (readlines text) 2) as [[s2 H2]|H2];
    rewrite H2; [rewrite bind_Ok|done].
  destruct j as [|[|[|j]]]; [congruence..|lia].
Qed.

(** X18. The fourth line of a trial file, the one that names the columns,
    is never read: with any other line in its place the reading of the file
    gives the same lists, or raises the same exception. *)
Theorem title_line_not_read fs fs' (nq : Z) g (i : Z) (text text' line : string) :
  open_ fs (trial_path nq i) = Ok text →
  open_ fs' (trial_path nq i) = Ok text' →
  readlines text' = <[3%nat := line]> (readlines text) →
  read_trial fs' nq g i = read_trial fs nq g i.
Proof.
  intros Hopen Hopen' Hlines.
  rewrite !read_trial_parse, Hopen, Hopen', !bind_Ok, Hlines.
  unfold parse_trial, header_token.
  rewrite !list_lookup_insert_ne by done.
  replace (drop 4 (<[3%nat:=line]> (readlines text))) with (drop 4 (readlines text)); [done|].
  by rewrite drop_insert_lt by lia.
Qed.

Lemma read_trial_load fs (nq : Z) g (i : Z) :
  read_trial fs nq g i = d ← load_trial fs nq i; Ok (locals_app g d).
Proof.
  unfold load_trial. rewrite !read_trial_parse.
  destruct (open_ fs (trial_path nq i)) as [text|]; [rewrite !bind_Ok|done].
  unfold parse_trial.
  destruct (header_token (readlines text) 0) as [s|]; [rewrite !bind_Ok|done].
  destruct (header_token (readlines text) 1) as [b|]; [rewrite !bind_Ok|done].
  destruct (header_token (readlines text) 2) as [st|]; [rewrite !bind_Ok|done].
  destruct (mapM parse_row (drop 4 (readlines text))) as [rows|]; [rewrite !bind_Ok|done].
  done.
Qed.

Lemma load_trial_Ok fs (nq i : Z) d :
  load_trial fs nq i = Ok d →
  ∃ text s b st rows,
    files fs !! trial_path nq i = Some text ∧
    header_token (readlines text) 0 = Ok s ∧
    header_token (readlines text) 1 = Ok b ∧
    header_token (readlines text) 2 = Ok st ∧
    mapM parse_row (drop 4 (readlines text)) = Ok rows ∧
    d = {| fidelities := [(λ x, x.1.1) <$> rows];
           runtimes := [(λ x, x.2) <$> rows];
           errors := [(λ x, x.1.2) <$> rows];
           samples := s; burn_in := b; steps := st |}.
Proof.
  unfold load_trial. rewrite read_trial_parse. unfold open_.
  destruct (files fs !! trial_path nq i) as [text|]; [|done].
  cbn [from_option]. rewrite bind_Ok. unfold parse_trial.
  destruct (header_token (readlines text) 0) as [s|] eqn:H0; [rewrite !bind_Ok|done].
  destruct (header_token (readlines text) 1) as [b|] eqn:H1; [rewrite !bind_Ok|done].
  destruct (header_token (readlines text) 2) as [st|] eqn:H2; [rewrite !bind_Ok|done].
  destruct (mapM parse_row (drop 4 (readlines text))) as [rows|] eqn:Hrows; [rewrite !bind_Ok|done].
  intros [= <-]. by exists text, s, b, st, rows.
Qed.

Lemma load_trials fs (nq : Z) (l : list Z) g :
  for_ l (read_trial fs nq) g
  = ds ← mapM (load_trial fs nq) l; Ok (foldl locals_app g ds).
Proof. apply for_mapM. intros s x. apply read_trial_load. Qed.

Lemma foldl_locals_app g (ds : list (locals F)) :
  foldl locals_app g ds
  = {| fidelities := fidelities g ++ (ds ≫= fidelities);
       runtimes := runtimes g ++ (ds ≫= runtimes);
       errors := errors g ++ (ds ≫= errors);
       samples := samples g ++ (ds ≫= samples);
       burn_in := burn_in g ++ (ds ≫= burn_in);
       steps := steps g ++ (ds ≫= steps) |}.
Proof.
  revert g. induction ds as [|d ds IH]; intros g; simpl.
  - rewrite !app_nil_r. by destruct g.
  - rewrite IH. unfold locals_app. simpl. by rewrite <- !app_assoc.
Qed.

(** X19. [analysis] needs the files of all the trials 1 to 27: when the
    file of one of them is missing and the files of the trials before it
    can be read, it raises [FileNotFoundError]. *)
Theorem analysis_missing_file fs (nq i : Z) :
  1 ≤ i ≤ 27 →
  files fs !! trial_path nq i = None →
  (∀ j, 1 ≤ j < i → ∃ d, load_trial (F := F) fs nq j = Ok d) →
  analysis (F := F) fs nq = Raise FileNotFoundError.
Proof.
  intros Hi Hnone Hbefore. unfold analysis.
  assert (range 1 28 = seqZ 1 (i - 1) ++ i :: seqZ (i + 1) (27 - i)) as ->.
  { unfold range. replace (28 - 1) with ((i - 1) + (28 - i)) by lia.
    rewrite seqZ_app by lia. f_equal.
    replace (1 + (i - 1)) with i by lia.
    rewrite seqZ_cons by lia. f_equal. f_equal; lia. }
  rewrite for_app.
  assert (∃ g1, for_ (seqZ 1 (i - 1)) (read_trial fs nq)
                  {| fidelities := []; runtimes := []; errors := [];
                     samples := []; burn_in := []; steps := [] |} = Ok g1) as [g1 ->].
  { rewrite load_trials.
    destruct (mapM_result_total (load_trial fs nq) (seqZ 1 (i - 1))) as [ds ->];
      [|by eexists].
    apply Forall_forall. intros j Hj. apply elem_of_seqZ in Hj.
    destruct (Hbefore j) as [d Hd]; [lia|]. by exists d. }
  rewrite bind_Ok. cbn [for_].
  rewrite read_trial_parse. unfold open_. rewrite Hnone. done.
Qed.

Lemma plot_trials (nq : Z) g :
  for_ (range 0 (Z.of_nat (length (errors g)))) (plot_trial nq g) []
  = mapM (λ k : nat, plot_trial nq g [] (Z.of_nat k)) (seq 0 (length (errors g)))
    ≫= λ ps, Ok (concat ps).
Proof.
  unfold range. rewrite Z.sub_0_r.
  pose proof (for_range_mapM (λ k : nat, plot_trial nq g [] (Z.of_nat k))
                (λ acc p, acc ++ p) (plot_trial nq g)
                (seq 0 (length (errors g))) 0 []) as Hm.
  rewrite length_seq in Hm. rewrite Hm; clear Hm.
  - destruct (mapM _ _) as [ps|]; simpl; [|done]. by rewrite foldl_app_concat.
  - intros acc j x Hx. apply lookup_seq in Hx as [-> _]. simpl.
    unfold plot_trial.
    destruct (getitem (errors g) _); simpl; [|done].
    destruct (getitem (fidelities g) _); simpl; [|done].
    destruct (getitem (samples g) _); simpl; [|done].
    destruct (getitem (burn_in g) _); simpl; [|done].
    destruct (getitem (steps g) _); simpl; done.
Qed.

Lemma plot_trial_at (nq : Z) g (k : nat) (fid err : list F) (s b st : string) :
  fidelities g !! k = Some fid → errors g !! k = Some err →
  samples g !! k = Some s → burn_in g !! k = Some b → steps g !! k = Some st →
  plot_trial nq g [] (Z.of_nat k)
  = Ok [{| plot_epochs := range 1 (Z.of_nat (length err) + 1);
           plot_fidelities := fid;
           plot_errors := err;
           plot_title := ("Samples = " +:+ s) +:+ (" & Burn In = " +:+ b)
                         +:+ (" & Steps = " +:+ st);
           plot_path := "Data/Energy/Q" +:+ str_int nq
                        +:+ "/Trial" +:+ str_int (Z.of_nat k + 1) |}].
Proof.
  intros Hf He Hs Hb Hst. unfold plot_trial.
  rewrite (getitem_lookup _ _ _ He), bind_Ok, (getitem_lookup _ _ _ Hf), bind_Ok.
  by rewrite (getitem_lookup _ _ _ Hs), bind_Ok, (getitem_lookup _ _ _ Hb), bind_Ok,
    (getitem_lookup _ _ _ Hst), bind_Ok.
Qed.

(** A trial that [analysis] has read to its end: the three header fields
    and at least eleven data rows. *)
Lemma load_trial_complete fs (nq i : Z) d (x : F) :
  load_trial fs nq i = Ok d →
  (∀ row, runtimes d = [row] → row !! 10%nat = Some x) →
  ∃ text s b st rows row,
    files fs !! trial_path nq i = Some text ∧
    header_token (readlines text) 0 = Ok [s] ∧
    header_token (readlines text) 1 = Ok [b] ∧
    header_token (readlines text) 2 = Ok [st] ∧
    mapM parse_row (drop 4 (readlines text)) = Ok rows ∧
    rows !! 10%nat = Some row ∧ row.2 = x ∧
    d = {| fidelities := [(λ x, x.1.1) <$> rows];
           runtimes := [(λ x, x.2) <$> rows];
           errors := [(λ x, x.1.2) <$> rows];
           samples := [s]; burn_in := [b]; steps := [st] |}.
Proof.
  intros Hd Hx.
  apply load_trial_Ok in Hd as (text & s & b & st & rows & Hfile & Hs & Hb & Hst & Hrows & ->).
  specialize (Hx _ eq_refl). rewrite list_lookup_fmap in Hx.
  destruct (rows !! 10%nat) as [row|] eqn:Hrow; [|done]. injection Hx as Hx.
  assert (11 ≤ length rows)%nat as Hlen by (apply lookup_lt_Some in Hrow; lia).
  rewrite (mapM_result_length _ _ _ Hrows), length_drop in Hlen.
  apply header_token_length in Hs as Hls; [|lia].
  apply header_token_length in Hb as Hlb; [|lia].
  apply header_token_length in Hst as Hlst; [|lia].
  destruct s as [|s [|??]]; try done. destruct b as [|b [|??]]; try done.
  destruct st as [|st [|??]]; try done.
  by exists text, s, b, st, rows, row.
Qed.

(** X20. When [analysis] returns, what it hands over follows the files
    trial by trial: for each of the 27 trials the file is there with its
    three header fields and at least eleven data rows, the runtime plotted
    for the trial is the one of its row 10, and its figure, saved under the
    number of the trial, shows the fidelities and relative errors of its own
    rows against the epochs 1 to the number of rows, with its own header
    fields in the title. *)
Theorem analysis_follows_files fs (nq : Z) (out : output F) :
  analysis fs nq = Ok out →
  trials out = seqZ 1 27 ∧
  length (runtime10 out) = 27%nat ∧
  length (plots out) = 27%nat ∧
  ∀ k : nat, (k < 27)%nat →
    ∃ text s b st (rows : list (F * F * F)) row,
      files fs !! trial_path nq (Z.of_nat k + 1) = Some text ∧
      header_token (readlines text) 0 = Ok [s] ∧
      header_token (readlines text) 1 = Ok [b] ∧
      header_token (readlines text) 2 = Ok [st] ∧
      mapM parse_row (drop 4 (readlines text)) = Ok rows ∧
      rows !! 10%nat = Some row ∧
      runtime10 out !! k = Some row.2 ∧
      plots out !! k
      = Some {| plot_epochs := range 1 (Z.of_nat (length rows) + 1);
                plot_fidelities := (λ x, x.1.1) <$> rows;
                plot_errors := (λ x, x.1.2) <$> rows;
                plot_title := ("Samples = " +:+ s) +:+ (" & Burn In = " +:+ b)
                              +:+ (" & Steps = " +:+ st);
                plot_path := "Data/Energy/Q" +:+ str_int nq
                             +:+ "/Trial" +:+ str_int (Z.of_nat k + 1) |}.
Proof.
  unfold analysis. rewrite load_trials.
  destruct (mapM (load_trial fs nq) (range 1 28)) as [ds|] eqn:Hds; [|done].
  rewrite bind_Ok, foldl_locals_app. cbn [fidelities runtimes errors samples burn_in steps app].
  set (g := {| fidelities := ds ≫= fidelities; runtimes := ds ≫= runtimes;
               errors := ds ≫= errors; samples := ds ≫= samples;
               burn_in := ds ≫= burn_in; steps := ds ≫= steps |}).
  rewrite bind_Ok, runtime_at_10_mapM. change (runtimes g) with (ds ≫= runtimes).
  destruct (mapM (λ row, getitem row 10) (ds ≫= runtimes)) as [r10|] eqn:Hr10; [|done].
  rewrite bind_Ok, plot_trials.
  destruct (mapM _ (seq 0 _)) as [ps|] eqn:Hps; [|done].
  rewrite !bind_Ok. intros [= <-]. cbn [trials runtime10 plots].
  apply mapM_result_Ok in Hds, Hr10, Hps.
  assert (length ds = 27%nat) as Hlen.
  { apply Forall2_length in Hds. by rewrite <- Hds. }
  assert (Forall (λ d, length (fidelities d) = 1%nat ∧ length (runtimes d) = 1%nat ∧
                       length (errors d) = 1%nat) ds) as Hone.
  { apply Forall_forall. intros d Hd. apply list_elem_of_lookup in Hd as [k Hk].
    destruct (Forall2_lookup_r _ _ _ _ _ Hds Hk) as (i & _ & Hload).
    apply load_trial_Ok in Hload as (? & ? & ? & ? & ? & _ & _ & _ & _ & _ & ->). done. }
  assert (length (ds ≫= runtimes) = 27%nat) as Hlr.
  { rewrite length_bind_singletons; [done|].
    eapply Forall_impl; [exact Hone|]. by intros d (_ & ? & _). }
  assert (length r10 = 27%nat) as Hl10.
  { apply Forall2_length in Hr10. by rewrite <- Hr10. }
  assert (∀ k d, ds !! k = Some d →
            ∃ text s b st rows row,
              files fs !! trial_path nq (Z.of_nat k + 1) = Some text ∧
              header_token (readlines text) 0 = Ok [s] ∧
              header_token (readlines text) 1 = Ok [b] ∧
              header_token (readlines text) 2 = Ok [st] ∧
              mapM parse_row (drop 4 (readlines text)) = Ok rows ∧
              rows !! 10%nat = Some row ∧ r10 !! k = Some row.2 ∧
              d = {| fidelities := [(λ x, x.1.1) <$> rows];
                     runtimes := [(λ x, x.2) <$> rows];
                     errors := [(λ x, x.1.2) <$> rows];
                     samples := [s]; burn_in := [b]; steps := [st] |}) as Hall.
  { intros k d Hk.
    destruct (Forall2_lookup_r _ _ _ _ _ Hds Hk) as (i & Hi & Hload).
    apply lookup_seqZ in Hi as [-> _]. rewrite (Z.add_comm 1) in Hload.
    destruct (lookup_lt_is_Some_2 r10 k) as [x Hx];
      [apply lookup_lt_Some in Hk; lia|].
    destruct (load_trial_complete fs nq (Z.of_nat k + 1) d x Hload)
      as (text & s & b & st & rows & row & ? & ? & ? & ? & ? & ? & <- & ->).
    - intros rt Hrt.
      assert ((ds ≫= runtimes) !! k = Some rt) as Hrow.
      { apply (lookup_bind_singletons _ _ _ d); [|done..].
        eapply Forall_impl; [exact Hone|]. by intros ? (_ & ? & _). }
      destruct (Forall2_lookup_l _ _ _ _ _ Hr10 Hrow) as (x' & Hx' & Hget).
      rewrite Hx in Hx'. injection Hx' as <-.
      rewrite getitem_nonneg in Hget by lia.
      change (Z.to_nat 10) with 10%nat in Hget.
      by destruct (rt !! 10%nat); simplify_eq/=.
    - by exists text, s, b, st, rows, row. }
  assert (Forall (λ d, length (samples d) = 1%nat ∧ length (burn_in d) = 1%nat ∧
                       length (steps d) = 1%nat) ds) as Hhead.
  { apply Forall_forall. intros d Hd. apply list_elem_of_lookup in Hd as [k Hk].
    destruct (Hall k d Hk) as (? & ? & ? & ? & ? & ? & _ & _ & _ & _ & _ & _ & _ & ->).
    done. }
  assert (length (ds ≫= errors) = 27%nat) as Hle.
  { rewrite length_bind_singletons; [done|].
    eapply Forall_impl; [exact Hone|]. by intros d (_ & _ & ?). }
  assert (∀ k, (k < 27)%nat → ∃ d, ds !! k = Some d) as Hds_k.
  { intros k Hk. apply lookup_lt_is_Some_2. lia. }
  assert (∀ k d (s b st : string) (rows : list (F * F * F)),
            ds !! k = Some d →
            d = {| fidelities := [(λ x, x.1.1) <$> rows];
                   runtimes := [(λ x, x.2) <$> rows];
                   errors := [(λ x, x.1.2) <$> rows];
                   samples := [s]; burn_in := [b]; steps := [st] |} →
            plot_trial nq g [] (Z.of_nat k)
            = Ok [{| plot_epochs := range 1 (Z.of_nat (length rows) + 1);
                     plot_fidelities := (λ x, x.1.1) <$> rows;
                     plot_errors := (λ x, x.1.2) <$> rows;
                     plot_title := ("Samples = " +:+ s) +:+ (" & Burn In = " +:+ b)
                                   +:+ (" & Steps = " +:+ st);
                     plot_path := "Data/Energy/Q" +:+ str_int nq
                                  +:+ "/Trial" +:+ str_int (Z.of_nat k + 1) |}]) as Hplot.
  { intros k d s b st rows Hk ->.
    rewrite (plot_trial_at nq g k ((λ x, x.1.1) <$> rows) ((λ x, x.1.2) <$> rows) s b st).
    - by rewrite length_fmap.
    - apply (lookup_bind_singletons _ _ _ _ _ (Forall_impl _ _ _ Hone
               (λ d (H : _ ∧ _ ∧ _), proj1 H)) Hk eq_refl).
    - apply (lookup_bind_singletons _ _ _ _ _ (Forall_impl _ _ _ Hone
               (λ d (H : _ ∧ _ ∧ _), proj2 (proj2 H))) Hk eq_refl).
    - apply (lookup_bind_singletons _ _ _ _ _ (Forall_impl _ _ _ Hhead
               (λ d (H : _ ∧ _ ∧ _), proj1 H)) Hk eq_refl).
    - apply (lookup_bind_singletons _ _ _ _ _ (Forall_impl _ _ _ Hhead
               (λ d (H : _ ∧ _ ∧ _), proj1 (proj2 H))) Hk eq_refl).
    - apply (lookup_bind_singletons _ _ _ _ _ (Forall_impl _ _ _ Hhead
               (λ d (H : _ ∧ _ ∧ _), proj2 (proj2 H))) Hk eq_refl). }
  assert (Forall (λ p, length p = 1%nat) ps) as Hps1.
  { apply Forall_forall. intros p Hp. apply list_elem_of_lookup in Hp as [k Hk].
    destruct (Forall2_lookup_r _ _ _ _ _ Hps Hk) as (k' & Hk' & Hp).
    apply lookup_seq in Hk' as [-> Hlt]. simpl in Hp. cbn [errors g] in Hlt.
    rewrite Hle in Hlt.
    destruct (Hds_k k Hlt) as [d Hd].
    destruct (Hall k d Hd) as (text & s & b & st & rows & row & _ & _ & _ & _ & _ & _ & _ & Heq).
    rewrite (Hplot k d s b st rows Hd Heq) in Hp. by injection Hp as <-. }
  assert (length ps = 27%nat) as Hlps.
  { apply Forall2_length in Hps. rewrite <- Hps, length_seq. exact Hle. }
  split; [done|]. split; [done|]. split.
  { rewrite concat_bind, length_bind_singletons; [done|]. exact Hps1. }
  intros k Hk. destruct (Hds_k k Hk) as [d Hd].
  destruct (Hall k d Hd) as (text & s & b & st & rows & row & ? & ? & ? & ? & ? & ? & ? & Heq).
  exists text, s, b, st, rows, row. do 7 (split; [done|]).
  assert (seq 0 (length (errors g)) !! k = Some k) as Hseq.
  { apply lookup_seq. cbn [errors g]. rewrite Hle. done. }
  destruct (Forall2_lookup_l _ _ _ _ _ Hps Hseq) as (p & Hp & Hpk).
  rewrite (Hplot k d s b st rows Hd Heq) in Hpk. injection Hpk as <-.
  rewrite concat_bind. by apply (lookup_bind_singletons id ps k _ _ Hps1 Hp).
Qed.

End AnalysisMore.

(** ** The further properties on examples *)

Section EvaluatorRuns.
Import ObservableEvaluator Caller Toy.

Lemma get_value_negative_index_witness :
  - Z.of_nat (length (observable_statistics ev1)) ≤ -1 < 0 ∧
  get_value ev1 "Heisenberg1DEnergy" (Some (-1))
    = get_value ev1 "Heisenberg1DEnergy"
        (Some (-1 + Z.of_nat (length (observable_statistics ev1)))) ∧
  get_value ev1 "Heisenberg1DEnergy" None
    = get_value ev1 "Heisenberg1DEnergy"
        (Some (Z.of_nat (length (observable_statistics ev1)) - 1)).
Proof.
  split; [simpl; lia|].
  apply (get_value_negative_index ev1 "Heisenberg1DEnergy" (-1)). simpl. lia.
Defined.

Lemma get_value_entry_witness :
  observable_statistics ev1 !! 0%nat = Some (1, [("Heisenberg1DEnergy", 7)]) ∧
  get_value ev1 "Heisenberg1DEnergy" (Some (Z.of_nat 0)) = Ok 7 ∧
  get_value ev1 "Fidelity" (Some (Z.of_nat 0)) = Raise KeyError.
Proof.
  split; [reflexivity|]. split.
  - apply (get_value_entry ev1 "Heisenberg1DEnergy" 0 1 [("Heisenberg1DEnergy", 7)]
             eq_refl).
    + simpl. apply NoDup_singleton.
    + apply list_elem_of_singleton. reflexivity.
  - apply (get_value_entry ev1 "Fidelity" 0 1 [("Heisenberg1DEnergy", 7)] eq_refl).
    simpl. rewrite list_elem_of_singleton. discriminate.
Defined.

Lemma get_value_after_recording_witness :
  (period ev0 | 1) ∧
  on_epoch_end ev0 7 1 = Ok (ev1, [Measure ["Heisenberg1DEnergy"] 7 []]) ∧
  get_value ev1 "Heisenberg1DEnergy" None
    = dict_getitem (System_measure (system ev0) 7 (sampling_kwargs ev0))
        "Heisenberg1DEnergy".
Proof.
  assert ((period ev0 | 1)) as Hdiv by (exists 1; reflexivity).
  assert (on_epoch_end ev0 7 1 = Ok (ev1, [Measure ["Heisenberg1DEnergy"] 7 []]))
    as Hcall by reflexivity.
  split; [exact Hdiv|]. split; [exact Hcall|].
  apply (get_value_after_recording ev0 7 1 ev1 [Measure ["Heisenberg1DEnergy"] 7 []]
           "Heisenberg1DEnergy" Hdiv Hcall).
Defined.

Lemma on_epochs_appends_witness :
  period (__init__ 2 ["Heisenberg1DEnergy"] false [] : t string Z Z) ≠ 0 ∧
  ∃ self' evs,
    on_epochs (__init__ 2 ["Heisenberg1DEnergy"] false [] : t string Z Z)
      [(7, 1); (8, 2); (9, 3); (10, 4)] = Ok (self', evs) ∧
    observable_statistics self'
      = [(2, [("Heisenberg1DEnergy", 8)]); (4, [("Heisenberg1DEnergy", 10)])].
Proof.
  assert (period (__init__ 2 ["Heisenberg1DEnergy"] false [] : t string Z Z) ≠ 0) as Hp
    by (simpl; lia).
  split; [exact Hp|].
  destruct (on_epochs_appends (__init__ 2 ["Heisenberg1DEnergy"] false [] : t string Z Z)
              [(7, 1); (8, 2); (9, 3); (10, 4)] Hp)
    as (self' & evs & Hrun & Hh & _).
  exists self', evs. split; [exact Hrun|]. rewrite Hh. reflexivity.
Defined.

Lemma history_epochs_increasing_witness :
  StronglySorted Z.lt ((observable_statistics ev1).*1 ++ [(8, 2); (9, 5)].*2) ∧
  ∃ self' evs,
    on_epochs ev1 [(8, 2); (9, 5)] = Ok (self', evs) ∧
    StronglySorted Z.lt (observable_statistics self').*1.
Proof.
  assert (StronglySorted Z.lt ((observable_statistics ev1).*1 ++ [(8, 2); (9, 5)].*2))
    as Hs.
  { simpl. repeat constructor; lia. }
  split; [exact Hs|].
  assert (∃ self' evs, on_epochs ev1 [(8, 2); (9, 5)] = Ok (self', evs))
    as (self' & evs & Hrun) by (eexists _, _; vm_compute; reflexivity).
  exists self', evs. split; [exact Hrun|].
  exact (history_epochs_increasing ev1 [(8, 2); (9, 5)] self' evs Hs Hrun).
Defined.

Lemma verbose_only_prints_witness :
  ∃ self' evs,
    on_epochs (__init__ 2 ["Heisenberg1DEnergy"] true [] : t string Z Z)
      [(7, 1); (8, 2); (9, 3); (10, 4)] = Ok (self', evs) ∧
    length (filter (λ e, is_Print e = true) evs) = 4%nat.
Proof.
  assert (∃ self' evs,
            on_epochs (__init__ 2 ["Heisenberg1DEnergy"] true [] : t string Z Z)
              [(7, 1); (8, 2); (9, 3); (10, 4)] = Ok (self', evs) ∧
            length (observable_statistics self') = 2%nat)
    as (self' & evs & Hrun & Hlen) by (eexists _, _; vm_compute; split; reflexivity).
  exists self', evs. split; [exact Hrun|].
  rewrite (proj1 (verbose_only_prints _ _ self' evs Hrun)), Hlen. reflexivity.
Defined.

Lemma clear_history_resets_witness :
  reachable ev1 ∧
  clear_history ev1 = ev0 ∧
  get_value (clear_history ev1) "Heisenberg1DEnergy" (Some 0) = Raise IndexError.
Proof.
  split; [exact ev1_reachable|].
  destruct (clear_history_resets ev1 ev1_reachable) as [Hinit Hget].
  split; [exact Hinit | apply Hget].
Defined.

End EvaluatorRuns.

Section RecordRuns.
Import Decimal6 Example TrainEnergy.

Lemma read_H_second_field_witness :
  files (fs0 []) !! ("Samples/" +:+ str_int 2 +:+ "Q/Observables.txt")
    = Some (("Observable Value" +:+ nl) +:+ (join " " ["H:"; "-4.0"] +:+ nl) +:+ "") ∧
  read_H (F := dec) (fs0 []) 2 = x ← float_ "-4.0"; Ok (round_ x 2).
Proof.
  assert (files (fs0 []) !! ("Samples/" +:+ str_int 2 +:+ "Q/Observables.txt")
          = Some (("Observable Value" +:+ nl) +:+ (join " " ["H:"; "-4.0"] +:+ nl) +:+ ""))
    as Hfile by reflexivity.
  split; [exact Hfile|].
  apply (read_H_second_field (fs0 []) 2 "Observable Value" "H:" "-4.0" [] "" Hfile).
  - reflexivity.
  - repeat constructor.
Defined.

Lemma read_H_errors_witness :
  read_H (F := dec) {| files := ∅; listings := ∅ |} 2 = Raise FileNotFoundError ∧
  read_H (F := dec)
    {| files := {[ "Samples/2Q/Observables.txt" := "H: -4.0" +:+ nl ]}; listings := ∅ |} 2
  = Raise IndexError.
Proof.
  split.
  - apply (proj1 (read_H_errors {| files := ∅; listings := ∅ |} 2)). reflexivity.
  - apply (proj2 (read_H_errors
                    {| files := {[ "Samples/2Q/Observables.txt" := "H: -4.0" +:+ nl ]};
                       listings := ∅ |} 2) ("H: -4.0" +:+ nl)).
    + reflexivity.
    + left. simpl. lia.
Defined.

Lemma next_trial_range_witness :
  next_trial ["Trial9.txt"] = Ok 10 ∧ 0 ≤ 10 ≤ 10.
Proof.
  assert (next_trial ["Trial9.txt"] = Ok 10) as Hrun by reflexivity.
  split; [exact Hrun|]. exact (next_trial_range ["Trial9.txt"] 10 Hrun).
Defined.

Lemma next_trial_last_digit_witness :
  next_trial (["Trial7.txt"] ++ ["Trial1" +:+ String "2" ".txt"]) = Ok 3 ∧
  next_trial (["Trial7.txt"] ++ [".txt"]) = Ok 0.
Proof.
  destruct (next_trial_last_digit ["Trial7.txt"] "Trial1" ".txt" "2") as [Hdigit Hnone].
  split; [apply Hdigit; reflexivity | apply Hnone; reflexivity].
Defined.

Lemma trainEnergy_leaves_other_records_witness :
  ∃ out,
    trainEnergy (fs0 []) 2 1000 100 100 (TrialInt 1) cbA = Ok out ∧
    resultsfile out = Analysis.trial_path 2 1 ∧
    Analysis.read_trial (fs_after out) 2 g0 2 = Analysis.read_trial (fs0 []) 2 g0 2 ∧
    read_H (F := dec) (fs_after out) 2 = read_H (fs0 []) 2.
Proof.
  assert (∃ out, trainEnergy (fs0 []) 2 1000 100 100 (TrialInt 1) cbA = Ok out)
    as [out Hrun] by (eexists; vm_compute; reflexivity).
  exists out. split; [exact Hrun|].
  destruct (trainEnergy_leaves_other_records _ _ _ _ _ _ _ _ Hrun)
    as (Hpath & _ & _ & Hother & Href).
  split; [exact Hpath|]. split; [|apply Href].
  apply Hother. discriminate.
Defined.

Lemma trainEnergy_short_series_witness :
  trainEnergy (fs0 ["Trial1.txt"]) 2 1000 100 100 (TrialStr "Next")
    {| energies := [Dec (-3500000)]; errors := [Dec 100000]; variance := [Dec 200000];
       fidelities := [Dec 900000; Dec 910000];
       runtimes := [Dec 1000000; Dec 2000000] |}
  = Raise IndexError.
Proof.
  apply (trainEnergy_short_series (fs0 ["Trial1.txt"]) 2 1000 100 100 (TrialStr "Next")
           _ (Dec (-4000000)) ["Trial1.txt"] [Dec 125000]).
  - reflexivity.
  - reflexivity.
  - intros _. discriminate.
  - reflexivity.
  - reflexivity.
  - reflexivity.
  - left. simpl. lia.
Defined.

Lemma written_row_fields_witness :
  ∃ out text line,
    trainEnergy (fs0 []) 2 1000 100 100 (TrialInt 1) cbA = Ok out ∧
    files (fs_after out) !! resultsfile out = Some text ∧
    readlines text !! (4 + 1)%nat = Some line ∧
    Analysis.fields line
    = ["0.91"; ""; "0.05"; ""; "2.0"; ""; "-3.8"; ""; "0.2"; ""; "0.1"; ""; ""].
Proof.
  assert (∃ out,
            trainEnergy (fs0 []) 2 1000 100 100 (TrialInt 1) cbA = Ok out ∧
            Forall (λ x, token (str_float (round_ x 6)) = true) (relativeErrors out) ∧
            relativeErrors out !! 1%nat = Some (Dec 50000))
    as (out & Hrun & Hrel & Hr).
  { eexists. split; [vm_compute; reflexivity|]. split; [|reflexivity].
    repeat constructor. }
  destruct (written_row_fields (fs0 []) 2 1000 100 100 (TrialInt 1) cbA out 1
              (Dec 910000) (Dec 50000) (Dec 2000000) (Dec (-3800000)) (Dec 200000)
              (Dec 100000) Hrun)
    as (text & line & Hfile & Hline & Hfields);
    [repeat constructor | exact Hrel | repeat constructor | reflexivity | exact Hr
    | reflexivity.. |].
  exists out, text, line. split; [exact Hrun|]. split; [exact Hfile|].
  split; [exact Hline|]. rewrite Hfields. reflexivity.
Defined.

Lemma parse_row_single_spaces_witness :
  Analysis.parse_row (F := dec)
    (join " " ["0.91"; "0.05"; "2.0"; "-3.8"; "0.2"; "0.1"] +:+ nl)
  = Ok (Dec 910000, Dec 2000000, Dec 200000).
Proof.
  rewrite (parse_row_single_spaces (F := dec) "0.91" "0.05" "2.0" "-3.8" "0.2" ["0.1"]).
  - reflexivity.
  - repeat constructor.
Defined.

Lemma header_without_field_witness :
  open_ (fs_trials (λ _, Some ("samples:1000" +:+ nl))) (Analysis.trial_path 2 1)
    = Ok ("samples:1000" +:+ nl) ∧
  Analysis.read_trial (fs_trials (λ _, Some ("samples:1000" +:+ nl))) 2 g0 1
    = Raise IndexError.
Proof.
  assert (open_ (fs_trials (λ _, Some ("samples:1000" +:+ nl))) (Analysis.trial_path 2 1)
          = Ok ("samples:1000" +:+ nl)) as Hopen by (vm_compute; reflexivity).
  split; [exact Hopen|].
  apply (header_without_field _ 2 g0 1 _ 0 ("samples:1000" +:+ nl) Hopen).
  - lia.
  - reflexivity.
  - reflexivity.
Defined.

Lemma title_line_not_read_witness :
  Analysis.read_trial (fs_trials (λ _, Some untitled_row_txt)) 2 g0 1
  = Analysis.read_trial (fs_trials (λ _, Some one_row_txt)) 2 g0 1.
Proof.
  apply (title_line_not_read (fs_trials (λ _, Some one_row_txt))
           (fs_trials (λ _, Some untitled_row_txt)) 2 g0 1
           one_row_txt untitled_row_txt ("no titles" +:+ nl)).
  - vm_compute. reflexivity.
  - vm_compute. reflexivity.
  - vm_compute. reflexivity.
Defined.

Lemma analysis_missing_file_witness :
  Analysis.analysis (F := dec)
    (fs_trials (λ i, if bool_decide (i = 1) then Some one_row_txt else None)) 2
  = Raise FileNotFoundError.
Proof.
  apply (analysis_missing_file _ 2 2).
  - lia.
  - vm_compute. reflexivity.
  - intros j Hj. assert (j = 1) as -> by lia. eexists. vm_compute. reflexivity.
Defined.

Lemma analysis_follows_files_witness :
  ∃ out,
    Analysis.analysis (fs_trials (λ _, Some five_fields_txt)) 2 = Ok out ∧
    length (Analysis.plots out) = 27%nat ∧
    Analysis.plot_path <$> Analysis.plots out !! 26%nat = Some "Data/Energy/Q2/Trial27".
Proof.
  assert (∃ out, Analysis.analysis (fs_trials (λ _, Some five_fields_txt)) 2 = Ok out)
    as [out Hrun] by (eexists; vm_compute; reflexivity).
  exists out. split; [exact Hrun|].
  destruct (analysis_follows_files _ 2 out Hrun) as (_ & _ & Hlen & Hplots).
  split; [exact Hlen|].
  destruct (Hplots 26%nat) as (text & s & b & st & rows & row & _ & _ & _ & _ & _ & _ & _ & ->);
    [lia|].
  reflexivity.
Defined.

End RecordRuns.
